(** * trekker-tokens: the token builder and the token differ

    A shallow embedding of [scripts/build_tokens.py] and
    [scripts/diff_tokens.py] of the sync-trekker-tokens skill, and the
    properties of the two scripts stated in the specification.

    Layout:
    - [Py]: the Python values the scripts compute with (what [json.load]
      returns), exceptions as an error monad, and the built-in operations
      the scripts call ([dict.get], [in], [==], [str.split], ...);
    - [DiffTokens]: [diff_tokens.py];
    - [BuildTokens]: [build_tokens.py];
    - the theorems, one section per script. *)

From Stdlib Require Import ZArith String Ascii SpecFloat DecimalString.
From stdpp Require Import gmap strings list sorting.

#[local] Open Scope string_scope.
Set Warnings "-register-all".

(* ===================================================================== *)
(** * Python values and built-ins                                          *)
(* ===================================================================== *)

Module Py.

(** The exceptions the two scripts can raise. *)
Inductive exn :=
  | KeyError | TypeError | AttributeError | ValueError | OverflowError
  | JSONDecodeError | FileNotFoundError.

#[global] Instance exn_eq_dec : EqDecision exn.
Proof. solve_decision. Defined.

(** A computation either returns or raises. *)
Inductive result (A : Type) : Type :=
  | Ok (a : A)
  | Raise (e : exn).
Arguments Ok {A} a.
Arguments Raise {A} e.

#[global] Instance result_ret : MRet result := @Ok.
#[global] Instance result_bind : MBind result :=
  λ A B f m, match m with Ok a => f a | Raise e => Raise e end.

Definition is_ok {A} (r : result A) : bool :=
  match r with Ok _ => true | Raise _ => false end.

(** [for x in xs: acc = body(acc, x)], stopping at the first exception. *)
Fixpoint for_each {A S} (body : S → A → result S) (xs : list A) (acc : S)
  : result S :=
  match xs with
  | [] => Ok acc
  | x :: xs' => acc' ← body acc x; for_each body xs' acc'
  end.

(** ** Values

    What [json.load] returns: [None], [bool], [int], [float], [str], [list]
    and [dict] with [str] keys.  A [dict] keeps its insertion order, so it
    is an association list; [json.load] never produces a repeated key.
    A [float] is an IEEE-754 binary64 number.  A [str] is its UTF-8
    encoding: the order of byte strings is the order of code points, and
    the ASCII separators the scripts split on never occur inside a
    multi-byte character. *)
Inductive json :=
  | JNull
  | JBool (b : bool)
  | JInt (z : Z)
  | JFloat (f : spec_float)
  | JStr (s : string)
  | JList (l : list json)
  | JDict (d : list (string * json)).

Abbreviation dict := (list (string * json)).

(** Induction over values, through the lists and the dictionaries. *)
Section json_induction.
Variable P : json → Prop.
Hypothesis Hnull : P JNull.
Hypothesis Hbool : ∀ b, P (JBool b).
Hypothesis Hint : ∀ z, P (JInt z).
Hypothesis Hfloat : ∀ f, P (JFloat f).
Hypothesis Hstr : ∀ s, P (JStr s).
Hypothesis Hlist : ∀ l, Forall P l → P (JList l).
Hypothesis Hdict : ∀ d, Forall (λ kv, P kv.2) d → P (JDict d).

Fixpoint json_rect_nested (v : json) : P v :=
  match v with
  | JNull => Hnull
  | JBool b => Hbool b
  | JInt z => Hint z
  | JFloat f => Hfloat f
  | JStr s => Hstr s
  | JList l =>
      Hlist l ((fix go (l : list json) : Forall P l :=
                  match l with
                  | [] => Forall_nil_2 P
                  | x :: l' => Forall_cons_2 P x l' (json_rect_nested x) (go l')
                  end) l)
  | JDict d =>
      Hdict d ((fix go (d : dict) : Forall (λ kv, P kv.2) d :=
                  match d with
                  | [] => Forall_nil_2 _
                  | kv :: d' =>
                      Forall_cons_2 (λ kv, P kv.2) kv d'
                        (json_rect_nested kv.2) (go d')
                  end) d)
  end.
End json_induction.

(** ** Strings *)

Definition str_startswith (s p : string) : bool := String.prefix p s.

(** [needle in hay] for two strings. *)
Fixpoint str_contains (needle hay : string) : bool :=
  String.prefix needle hay ||
  match hay with
  | "" => false
  | String _ hay' => str_contains needle hay'
  end.

(** [s.split(sep)] for a one-character separator. *)
Fixpoint str_split (sep : ascii) (s : string) : list string :=
  match s with
  | "" => [""]
  | String c s' =>
      if Ascii.eqb c sep then "" :: str_split sep s'
      else match str_split sep s' with
           | seg :: rest => String c seg :: rest
           | [] => [String c ""]
           end
  end.

(** [s.replace(a, b)] for one-character [a] and [b]. *)
Fixpoint str_replace (a b : ascii) (s : string) : string :=
  match s with
  | "" => ""
  | String c s' => String (if Ascii.eqb c a then b else c) (str_replace a b s')
  end.

(** Lower case on the ASCII letters, where [s.lower()] is this. *)
Definition ascii_lower (c : ascii) : ascii :=
  let n := nat_of_ascii c in
  if (65 <=? n)%nat && (n <=? 90)%nat then ascii_of_nat (n + 32) else c.

Fixpoint lower_ascii (s : string) : string :=
  match s with
  | "" => ""
  | String c s' => String (ascii_lower c) (lower_ascii s')
  end.

Definition slash : ascii := "/"%char.

(** ** Dictionaries *)

Fixpoint dict_get {A} (k : string) (d : list (string * A)) : option A :=
  match d with
  | [] => None
  | (k', v) :: d' => if String.eqb k k' then Some v else dict_get k d'
  end.

Definition dict_has {A} (k : string) (d : list (string * A)) : bool :=
  match dict_get k d with Some _ => true | None => false end.

(** [d[k] = v]: an existing key keeps its place, a new key goes last. *)
Fixpoint dict_set {A} (k : string) (v : A) (d : list (string * A))
  : list (string * A) :=
  match d with
  | [] => [(k, v)]
  | (k', v') :: d' =>
      if String.eqb k k' then (k, v) :: d' else (k', v') :: dict_set k v d'
  end.

Definition dict_keys {A} (d : list (string * A)) : list string := d.*1.

(** ** Numbers *)

Definition prec : Z := 53.
Definition emax : Z := 1024.

(** The [float] nearest to an [int] (the conversion [int * float] makes). *)
Definition float_of_Z (z : Z) : spec_float :=
  binary_normalize prec emax z 0 false.

(** [f == z] for a [float] and an [int]: Python compares the exact values. *)
Definition float_eq_Z (f : spec_float) (z : Z) : bool :=
  match f with
  | S754_zero _ => (z =? 0)%Z
  | S754_finite s m e =>
      let v := if s then Z.neg m else Z.pos m in
      if (0 <=? e)%Z then (z =? v * 2 ^ e)%Z else (z * 2 ^ (- e) =? v)%Z
  | _ => false
  end.

Variant number := NInt (z : Z) | NFloat (f : spec_float).

(** [bool] is a subclass of [int]: [True == 1]. *)
Definition as_number (v : json) : option number :=
  match v with
  | JBool b => Some (NInt (Z.b2z b))
  | JInt z => Some (NInt z)
  | JFloat f => Some (NFloat f)
  | _ => None
  end.

(** Two [nan] are the same object: the parser has one [nan], which
    [json.load] returns for every NaN of a text, and nothing else in the
    scripts makes a [float] that is kept.  Loaded values are compared
    inside lists and dictionaries and as keys only, where identical
    objects count as equal; the other operands of [==] are literals, none
    of them [nan]. *)
Definition num_eq (a b : number) : bool :=
  match a, b with
  | NInt x, NInt y => (x =? y)%Z
  | NFloat S754_nan, NFloat S754_nan => true
  | NFloat f, NFloat g => SFeqb f g
  | NFloat f, NInt z | NInt z, NFloat f => float_eq_Z f z
  end.

(** ** Equality

    Python's [==] on the values the scripts compare: numbers by value
    across [bool], [int] and [float] (the one [nan] of the parser equals
    itself as an element or a key, see [num_eq]), lists element by
    element, dictionaries key by key whatever the order. *)
Fixpoint py_eq (a b : json) {struct a} : bool :=
  match a, b with
  | JNull, JNull => true
  | JStr s, JStr t => String.eqb s t
  | JList l, JList l' =>
      (fix go (l l' : list json) {struct l} : bool :=
         match l, l' with
         | [], [] => true
         | x :: l, y :: l' => py_eq x y && go l l'
         | _, _ => false
         end) l l'
  | JDict d, JDict d' =>
      (length d =? length d')%nat &&
      (fix go (d : dict) {struct d} : bool :=
         match d with
         | [] => true
         | kv :: d =>
             match dict_get kv.1 d' with
             | Some v' => py_eq kv.2 v'
             | None => false
             end && go d
         end) d
  | _, _ =>
      match as_number a, as_number b with
      | Some x, Some y => num_eq x y
      | _, _ => false
      end
  end.

(** [bool(v)], the truth value of [if v]. *)
Definition py_truthy (v : json) : bool :=
  match v with
  | JNull => false
  | JBool b => b
  | JInt z => negb (z =? 0)%Z
  | JFloat (S754_zero _) => false
  | JFloat _ => true
  | JStr s => negb (String.eqb s "")
  | JList l => match l with [] => false | _ => true end
  | JDict d => match d with [] => false | _ => true end
  end.

(** ** Built-in operations that can raise *)

(** [v.get(k, default)]: only a [dict] has [get]. *)
Definition py_get (v : json) (k : string) (dflt : json) : result json :=
  match v with
  | JDict d => Ok (default dflt (dict_get k d))
  | _ => Raise AttributeError
  end.

(** [v[k]] for a string key: [KeyError] on a [dict] without the key,
    [TypeError] on a [list] or [str] (their indices are integers) and on
    anything else (not subscriptable). *)
Definition py_index (v : json) (k : string) : result json :=
  match v with
  | JDict d => match dict_get k d with Some x => Ok x | None => Raise KeyError end
  | _ => Raise TypeError
  end.

(** [k in v] for a string [k]: a key of a [dict], a substring of a [str],
    an element of a [list]; anything else is not iterable. *)
Definition py_in (k : string) (v : json) : result bool :=
  match v with
  | JDict d => Ok (dict_has k d)
  | JStr s => Ok (str_contains k s)
  | JList l => Ok (existsb (py_eq (JStr k)) l)
  | _ => Raise TypeError
  end.

(** [v.items()]: only a [dict] has [items]. *)
Definition py_items (v : json) : result dict :=
  match v with
  | JDict d => Ok d
  | _ => Raise AttributeError
  end.

(** [for x in v]: the elements of a [list], the keys of a [dict], the
    characters of a [str]. *)
Definition py_iter (v : json) : result (list json) :=
  match v with
  | JList l => Ok l
  | JDict d => Ok (JStr <$> dict_keys d)
  | JStr s => Ok ((λ c, JStr (String c "")) <$> list_ascii_of_string s)
  | _ => Raise TypeError
  end.

(** [len(v)]. *)
Definition py_len (v : json) : result nat :=
  match v with
  | JList l => Ok (length l)
  | JDict d => Ok (length d)
  | JStr s => Ok (String.length s)
  | _ => Raise TypeError
  end.

Definition str_of_Z (z : Z) : string := NilZero.string_of_int (Z.to_int z).
Definition str_of_nat (n : nat) : string := str_of_Z (Z.of_nat n).

(** [str(v)], as an f-string formats [v].  [repr] stands for Python's
    text of a [float], a [list] or a [dict]. *)
Definition py_str (repr : json → string) (v : json) : string :=
  match v with
  | JStr s => s
  | JNull => "None"
  | JBool true => "True"
  | JBool false => "False"
  | JInt z => str_of_Z z
  | _ => repr v
  end.

(** A value is hashable (can be a [dict] key) unless it is a [list] or a
    [dict]. *)
Definition hashable (v : json) : bool :=
  match v with
  | JList _ | JDict _ => false
  | _ => true
  end.

(** A Python [dict] keyed by values ([k in m], [m[k]], [m[k] = v]): keys
    are found by [==]; an unhashable key raises [TypeError]. *)
Definition table := list (json * json).

Fixpoint table_get (k : json) (m : table) : option json :=
  match m with
  | [] => None
  | (k', v) :: m' => if py_eq k' k then Some v else table_get k m'
  end.

Fixpoint table_set (k v : json) (m : table) : table :=
  match m with
  | [] => [(k, v)]
  | (k', v') :: m' =>
      if py_eq k' k then (k', v) :: m' else (k', v') :: table_set k v m'
  end.

Definition py_table_set (k v : json) (m : table) : result table :=
  if hashable k then Ok (table_set k v m) else Raise TypeError.

Definition py_table_get (k : json) (m : table) : result (option json) :=
  if hashable k then Ok (table_get k m) else Raise TypeError.

(** Strict JSON as Python holds it: no [nan], and no key twice in a
    dictionary.  [json.load] yields such a value on every text that is
    JSON in the sense of RFC 8259. *)
Fixpoint strict_json (v : json) : bool :=
  match v with
  | JFloat S754_nan => false
  | JList l => forallb strict_json l
  | JDict d =>
      bool_decide (NoDup (dict_keys d)) && forallb (λ kv, strict_json kv.2) d
  | _ => true
  end.

(** ** The library functions the scripts rely on

    [json.load] and [json.dump] work on the text of a file, [datetime]
    formats the clock, [str.lower] follows the Unicode tables; none of
    them is part of the scripts.  Times are clock readings in
    microseconds. *)
Class Runtime := {
  py_repr : json → string;
  str_lower : string → string;
  json_loads : string → result json;
  json_dumps : json → string;
  isoformat : Z → string;
  strftime_stamp : Z → string;
}.

End Py.

(* ===================================================================== *)
(** * Files, standard output and the exit status                          *)
(* ===================================================================== *)

Module OS.
Import Py.

(** A path is the list of its components, as [pathlib] keeps it: the
    parent drops the last component and [/] adds one. *)
Definition path := list string.

Definition path_parts (s : string) : path :=
  let segs :=
    List.filter (λ seg, negb (String.eqb seg "") && negb (String.eqb seg "."))
      (str_split slash s) in
  if str_startswith s "/" then "/" :: segs else segs.

Definition parent (p : path) : path := removelast p.

Record file := { f_data : string; f_mtime : Z }.

Record world := { files : gmap path file; stdout : list string }.

(** How a run ends early: [sys.exit(code)] or an uncaught exception. *)
Inductive stop := Exited (code : Z) | Uncaught (e : exn).

(** A script is a state transformer that returns, exits or raises. *)
Definition prog (A : Type) : Type := world → (A + stop) * world.

#[global] Instance prog_ret : MRet prog := λ A a w, (inl a, w).
#[global] Instance prog_bind : MBind prog :=
  λ A B f m w,
    match m w with
    | (inl a, w') => f a w'
    | (inr s, w') => (inr s, w')
    end.

Definition lift {A} (r : result A) : prog A :=
  λ w, match r with Ok a => (inl a, w) | Raise e => (inr (Uncaught e), w) end.

Definition sys_exit {A} (code : Z) : prog A := λ w, (inr (Exited code), w).

Definition print (line : string) : prog unit :=
  λ w, (inl (), {| files := files w; stdout := stdout w ++ [line] |}).

Definition exists_file (p : path) : prog bool :=
  λ w, (inl (bool_decide (is_Some (files w !! p))), w).

(** [open(p).read()]. *)
Definition read_file (p : path) : prog string :=
  λ w, match files w !! p with
       | Some f => (inl (f_data f), w)
       | None => (inr (Uncaught FileNotFoundError), w)
       end.

(** [open(p, "w").write(data)] at time [t]. *)
Definition write_file (p : path) (data : string) (t : Z) : prog unit :=
  λ w, (inl (), {| files := <[p := {| f_data := data; f_mtime := t |}]> (files w);
                   stdout := stdout w |}).

(** The exit status the shell sees. *)
Definition exit_code {A} (r : A + stop) : Z :=
  match r with
  | inl _ => 0
  | inr (Exited c) => c
  | inr (Uncaught _) => 1
  end.

End OS.

(* ===================================================================== *)
(** * diff_tokens.py                                                       *)
(* ===================================================================== *)

Module DiffTokens.
Import Py OS.

Section Script.
Context `{Runtime}.

(** The value [flatten_tokens] stores under a key.  [t["name"]] succeeds
    on a [dict] only, so [raw] is one. *)
Record flat_token := {
  raw : dict;
  collection : string;
  group : string;
  name : json;
}.

Definition flatten_item (coll_key grp_key : string)
    (tokens : gmap string flat_token) (t : json)
  : result (gmap string flat_token) :=
  match t with
  | JDict d =>
      match dict_get "name" d with
      | Some name =>
          let key := coll_key ++ "/" ++ grp_key ++ "/" ++ py_str py_repr name in
          Ok (<[key := {| raw := d; collection := coll_key;
                          group := grp_key; name := name |}]> tokens)
      | None => Raise KeyError
      end
  | _ => Raise TypeError
  end.

Definition flatten_group (coll_key : string)
    (tokens : gmap string flat_token) (kv : string * json)
  : result (gmap string flat_token) :=
  let '(grp_key, grp) := kv in
  styles ← py_get grp "styles" (JList []);
  items ← py_get grp "tokens" styles;
  ts ← py_iter items;
  for_each (flatten_item coll_key grp_key) ts tokens.

Definition flatten_collection
    (tokens : gmap string flat_token) (kv : string * json)
  : result (gmap string flat_token) :=
  let '(coll_key, coll) := kv in
  groups ← py_get coll "groups" (JDict []);
  grp_items ← py_items groups;
  for_each (flatten_group coll_key) grp_items tokens.

Definition flatten_tokens (data : json) : result (gmap string flat_token) :=
  colls ← py_get data "collections" (JDict []);
  coll_items ← py_items colls;
  for_each flatten_collection coll_items ∅.

Definition extract_hex (mode_val : json) : json :=
  match mode_val with
  | JDict d => default JNull (dict_get "hex" d)
  | JStr s => JStr s
  | _ => JNull
  end.

Definition token_display (token : dict) : dict :=
  let result := [] in
  let result :=
    match dict_get "light" token with
    | Some v => dict_set "light" (extract_hex v) result
    | None => result
    end in
  let result :=
    match dict_get "dark" token with
    | Some v => dict_set "dark" (extract_hex v) result
    | None => result
    end in
  match dict_get "value" token with
  | Some val =>
      if dict_has "light" token then result
      else dict_set "value"
             (match val with JDict _ => JStr (py_repr val) | _ => val end)
             result
  | None => result
  end.

Definition comparable (token : dict) : dict :=
  List.filter (λ kv, negb (str_startswith kv.1 "_")) token.

(** [sorted(keys)] of a set of strings. *)
Definition sorted (keys : gset string) : list string :=
  merge_sort String.le (elements keys).

Definition added_entry (t : flat_token) : json :=
  let entry := [("type", JStr "added"); ("collection", JStr (collection t));
                ("group", JStr (group t)); ("name", name t)] in
  let display := token_display (raw t) in
  JDict (if py_truthy (JDict display)
         then dict_set "value" (JDict display) entry else entry).

Definition removed_entry (t : flat_token) : json :=
  JDict [("type", JStr "removed"); ("collection", JStr (collection t));
         ("group", JStr (group t)); ("name", name t)].

Definition changed_entry (old new : flat_token) : json :=
  JDict [("type", JStr "changed"); ("collection", JStr (collection new));
         ("group", JStr (group new)); ("name", name new);
         ("before", JDict (token_display (raw old)));
         ("after", JDict (token_display (raw new)))].

(** [old_cmp != new_cmp]. *)
Definition differs (old new : flat_token) : bool :=
  negb (py_eq (JDict (comparable (raw old))) (JDict (comparable (raw new)))).

Definition diff_maps (old_tokens new_tokens : gmap string flat_token)
  : list json :=
  let old_keys := dom old_tokens in
  let new_keys := dom new_tokens in
  let added :=
    omap (λ k, added_entry <$> new_tokens !! k) (sorted (new_keys ∖ old_keys)) in
  let removed :=
    omap (λ k, removed_entry <$> old_tokens !! k) (sorted (old_keys ∖ new_keys)) in
  let changed :=
    omap (λ k, o ← old_tokens !! k; n ← new_tokens !! k;
               if differs o n then Some (changed_entry o n) else None)
         (sorted (old_keys ∩ new_keys)) in
  added ++ removed ++ changed.

Definition diff (old_data new_data : json) : result (list json) :=
  old_tokens ← flatten_tokens old_data;
  new_tokens ← flatten_tokens new_data;
  Ok (diff_maps old_tokens new_tokens).

(** [len([c for c in changes if c["type"] == kind])]. *)
Definition count_type (kind : string) (changes : list json) : result nat :=
  for_each (λ n c, ty ← py_index c "type";
                   Ok (if py_eq ty (JStr kind) then S n else n)) changes 0.

(** [sys.argv.index("--notes")]. *)
Fixpoint argv_index (flag : string) (argv : list string) : option nat :=
  match argv with
  | [] => None
  | a :: argv' => if String.eqb a flag then Some 0
                  else S <$> argv_index flag argv'
  end.

Definition parse_notes (argv : list string) : json :=
  match argv_index "--notes" argv with
  | Some idx => match argv !! (idx + 1) with Some n => JStr n | None => JNull end
  | None => JNull
  end.

Definition usage : string :=
  "Usage: python3 diff_tokens.py <old_tokens> <new_tokens> [--notes 'description']".

Definition default_notes (added changed removed : nat) : string :=
  "Sync: +" ++ str_of_nat added ++ " added, ~" ++ str_of_nat changed
  ++ " changed, -" ++ str_of_nat removed ++ " removed.".

(** [changelog.append(entry)]: only a [list] has [append]. *)
Definition list_append (v entry : json) : result json :=
  match v with
  | JList l => Ok (JList (l ++ [entry]))
  | _ => Raise AttributeError
  end.

(** [new_data["changelog"] = changelog]: [new_data.get] succeeded before, so
    [new_data] is a [dict]. *)
Definition set_item (v : json) (k : string) (x : json) : result json :=
  match v with
  | JDict d => Ok (JDict (dict_set k x d))
  | JList _ => Raise TypeError
  | _ => Raise TypeError
  end.

(** The changelog entry [main] appends. *)
Definition changelog_entry (date : string) (changes : list json)
    (added changed removed : nat) (notes : json) : json :=
  JDict [("date", JStr date);
         ("changes", JList changes);
         ("summary", JDict [("added", JInt (Z.of_nat added));
                            ("changed", JInt (Z.of_nat changed));
                            ("removed", JInt (Z.of_nat removed))]);
         ("notes", if py_truthy notes then notes
                   else JStr (default_notes added changed removed))].

(** [main()]: [argv] is [sys.argv], [t_now] the clock when the entry is
    dated and [t_write] the clock when the file is written. *)
Definition main (argv : list string) (t_now t_write : Z) : prog unit :=
  if bool_decide (length argv < 3) then
    print usage;; sys_exit 1
  else
    let old_path := default "" (argv !! 1) in
    let new_path := default "" (argv !! 2) in
    let notes := parse_notes argv in
    old_text ← read_file (path_parts old_path);
    old_data ← lift (json_loads old_text);
    new_text ← read_file (path_parts new_path);
    new_data ← lift (json_loads new_text);
    changes ← lift (diff old_data new_data);
    added ← lift (count_type "added" changes);
    changed ← lift (count_type "changed" changes);
    removed ← lift (count_type "removed" changes);
    print ("Added: " ++ str_of_nat added ++ ", Changed: " ++ str_of_nat changed
           ++ ", Removed: " ++ str_of_nat removed);;
    if negb (py_truthy (JList changes)) then
      print "No changes detected â€” skipping changelog entry."
    else
      let entry :=
        changelog_entry (isoformat t_now) changes added changed removed notes in
      changelog ← lift (py_get new_data "changelog" (JList []));
      changelog ← lift (list_append changelog entry);
      new_data ← lift (set_item new_data "changelog" changelog);
      write_file (path_parts new_path) (json_dumps new_data) t_write;;
      n ← lift (py_len changelog);
      print ("Appended changelog entry #" ++ str_of_nat n ++ " to " ++ new_path).

End Script.
End DiffTokens.

(* ===================================================================== *)
(** * build_tokens.py                                                      *)
(* ===================================================================== *)

Module BuildTokens.
Import Py OS.

(** ** Numbers to text *)

(** The integer nearest to [m * 2^e] for [m >= 0], ties to the even one:
    Python 3's [round] on a [float]. *)
Definition round_half_even (m e : Z) : Z :=
  if (0 <=? e)%Z then (m * 2 ^ e)%Z
  else
    let d := (2 ^ (- e))%Z in
    let q := (m / d)%Z in
    match (2 * (m mod d) ?= d)%Z with
    | Lt => q
    | Gt => (q + 1)%Z
    | Eq => if Z.even q then q else (q + 1)%Z
    end.

(** [round(x)] for a [float]. *)
Definition py_round (x : spec_float) : result Z :=
  match x with
  | S754_zero _ => Ok 0%Z
  | S754_finite s m e => Ok (cond_Zopp s (round_half_even (Z.pos m) e))
  | S754_infinity _ => Raise OverflowError
  | S754_nan => Raise ValueError
  end.

(** [round(c * 255)]: an [int] stays an [int], a [float] is multiplied as
    a [float] and rounded; a [str] or [list] can be repeated 255 times but
    not rounded. *)
Definition channel (c : json) : result Z :=
  match c with
  | JBool b => Ok (Z.b2z b * 255)%Z
  | JInt z => Ok (z * 255)%Z
  | JFloat x => py_round (SFmul prec emax x (float_of_Z 255))
  | _ => Raise TypeError
  end.

Definition hex_digit (n : Z) : ascii :=
  default "0"%char (list_ascii_of_string "0123456789ABCDEF" !! Z.to_nat n).

Fixpoint hex_digits (fuel : nat) (n : Z) : string :=
  match fuel with
  | O => ""
  | S fuel' =>
      if (n <? 16)%Z then String (hex_digit n) ""
      else hex_digits fuel' (n / 16) ++ String (hex_digit (n mod 16)) ""
  end.

(** [f"{z:X}"] for [z >= 0]. *)
Definition hex_of (n : Z) : string := hex_digits (S (Z.to_nat (Z.log2 n))) n.

(** [f"{z:02X}"]: upper-case hexadecimal, padded with zeros to two
    characters, the sign included. *)
Definition format_02X (z : Z) : string :=
  if (z <? 0)%Z then "-" ++ hex_of (- z)
  else if (z <? 16)%Z then "0" ++ hex_of z
  else hex_of z.

Definition rgb_to_hex (r g b : json) : result string :=
  r_int ← channel r;
  g_int ← channel g;
  b_int ← channel b;
  Ok (format_02X r_int ++ format_02X g_int ++ format_02X b_int).

(** ** Helpers *)

(** [s.split("/")]: only a [str] has [split]. *)
Definition py_split (v : json) : result (list string) :=
  match v with
  | JStr s => Ok (str_split slash s)
  | _ => Raise AttributeError
  end.

Definition get_alias_suffix (alias : json) : result json :=
  has ← py_in "/" alias;
  if (has : bool) then parts ← py_split alias; Ok (JStr (List.last parts ""))
  else Ok alias.

Definition load_figma_data (filepath : string) `{Runtime} : prog json :=
  text ← read_file (path_parts filepath);
  lift (json_loads text).

Fixpoint find_in (cols : list json) (name : string) : result (option json) :=
  match cols with
  | [] => Ok None
  | col :: cols' =>
      n ← py_get col "name" JNull;
      if py_eq n (JStr name) then Ok (Some col) else find_in cols' name
  end.

Definition find_collection (collections : json) (name : string)
  : result (option json) :=
  cols ← py_iter collections;
  find_in cols name.

(** The key [json.dump] writes for a [dict] key: a [str] as it is, the
    other keys a [dict] can have as their JSON text. *)
Definition dump_key `{Runtime} (k : json) : string :=
  match k with
  | JStr s => s
  | JNull => "null"
  | JBool true => "true"
  | JBool false => "false"
  | JInt z => str_of_Z z
  | _ => py_repr k
  end.

(** [{m["name"]: m["id"] for m in modes}]: the modes are keyed by their
    names as values, so that names that are equal share one key; the keys
    become text when the document is dumped, each on its own. *)
Definition get_collection_meta `{Runtime} (collection : json) : result json :=
  cid ← py_get collection "id" (JStr "");
  modes ← py_get collection "modes" (JList []);
  ms ← py_iter modes;
  mode_ids ← for_each (λ (acc : table) (m : json),
                                n ← py_index m "name";
                                i ← py_index m "id";
                                py_table_set n i acc) ms [];
  Ok (JDict [("collectionId", cid);
             ("modes", JDict ((λ kv : json * json, (dump_key kv.1, kv.2))
                                <$> mode_ids))]).

Definition get_figma_ids (var : json) : result dict :=
  id ← py_get var "id" (JStr "");
  let ids := [("_figmaId", id)] in
  values ← py_get var "values" (JDict []);
  items ← py_items values;
  alias_ids ← for_each (λ (acc : dict) (kv : string * json),
                 has ← py_in "aliasId" kv.2;
                 if (has : bool) then a ← py_index kv.2 "aliasId"; Ok (dict_set kv.1 a acc)
                 else Ok acc) items [];
  Ok (if py_truthy (JDict alias_ids)
      then dict_set "_aliasIds" (JDict alias_ids) ids else ids).

Fixpoint find_mode (modes : list json) (mode_name : string) : result json :=
  match modes with
  | [] => Ok JNull
  | mode :: modes' =>
      n ← py_get mode "name" JNull;
      if py_eq n (JStr mode_name) then py_get mode "id" JNull
      else find_mode modes' mode_name
  end.

Definition get_mode_id_by_name (collection : json) (mode_name : string)
  : result json :=
  modes ← py_get collection "modes" (JList []);
  ms ← py_iter modes;
  find_mode ms mode_name.

(** ** Groups

    [groups] is the dictionary [{key: {"label": ..., "tokens": [...]}}]
    the builders fill in; [kind] is ["tokens"] or ["styles"]. *)
Record group := { label : string; tokens : list json }.

Abbreviation groups := (list (string * group)).

(** [groups[key][kind].append(token)]. *)
Definition append_token (key : string) (token : json) (gs : groups) : groups :=
  (λ kg : string * group,
     if String.eqb key kg.1
     then (kg.1, {| label := label kg.2; tokens := tokens kg.2 ++ [token] |})
     else kg) <$> gs.

(** [seg not in groups]: an unhashable [seg] raises. *)
Definition group_of (seg : json) (gs : groups) : result (option string) :=
  match seg with
  | JStr s => Ok (if dict_has s gs then Some s else None)
  | JList _ | JDict _ => Raise TypeError
  | _ => Ok None
  end.

Definition group_json (kind : string) (g : group) : json :=
  JDict [("label", JStr (label g)); (kind, JList (tokens g))].

Definition groups_json (kind : string) (gs : groups) : json :=
  JDict ((λ kg : string * group, (kg.1, group_json kind kg.2)) <$> gs).

(** [{k: v for k, v in groups.items() if v["tokens"]}]. *)
Definition drop_empty (gs : groups) : groups :=
  List.filter (λ kg, py_truthy (JList (tokens kg.2))) gs.

(** [var_name.split("/")[0] if "/" in var_name else var_name]. *)
Definition first_segment (var_name : json) : result json :=
  has ← py_in "/" var_name;
  if (has : bool) then parts ← py_split var_name; Ok (JStr (hd "" parts))
  else Ok var_name.

(** [var["values"][mode]], when [mode in var.get("values", {})]. *)
Definition mode_data (var : json) (mode : string) : result (option json) :=
  values ← py_get var "values" (JDict []);
  has ← py_in mode values;
  if (has : bool) then
    values ← py_index var "values";
    d ← py_index values mode;
    Ok (Some d)
  else Ok None.

(** ** Color *)

(** The [light] / [dark] value of a [COLOR] variable. *)
Definition color_value (data : json) : result json :=
  resolved ← py_get data "resolved" JNull;
  let val := [] in
  has_r ← (if py_truthy resolved then py_in "r" resolved else Ok false);
  val ← (if (has_r : bool) then
           r ← py_index resolved "r";
           g ← py_index resolved "g";
           b ← py_index resolved "b";
           hex ← rgb_to_hex r g b;
           Ok (dict_set "hex" (JStr hex) val)
         else Ok val);
  has_alias ← py_in "alias" data;
  val ← (if (has_alias : bool) then
           alias ← py_index data "alias";
           suffix ← get_alias_suffix alias;
           Ok (dict_set "alias" suffix val)
         else Ok val);
  Ok (JDict val).

(** The [light] / [dark] value of a [FLOAT] variable. *)
Definition float_value (data : json) : result json :=
  resolved ← py_get data "resolved" JNull;
  Ok (match resolved with
      | JNull => JDict []
      | _ => JDict [("value", resolved)]
      end).

Definition set_mode (value_of : json → result json) (var : json)
    (mode key : string) (token : dict) : result dict :=
  md ← mode_data var mode;
  match md : option json with
  | Some data => val ← value_of data; Ok (dict_set key val token)
  | None => Ok token
  end.

Definition color_step (gs : groups) (var : json) : result groups :=
  var_name ← py_index var "name";
  var_type ← py_index var "type";
  description ← py_get var "description" (JStr "");
  seg ← first_segment var_name;
  grp ← group_of seg gs;
  match grp : option string with
  | None => Ok gs
  | Some key =>
      figma_ids ← get_figma_ids var;
      let token : dict :=
        ([("name", var_name); ("description", description)] ++ figma_ids)%list in
      if py_eq var_type (JStr "COLOR") then
        token ← set_mode color_value var "Light" "light" token;
        token ← set_mode color_value var "Dark" "dark" token;
        Ok (append_token key (JDict token) gs)
      else if py_eq var_type (JStr "FLOAT") then
        token ← set_mode float_value var "Light" "light" token;
        token ← set_mode float_value var "Dark" "dark" token;
        Ok (append_token key (JDict token) gs)
      else Ok gs
  end.

Definition color_groups : groups :=
  [("background", {| label := "Background"; tokens := [] |});
   ("border", {| label := "Border"; tokens := [] |});
   ("icon", {| label := "Icon"; tokens := [] |});
   ("link", {| label := "Link"; tokens := [] |});
   ("skeleton", {| label := "Skeleton"; tokens := [] |});
   ("text", {| label := "Text"; tokens := [] |});
   ("opacity", {| label := "Opacity"; tokens := [] |})].

(** [col.get("variables", [])], ready to be iterated. *)
Definition variables (col : json) : result (list json) :=
  vars ← py_get col "variables" (JList []);
  py_iter vars.

Definition build_color_collection `{Runtime} (figma_data : json) : result json :=
  color_col ← find_collection figma_data "Color";
  match color_col : option json with
  | None =>
      Ok (JDict [("name", JStr "Color");
                 ("modes", JList [JStr "Light"; JStr "Dark"]);
                 ("groups", JDict [])])
  | Some color_col =>
      meta ← get_collection_meta color_col;
      vars ← variables color_col;
      gs ← for_each color_step vars color_groups;
      Ok (JDict [("name", JStr "Color");
                 ("modes", JList [JStr "Light"; JStr "Dark"]);
                 ("_meta", meta);
                 ("groups", groups_json "tokens" (drop_empty gs))])
  end.

(** ** Typography *)

Definition typography_groups : groups :=
  [("family", {| label := "Family"; tokens := [] |});
   ("weight", {| label := "Weight"; tokens := [] |});
   ("size", {| label := "Size"; tokens := [] |});
   ("height", {| label := "Height"; tokens := [] |});
   ("spacing", {| label := "Spacing"; tokens := [] |})].

Definition typography_step (gs : groups) (var : json) : result groups :=
  var_name ← py_index var "name";
  var_type ← py_index var "type";
  description ← py_get var "description" (JStr "");
  figma_ids ← get_figma_ids var;
  parts ← py_split var_name;
  match parts with
  | _ :: second_segment :: _ =>
      if dict_has second_segment gs then
        md ← mode_data var "Default";
        match md : option json with
        | Some data =>
            resolved ← py_get data "resolved" JNull;
            let token : dict :=
              ([("name", var_name); ("description", description)]
               ++ figma_ids)%list in
            let token :=
              if py_eq var_type (JStr "STRING") then dict_set "value" resolved token
              else if py_eq var_type (JStr "FLOAT") then dict_set "value" resolved token
              else token in
            Ok (append_token second_segment (JDict token) gs)
        | None => Ok gs
        end
      else Ok gs
  | _ => Ok gs
  end.

Definition build_typography_collection `{Runtime} (figma_data : json)
  : result json :=
  typo_col ← find_collection figma_data "Typography";
  match typo_col : option json with
  | None => Ok (JDict [("name", JStr "Typography"); ("groups", JDict [])])
  | Some typo_col =>
      meta ← get_collection_meta typo_col;
      vars ← variables typo_col;
      gs ← for_each typography_step vars typography_groups;
      Ok (JDict [("name", JStr "Typography");
                 ("_meta", meta);
                 ("groups", groups_json "tokens" (drop_empty gs))])
  end.

(** ** Size *)

Definition size_groups : groups :=
  [("spacing", {| label := "Spacing"; tokens := [] |});
   ("radius", {| label := "Radius"; tokens := [] |});
   ("stroke", {| label := "Stroke"; tokens := [] |})].

(** The token the Size collection builds for a variable. *)
Definition size_token (var_name resolved description : json) (figma_ids : dict)
  : json :=
  JDict ([("name", var_name); ("value", resolved);
          ("description", description)] ++ figma_ids)%list.

Definition size_step (gs : groups) (var : json) : result groups :=
  var_name ← py_index var "name";
  description ← py_get var "description" (JStr "");
  figma_ids ← get_figma_ids var;
  seg ← first_segment var_name;
  grp ← group_of seg gs;
  match grp : option string with
  | None => Ok gs
  | Some key =>
      md ← mode_data var "Mode 1";
      match md : option json with
      | Some data =>
          resolved ← py_get data "resolved" JNull;
          Ok (append_token key
                (size_token var_name resolved description figma_ids) gs)
      | None => Ok gs
      end
  end.

(** [var_name.startswith("stroke/")]: only a [str] has [startswith]. *)
Definition py_startswith (v : json) (p : string) : result bool :=
  match v with
  | JStr s => Ok (str_startswith s p)
  | _ => Raise AttributeError
  end.

(** The loop over the Color collection that adds its [stroke/*]
    variables to the [stroke] group. *)
Definition stroke_step (gs : groups) (var : json) : result groups :=
  var_name ← py_index var "name";
  is_stroke ← py_startswith var_name "stroke/";
  if (is_stroke : bool) then
    description ← py_get var "description" (JStr "");
    figma_ids ← get_figma_ids var;
    md ← mode_data var "Light";
    match md : option json with
    | Some data =>
        resolved ← py_get data "resolved" JNull;
        Ok (append_token "stroke"
              (size_token var_name resolved description figma_ids) gs)
    | None => Ok gs
    end
  else Ok gs.

Definition build_size_collection `{Runtime} (figma_data : json) : result json :=
  size_col ← find_collection figma_data "Size";
  match size_col : option json with
  | None => Ok (JDict [("name", JStr "Size"); ("groups", JDict [])])
  | Some size_col =>
      meta ← get_collection_meta size_col;
      vars ← variables size_col;
      gs ← for_each size_step vars size_groups;
      color_col ← find_collection figma_data "Color";
      gs ← match color_col : option json with
           | Some color_col =>
               cvars ← variables color_col;
               for_each stroke_step cvars gs
           | None => Ok gs
           end;
      Ok (JDict [("name", JStr "Size");
                 ("_meta", meta);
                 ("groups", groups_json "tokens" (drop_empty gs))])
  end.

(** ** Styles *)

Definition style_groups : groups :=
  [("heading", {| label := "Heading"; tokens := [] |});
   ("body", {| label := "Body"; tokens := [] |});
   ("technical", {| label := "Technical"; tokens := [] |})].

(** The four reverse maps, value to variable name. *)
Record font_maps := {
  font_family_map : table;
  font_weight_map : table;
  font_size_map : table;
  font_height_map : table;
}.

Definition empty_maps : font_maps :=
  {| font_family_map := []; font_weight_map := [];
     font_size_map := []; font_height_map := [] |}.

Definition font_map_step (maps : font_maps) (var : json) : result font_maps :=
  var_name ← py_index var "name";
  values ← py_get var "values" (JDict []);
  default_mode ← py_get values "Default" (JDict []);
  resolved ← py_get default_mode "resolved" JNull;
  match resolved with
  | JNull => Ok maps
  | _ =>
      var_type ← py_get var "type" JNull;
      let is_string := py_eq var_type (JStr "STRING") in
      let is_float := py_eq var_type (JStr "FLOAT") in
      in_family ← py_in "family" var_name;
      if (in_family : bool) && is_string then
        m ← py_table_set resolved var_name (font_family_map maps);
        Ok {| font_family_map := m; font_weight_map := font_weight_map maps;
              font_size_map := font_size_map maps;
              font_height_map := font_height_map maps |}
      else
      in_weight ← py_in "weight" var_name;
      if (in_weight : bool) && is_string then
        m ← py_table_set resolved var_name (font_weight_map maps);
        Ok {| font_family_map := font_family_map maps; font_weight_map := m;
              font_size_map := font_size_map maps;
              font_height_map := font_height_map maps |}
      else
      in_size ← py_in "size" var_name;
      if (in_size : bool) && is_float then
        m ← py_table_set resolved var_name (font_size_map maps);
        Ok {| font_family_map := font_family_map maps;
              font_weight_map := font_weight_map maps;
              font_size_map := m; font_height_map := font_height_map maps |}
      else
      in_height ← py_in "height" var_name;
      if (in_height : bool) && is_float then
        m ← py_table_set resolved var_name (font_height_map maps);
        Ok {| font_family_map := font_family_map maps;
              font_weight_map := font_weight_map maps;
              font_size_map := font_size_map maps; font_height_map := m |}
      else Ok maps
  end.

Definition headings_specimen : string := "Fire".
Definition body_specimen : string :=
  "Through the darkness of future's past, the magician longs to see. One chants out between two worlds...Fire walk with me.".

Definition specimen_of (first_segment style_name : string) : string :=
  if String.eqb first_segment "heading" then headings_specimen
  else if String.eqb first_segment "body" then body_specimen
  else if String.eqb first_segment "technical" then
    if str_contains "code" style_name
    then "const greeting = 'Fire walk with me';"
    else "0123456789"
  else "".

(** [if value in m: recipe[key] = m[value]]. *)
Definition recipe_lookup (key : string) (value : json) (m : table)
    (recipe : dict) : result dict :=
  found ← py_table_get value m;
  Ok (match found : option json with
      | Some var_name => dict_set key var_name recipe
      | None => recipe
      end).

(** [font_style.lower() if font_style else "regular"]. *)
Definition weight_lower `{Runtime} (font_style : json) : result string :=
  if py_truthy font_style then
    match font_style with
    | JStr s => Ok (str_lower s)
    | _ => Raise AttributeError
    end
  else Ok "regular".

Definition minus_half : spec_float := S754_finite true 4503599627370496 (-53).

Definition letter_spacing_label `{Runtime} (letter_spacing : json) : string :=
  if py_eq letter_spacing (JFloat minus_half) then "font/spacing/tight"
  else if py_eq letter_spacing (JInt 0) then "font/spacing/normal"
  else "font/spacing/" ++ py_str py_repr letter_spacing.

Definition build_recipe `{Runtime} (maps : font_maps) (style : json)
  : result dict :=
  let recipe : dict := [] in
  font_family ← py_get style "fontFamily" JNull;
  recipe ← recipe_lookup "fontFamily" font_family (font_family_map maps) recipe;
  font_style ← py_get style "fontStyle" JNull;
  weight ← weight_lower font_style;
  let recipe := dict_set "fontWeight" (JStr ("font/weight/" ++ weight)) recipe in
  font_size ← py_get style "fontSize" JNull;
  recipe ← recipe_lookup "fontSize" font_size (font_size_map maps) recipe;
  line_height ← py_get style "lineHeight" JNull;
  recipe ← recipe_lookup "lineHeight" line_height (font_height_map maps) recipe;
  letter_spacing ← py_get style "letterSpacing" JNull;
  Ok (dict_set "letterSpacing" (JStr (letter_spacing_label letter_spacing)) recipe).

Definition style_step `{Runtime} (maps : font_maps) (gs : groups) (style : json)
  : result groups :=
  style_name ← py_index style "name";
  match style_name with
  | JStr style_name =>
      let first_segment := hd "" (str_split slash style_name) in
      if dict_has first_segment gs then
        let text_name := "text." ++ str_replace slash "."%char style_name in
        let specimen := specimen_of first_segment style_name in
        recipe ← build_recipe maps style;
        font_family ← py_get style "fontFamily" JNull;
        font_style ← py_get style "fontStyle" JNull;
        font_size ← py_get style "fontSize" JNull;
        line_height ← py_get style "lineHeight" JNull;
        letter_spacing ← py_get style "letterSpacing" JNull;
        let style_token :=
          JDict [("name", JStr text_name);
                 ("specimen", JStr specimen);
                 ("resolved", JDict [("fontFamily", font_family);
                                     ("fontStyle", font_style);
                                     ("fontSize", font_size);
                                     ("lineHeight", line_height);
                                     ("letterSpacing", letter_spacing)]);
                 ("recipe", JDict recipe)] in
        Ok (append_token first_segment style_token gs)
      else Ok gs
  | _ => Raise AttributeError (* only a [str] has [split] *)
  end.

Definition build_font_maps (figma_data : json) : result font_maps :=
  typo_col ← find_collection figma_data "Typography";
  match typo_col : option json with
  | Some typo_col =>
      vars ← variables typo_col;
      for_each font_map_step vars empty_maps
  | None => Ok empty_maps
  end.

Definition build_styles_collection `{Runtime} (figma_data text_styles : json)
  : result json :=
  maps ← build_font_maps figma_data;
  styles ← py_iter text_styles;
  gs ← for_each (style_step maps) styles style_groups;
  Ok (JDict [("name", JStr "Styles"); ("groups", groups_json "styles" gs)]).

(** ** State *)

Definition state_groups : groups :=
  [("interaction", {| label := "Interaction"; tokens := [] |})].

Definition state_step (gs : groups) (var : json) : result groups :=
  var_name ← py_index var "name";
  var_type ← py_index var "type";
  description ← py_get var "description" (JStr "");
  figma_ids ← get_figma_ids var;
  md ← mode_data var "Mode 1";
  match md : option json with
  | Some data =>
      resolved ← py_get data "resolved" JNull;
      let token : dict :=
        ([("name", var_name); ("type", var_type); ("value", resolved);
          ("description", description)] ++ figma_ids)%list in
      Ok (append_token "interaction" (JDict token) gs)
  | None => Ok gs
  end.

Definition build_state_collection `{Runtime} (figma_data : json) : result json :=
  state_col ← find_collection figma_data "State";
  match state_col : option json with
  | None =>
      Ok (JDict [("name", JStr "State");
                 ("modes", JList [JStr "default"]);
                 ("groups", groups_json "tokens" state_groups)])
  | Some state_col =>
      meta ← get_collection_meta state_col;
      vars ← variables state_col;
      gs ← for_each state_step vars state_groups;
      Ok (JDict [("name", JStr "State");
                 ("modes", JList [JStr "default"]);
                 ("_meta", meta);
                 ("groups", groups_json "tokens" gs)])
  end.

(** ** main *)

Definition usage_doc : string :=
"Build tokens.json from Figma plugin runtime extraction data.

Usage:
    python3 build_tokens.py <variables_json> <styles_json> <output_json>

Arguments:
    variables_json  Path to JSON file with extracted variable collections (from figma_execute)
    styles_json     Path to JSON file with extracted text styles (from figma_execute)
    output_json     Path to write the final tokens.json
".

(** [str(path)]. *)
Definition path_str (p : path) : string :=
  match p with
  | [] => "."
  | "/" :: rest => "/" ++ String.concat "/" rest
  | _ => String.concat "/" p
  end.

Definition str_endswith (s suffix : string) : bool :=
  String.prefix (String.rev suffix) (String.rev s).

(** [fnmatch(name, "tokens-*.json")]. *)
Definition is_backup_name (name : string) : bool :=
  str_startswith name "tokens-" && str_endswith name ".json"
  && (12 <=? String.length name)%nat.

(** The name of [p] when [p] lies directly in [dir]. *)
Definition name_in (dir p : path) : option string :=
  match last p with
  | Some n => if bool_decide (p = dir ++ [n])%list then Some n else None
  | None => None
  end.

Definition is_backup (dir : path) (p : path) : bool :=
  match name_in dir p with
  | Some n => is_backup_name n
  | None => false
  end.

Definition mtime_le (a b : path * file) : Prop := (f_mtime a.2 ≤ f_mtime b.2)%Z.

#[global] Instance mtime_le_dec : RelDecision mtime_le.
Proof. intros a b. unfold mtime_le. apply _. Defined.

(** [sorted(backup_dir.glob("tokens-*.json"), key=mtime)].  The order in
    which a directory lists its files is not specified; the files of
    equal [mtime] come in the order [map_to_list] gives. *)
Definition sorted_backups (backup_dir : path) (fs : gmap path file)
  : list (path * file) :=
  merge_sort mtime_le
    (List.filter (λ pf, is_backup backup_dir pf.1) (map_to_list fs)).

(** [shutil.copy2(src, dst)]: the content and the modification time. *)
Definition copy2 (src dst : path) : prog unit :=
  λ w, match files w !! src with
       | Some f => (inl (), {| files := <[dst := f]> (files w);
                               stdout := stdout w |})
       | None => (inr (Uncaught FileNotFoundError), w)
       end.

Definition unlink (p : path) : prog unit :=
  λ w, (inl (), {| files := delete p (files w); stdout := stdout w |}).

Definition glob_backups (backup_dir : path) : prog (list (path * file)) :=
  λ w, (inl (sorted_backups backup_dir (files w)), w).

Fixpoint for_prog {A} (body : A → prog unit) (xs : list A) : prog unit :=
  match xs with
  | [] => mret ()
  | x :: xs' => body x;; for_prog body xs'
  end.

(** [try: body except (...): handler], [handler e] being [None] when the
    [except] clause does not name [e]. *)
Definition try_except {A} (body : prog A) (handler : exn → option (prog A))
  : prog A :=
  λ w, match body w with
       | (inr (Uncaught e), w') =>
           match handler e with
           | Some h => h w'
           | None => (inr (Uncaught e), w')
           end
       | r => r
       end.

Definition keep : nat := 10.

Section Main.
Context `{Runtime}.

Definition backup_name (t_stamp : Z) : string :=
  "tokens-" ++ strftime_stamp t_stamp ++ ".json".

Definition backup_dir_of (output_path : path) : path :=
  (parent output_path ++ [".backups"])%list.

(** The block under [# Back up existing tokens.json before overwriting]. *)
Definition backup_and_prune (output_path : path) (t_stamp : Z) : prog unit :=
  let backup_dir := backup_dir_of output_path in
  let backup_path := (backup_dir ++ [backup_name t_stamp])%list in
  copy2 output_path backup_path;;
  print ("Backed up previous tokens to " ++ path_str backup_path);;
  backups ← glob_backups backup_dir;
  if (keep <? length backups)%nat then
    for_prog (λ old_backup : path * file, unlink old_backup.1)
             (take (length backups - keep) backups);;
    print ("Pruned " ++ str_of_nat (length backups - keep) ++ " old backup(s)")
  else mret ().

(** The block under [# Preserve existing changelog from previous
    tokens.json]; returns [output]. *)
Definition preserve_changelog (output_path : path) (output : dict) : prog dict :=
  try_except
    (text ← read_file output_path;
     existing ← lift (json_loads text);
     has ← lift (py_in "changelog" existing);
     if (has : bool) then
       changelog ← lift (py_index existing "changelog");
       let output := dict_set "changelog" changelog output in
       n ← lift (py_len changelog);
       print ("Preserved " ++ str_of_nat n ++ " changelog entries");;
       mret output
     else mret output)
    (λ e, match e with
          | JSONDecodeError | KeyError => Some (mret output)
          | _ => None
          end).

(** [len(g.get("tokens", [])) + len(g.get("styles", []))]. *)
Definition group_size (g : json) : result nat :=
  ts ← py_get g "tokens" (JList []);
  n ← py_len ts;
  ss ← py_get g "styles" (JList []);
  m ← py_len ss;
  Ok (n + m).

Definition summary_line (col : json) : result string :=
  has ← py_in "groups" col;
  if (has : bool) then
    gs ← py_index col "groups";
    items ← py_items gs;
    total ← for_each (λ (acc : nat) (kv : string * json),
                        n ← group_size kv.2; Ok (acc + n)) items 0;
    name ← py_index col "name";
    n_groups ← py_len gs;
    Ok ("  " ++ py_str py_repr name ++ ": " ++ str_of_nat n_groups
        ++ " groups, " ++ str_of_nat total ++ " tokens")
  else
    name ← py_index col "name";
    Ok ("  " ++ py_str py_repr name ++ ": 0 tokens").

Definition build_collections (figma_data text_styles : json) : result dict :=
  color ← build_color_collection figma_data;
  typography ← build_typography_collection figma_data;
  size ← build_size_collection figma_data;
  styles ← build_styles_collection figma_data text_styles;
  state ← build_state_collection figma_data;
  Ok [("color", color); ("typography", typography); ("size", size);
      ("styles", styles); ("state", state)].

(** [main()]: [argv] is [sys.argv]; [t_export], [t_stamp] and [t_write]
    are the clock when [exportedAt] is taken, when the backup is named and
    when the output is written. *)
Definition main (argv : list string) (t_export t_stamp t_write : Z) : prog unit :=
  if negb (length argv =? 4)%nat then
    print usage_doc;; sys_exit 1
  else
    let input_file := default "" (argv !! 1) in
    let styles_file := default "" (argv !! 2) in
    let output_file := default "" (argv !! 3) in
    print ("Loading variable data from " ++ input_file ++ "...");;
    figma_data ← load_figma_data input_file;
    n ← lift (py_len figma_data);
    print ("Loaded " ++ str_of_nat n ++ " collections");;
    print ("Loading text styles from " ++ styles_file ++ "...");;
    styles_text ← read_file (path_parts styles_file);
    text_styles ← lift (json_loads styles_text);
    n ← lift (py_len text_styles);
    print ("Loaded " ++ str_of_nat n ++ " text styles");;
    print "Building collections...";;
    collections ← lift (build_collections figma_data text_styles);
    let output : dict :=
      [("exportedAt", JStr (isoformat t_export));
       ("collections", JDict collections)] in
    let output_path := path_parts output_file in
    present ← exists_file output_path;
    (if (present : bool) then backup_and_prune output_path t_stamp else mret ());;
    present ← exists_file output_path;
    output ← (if (present : bool) then preserve_changelog output_path output
              else mret output);
    print ("Writing output to " ++ output_file ++ "...");;
    write_file output_path (json_dumps (JDict output)) t_write;;
    print (String "010" "Summary:");;
    for_prog (λ kv : string * json, line ← lift (summary_line kv.2); print line)
             collections;;
    print (String "010" "Exported to " ++ output_file).

End Main.
End BuildTokens.

(* ===================================================================== *)
(** * Specifications *)
(* ===================================================================== *)

(** ** Notions for the differ *)
Module DiffSpec.
Import Py OS DiffTokens.

(** A value as Python holds it: no object has a key twice.  Every value
    [json.load] returns is such a value. *)
Fixpoint distinct_keys (v : json) : bool :=
  match v with
  | JList l => forallb distinct_keys l
  | JDict d =>
      bool_decide (NoDup (dict_keys d)) && forallb (λ kv, distinct_keys kv.2) d
  | _ => true
  end.

Definition is_meta (k : string) : bool := str_startswith k "_".

Definition same_outside_meta (d1 d2 : dict) : Prop :=
  ∀ k, is_meta k = false → dict_get k d1 = dict_get k d2.

(** Two token objects are equal outside their "_" keys: every other key
    is in both or in none, and holds values that are equal ([==]). *)
Definition equal_outside_meta (d1 d2 : dict) : Prop :=
  ∀ k, is_meta k = false →
    match dict_get k d1, dict_get k d2 with
    | Some a, Some b => py_eq a b = true
    | None, None => True
    | _, _ => False
    end.

Section flatten.
Context `{Runtime}.

(** What holds of every entry of a flattened map. *)
Definition flat_ok (strict : bool) (k : string) (t : flat_token) : Prop :=
  k = collection t ++ "/" ++ group t ++ "/" ++ py_str py_repr (name t) ∧
  dict_get "name" (raw t) = Some (name t) ∧
  (strict = true → distinct_keys (JDict (raw t)) = true).

End flatten.

Definition keys_sorted (ks : list string) : Prop :=
  StronglySorted String.le ks ∧ NoDup ks.

(** The entry [e] of a change list has the type [kind] and names the
    token [t]: its collection, its group and its name. *)
Definition entry_for (kind : string) (t : flat_token) (e : json) : Prop :=
  ∃ fields,
    e = JDict fields ∧
    dict_get "type" fields = Some (JStr kind) ∧
    dict_get "collection" fields = Some (JStr (collection t)) ∧
    dict_get "group" fields = Some (JStr (group t)) ∧
    dict_get "name" fields = Some (name t).

(** ** Which files a program writes *)

(** [m] leaves every file outside [P] as it was. *)
Definition writes_only {A} (P : path → Prop) (m : prog A) : Prop :=
  ∀ w p, ¬ P p → files (m w).2 !! p = files w !! p.

Definition has_type (e : json) : Prop :=
  ∃ d ty, e = JDict d ∧ dict_get "type" d = Some (JStr ty).

Section main.
Context `{Runtime}.

(** The changelog [main] appends to: the one of the document, or an empty
    one; [None] when the field is there and is not a list. *)
Definition changelog_of (d : dict) : option (list json) :=
  match dict_get "changelog" d with
  | None => Some []
  | Some (JList l) => Some l
  | Some _ => None
  end.

End main.

End DiffSpec.

(** ** Notions for numbers and colours *)
Module HexSpec.
Import Py OS BuildTokens.
#[local] Open Scope Z_scope.

(** [shr_1] halves the mantissa and remembers what falls off. *)
Definition sticky (mrs : shr_record) : bool := shr_r mrs || shr_s mrs.

(** ** [rgb_to_hex] *)

(** A [float] between 0 and 1: a value of the format, not below [0.0] and
    not above [1.0]. *)
Definition unit_float (x : spec_float) : Prop :=
  valid_binary prec emax x = true ∧
  SFleb (S754_zero false) x = true ∧
  SFleb x (float_of_Z 1) = true.

(** A channel in [0,1]: such a [float], or the [int] 0 or 1. *)
Definition unit_channel (c : json) : Prop :=
  match c with
  | JFloat x => unit_float x
  | JInt z => 0 ≤ z ≤ 1
  | _ => False
  end.

(** Two upper-case hexadecimal digits. *)
Definition two_hex (n : Z) : string :=
  String (hex_digit (n / 16)) (String (hex_digit (n mod 16)) "").

Definition upper_hex (c : ascii) : Prop :=
  c ∈ list_ascii_of_string "0123456789ABCDEF".

(** ** Keys of a table *)

(** A value as Python holds it: every [float] in it is a binary64 number
    (a mantissa of at most 53 bits, in the one form the format has for
    its value). *)
Fixpoint binary64_floats (v : json) : bool :=
  match v with
  | JFloat f => valid_binary prec emax f
  | JList l => forallb binary64_floats l
  | JDict d => forallb (λ kv, binary64_floats kv.2) d
  | _ => true
  end.

(** What can be a key: a hashable value of that kind. *)
Definition key_ok (v : json) : Prop :=
  hashable v = true ∧ binary64_floats v = true.

Definition valid_number (n : number) : Prop :=
  match n with
  | NInt _ => True
  | NFloat f => valid_binary prec emax f = true
  end.

End HexSpec.

(** ** Notions for the builder *)
Module BuildSpec.
Import Py OS BuildTokens DiffSpec HexSpec.

(** ** Well-formed variables *)

(** The modes of a variable: its ["values"] object. *)
Definition values_of (var : json) : dict :=
  match var with
  | JDict d => match dict_get "values" d with Some (JDict v) => v | _ => [] end
  | _ => []
  end.

(** [data.get("resolved")] of a mode. *)
Definition resolved_of (data : json) : json :=
  match data with
  | JDict d => default JNull (dict_get "resolved" d)
  | _ => JNull
  end.

Definition is_dict (v : json) : bool :=
  match v with JDict _ => true | _ => false end.

(** A variable as the input format has it: an object with a string
    ["name"] and, under ["values"] (if present), an object of objects. *)
Definition wf_variable (var : json) : bool :=
  match var with
  | JDict d =>
      match dict_get "name" d with Some (JStr _) => true | _ => false end
      && match dict_get "values" d with
         | None => true
         | Some (JDict v) => forallb (λ kv, is_dict kv.2) v
         | Some _ => false
         end
  | _ => false
  end.

(** A well-formed variable that has a ["type"]. *)
Definition typed_variable (var : json) : bool :=
  wf_variable var &&
  match var with JDict d => dict_has "type" d | _ => false end.

Definition name_of (var : json) : json :=
  match var with
  | JDict d => default JNull (dict_get "name" d)
  | _ => JNull
  end.

Definition type_of (var : json) : json :=
  match var with
  | JDict d => default JNull (dict_get "type" d)
  | _ => JNull
  end.

(** The group a Size (or Color) variable goes to: the first segment of
    its name, when that is a group. *)
Definition first_group (var : json) (gs : groups) : option string :=
  match name_of var with
  | JStr n =>
      let seg := if str_contains "/" n then hd "" (str_split slash n) else n in
      if dict_has seg gs then Some seg else None
  | _ => None
  end.

(** The group a Typography variable goes to: the second segment. *)
Definition second_group (var : json) (gs : groups) : option string :=
  match name_of var with
  | JStr n =>
      match str_split slash n with
      | _ :: seg :: _ => if dict_has seg gs then Some seg else None
      | _ => None
      end
  | _ => None
  end.

(** [token] carries the name of [var] and, as its value, what [var]
    resolves to under [mode]. *)
Definition token_of_mode (mode : string) (var token : json) : Prop :=
  ∃ data tok,
    dict_get mode (values_of var) = Some data ∧ token = JDict tok ∧
    dict_get "name" tok = Some (name_of var) ∧
    dict_get "value" tok = Some (resolved_of data).

(** ** Groups *)

Definition group_tokens (g : string) (gs : groups) : list json :=
  match dict_get g gs with Some grp => tokens grp | None => [] end.

(** What one round of a loop does to the groups: append a token to a
    group, or nothing. *)
Definition emit (e : option (string * json)) (gs : groups) : groups :=
  match e with
  | Some (k, t) => append_token k t gs
  | None => gs
  end.

(** The tokens a loop adds to group [g]. *)
Definition emitted {A} (f : A → option (string * json)) (g : string)
    (xs : list A) : list json :=
  omap (λ x, match f x with
             | Some (k, t) => if String.eqb k g then Some t else None
             | None => None
             end) xs.

Definition description_of (var : json) : json :=
  match var with
  | JDict d => default (JStr "") (dict_get "description" d)
  | _ => JStr ""
  end.

Definition figma_ids_of (var : json) : dict :=
  match get_figma_ids var with Ok ids => ids | Raise _ => [] end.

(** The token of [var] in the Size collection, for the mode [data]. *)
Definition size_token_of (var data : json) : json :=
  size_token (name_of var) (resolved_of data) (description_of var)
    (figma_ids_of var).

Definition size_emit (var : json) : option (string * json) :=
  match first_group var size_groups, dict_get "Mode 1" (values_of var) with
  | Some g, Some data => Some (g, size_token_of var data)
  | _, _ => None
  end.

Definition is_stroke (var : json) : bool :=
  match name_of var with
  | JStr n => str_startswith n "stroke/"
  | _ => false
  end.

Definition stroke_emit (var : json) : option (string * json) :=
  if is_stroke var then
    match dict_get "Light" (values_of var) with
    | Some data => Some ("stroke", size_token_of var data)
    | None => None
    end
  else None.

(** The tokens of group [g] in a built collection. *)
Definition built_tokens (kind g : string) (col : json) : list json :=
  match col with
  | JDict c =>
      match dict_get "groups" c with
      | Some (JDict gs) =>
          match dict_get g gs with
          | Some (JDict grp) =>
              match dict_get kind grp with Some (JList l) => l | _ => [] end
          | _ => []
          end
      | _ => []
      end
  | _ => []
  end.

(** ** Reverse maps *)

(** [var.get("values", {}).get("Default", {}).get("resolved")], for a
    variable that is an object. *)
Definition default_resolved (var : json) : result json :=
  values ← py_get var "values" (JDict []);
  default_mode ← py_get values "Default" (JDict []);
  py_get default_mode "resolved" JNull.

(** The variable [var] feeds a reverse map: its name [name] contains
    [keyword] and none of the keywords [before] (those tried first for the
    same type), its type is [ty], and its value under "Default" is [k],
    which is not [None]. *)
Definition entry_of (keyword ty : string) (before : list string)
    (var k name : json) : Prop :=
  py_index var "name" = Ok name ∧
  default_resolved var = Ok k ∧ k ≠ JNull ∧
  py_get var "type" JNull = Ok (JStr ty) ∧
  py_in keyword name = Ok true ∧
  ∀ kw, kw ∈ before → py_in kw name = Ok false.

(** Reverse lookup of [value] among the variables [vars]: what is found
    is the name of the last variable that feeds the map with a value equal
    to [value]; nothing is found when there is no such variable. *)
Definition reverse_lookup (keyword ty : string) (before : list string)
    (vars : list json) (value : json) (found : option json) : Prop :=
  match found with
  | Some name =>
      ∃ pre var post k,
        vars = (pre ++ var :: post)%list ∧
        entry_of keyword ty before var k name ∧ py_eq k value = true ∧
        ∀ var' k' name', var' ∈ post → entry_of keyword ty before var' k' name' →
                         py_eq k' value = false
  | None =>
      ∀ var k name, var ∈ vars → entry_of keyword ty before var k name →
                    py_eq k value = false
  end.

(** A table that holds the reverse lookup among [vars]. *)
Definition looks_up (keyword ty : string) (before : list string)
    (vars : list json) (m : table) : Prop :=
  (∀ k name, (k, name) ∈ m → key_ok k) ∧
  ∀ value, key_ok value →
    reverse_lookup keyword ty before vars value (table_get value m).

(** What one variable does to a reverse map: it sets an entry, or it leaves
    the map as it is, when the variable does not feed the map. *)
Definition fed (keyword ty : string) (before : list string) (var : json)
    (m m' : table) : Prop :=
  (∃ k name, entry_of keyword ty before var k name ∧ hashable k = true ∧
             m' = table_set k name m) ∨
  ((∀ k name, ¬ entry_of keyword ty before var k name) ∧ m' = m).

(** The four maps after the variables [vars]. *)
Definition maps_look_up (vars : list json) (maps : font_maps) : Prop :=
  looks_up "family" "STRING" [] vars (font_family_map maps) ∧
  looks_up "weight" "STRING" ["family"] vars (font_weight_map maps) ∧
  looks_up "size" "FLOAT" [] vars (font_size_map maps) ∧
  looks_up "height" "FLOAT" ["size"] vars (font_height_map maps).

(** The Typography variables the reverse maps are built from. *)
Definition typography_variables (figma_data : json) : result (list json) :=
  typo_col ← find_collection figma_data "Typography";
  match typo_col : option json with
  | Some typo_col => variables typo_col
  | None => Ok []
  end.

Section recipe.
Context `{Runtime}.

(** A field of a style: [style.get(key)]. *)
Definition field (style : dict) (key : string) : json :=
  default JNull (dict_get key style).

End recipe.

(** ** The shape of a built collection *)

Definition built_shape (col : json) : Prop :=
  ∃ fields name kind gs,
    col = JDict fields ∧ dict_get "name" fields = Some (JStr name) ∧
    dict_get "groups" fields = Some (groups_json kind gs) ∧
    (kind = "tokens" ∨ kind = "styles").

(** ** Programs that leave the files alone *)

Definition keeps_files {A} (m : prog A) : Prop :=
  ∀ w, files (m w).2 = files w.

Section builder.
Context `{Runtime}.

(** ** Pruning *)

(** The files after the backups beyond [keep] are deleted. *)
Definition pruned (backup_dir : path) (fs : gmap path file) : gmap path file :=
  let backups := sorted_backups backup_dir fs in
  foldl (λ m (pf : path * file), delete pf.1 m) fs
        (take (length backups - keep) backups).

(** The files after the backup of [output_path] is taken and the old
    backups are pruned; nothing happens without an output file. *)
Definition backed_up (output_path : path) (t_stamp : Z) (fs : gmap path file)
  : gmap path file :=
  match fs !! output_path with
  | Some f =>
      pruned (backup_dir_of output_path)
        (<[(backup_dir_of output_path ++ [backup_name t_stamp])%list := f]> fs)
  | None => fs
  end.

End builder.

Section builder.
Context `{Runtime}.

(** What [main] does once the collections are built. *)
Definition finish (output_file : string) (collections : dict)
    (t_export t_stamp t_write : Z) : prog unit :=
  let output : dict :=
    [("exportedAt", JStr (isoformat t_export));
     ("collections", JDict collections)] in
  let output_path := path_parts output_file in
  present ← exists_file output_path;
  (if (present : bool) then backup_and_prune output_path t_stamp else mret ());;
  present ← exists_file output_path;
  output ← (if (present : bool) then preserve_changelog output_path output
            else mret output);
  print ("Writing output to " ++ output_file ++ "...");;
  write_file output_path (json_dumps (JDict output)) t_write;;
  print (String "010" "Summary:");;
  for_prog (λ kv : string * json, line ← lift (summary_line kv.2); print line)
           collections;;
  print (String "010" "Exported to " ++ output_file).

(** The document [main] starts from. *)
Definition new_document (t_export : Z) (collections : dict) : dict :=
  [("exportedAt", JStr (isoformat t_export)); ("collections", JDict collections)].

End builder.

(** ** Sequences of runs *)

(** One invocation of the builder: its arguments and the clock. *)
Record run := {
  r_argv : list string;
  r_export : Z;
  r_stamp : Z;
  r_write : Z;
}.

Section runs.
Context `{Runtime}.

Definition run_main (r : run) : prog unit :=
  main (r_argv r) (r_export r) (r_stamp r) (r_write r).

(** The world after the runs [rs], when each of them returns. *)
Fixpoint run_all (rs : list run) (w : world) : option world :=
  match rs with
  | [] => Some w
  | r :: rs' =>
      match run_main r w with
      | (inl _, w1) => run_all rs' w1
      | (inr _, _) => None
      end
  end.

Definition backup_path (output_path : path) (r : run) : path :=
  (backup_dir_of output_path ++ [backup_name (r_stamp r)])%list.

(** The backups the runs [rs] take: for each run, the output file as it
    finds it, under the name of its time stamp. *)
Fixpoint backups_made (output_path : path) (rs : list run) (w : world)
  : list (path * file) :=
  match rs with
  | [] => []
  | r :: rs' =>
      match files w !! output_path, run_main r w with
      | Some f, (inl _, w1) =>
          (backup_path output_path r, f) :: backups_made output_path rs' w1
      | _, _ => []
      end
  end.

(** What holds between the runs: [made] are the backups that were there
    at first and those taken so far, [gone] those deleted since. *)
Definition between (output_path : path) (w : world)
    (made gone : list (path * file)) : Prop :=
  let here := sorted_backups (backup_dir_of output_path) (files w) in
  made ≡ₚ (here ++ gone)%list ∧
  NoDup made.*1 ∧
  Forall (λ x, is_backup (backup_dir_of output_path) x.1 = true) made ∧
  (gone ≠ [] → length here = keep) ∧
  (∀ x y, x ∈ gone → y ∈ here → mtime_le x y) ∧
  is_Some (files w !! output_path).

End runs.

Section carry.
Context `{Runtime}.

(** What the [try] block computes from the text of the prior output. *)
Definition carry_body (text : string) (output : dict) : result dict :=
  existing ← json_loads text;
  has ← py_in "changelog" existing;
  if (has : bool) then
    changelog ← py_index existing "changelog";
    n ← py_len changelog;
    Ok (dict_set "changelog" changelog output)
  else Ok output.

(** The same with the [except] clause. *)
Definition carry (text : string) (output : dict) : result dict :=
  match carry_body text output with
  | Raise JSONDecodeError | Raise KeyError => Ok output
  | r => r
  end.

End carry.

End BuildSpec.

(** ** Notions for the command line *)
Module CliSpec.
Import Py OS.

(** ** Programs that never call [sys.exit] *)

Definition no_exit {A} (m : prog A) : Prop :=
  ∀ w c, (m w).1 ≠ inr (Exited c).

End CliSpec.

(* ===================================================================== *)
(** * Sample data *)
(* ===================================================================== *)
Module Examples.
Import Py OS.

(** ** Token documents *)

Definition token (name light id : string) : json :=
  JDict [("name", JStr name); ("light", JStr light); ("_figmaId", JStr id)].

Definition document (tokens changelog : list json) : json :=
  JDict [("exportedAt", JStr "2024-01-01T00:00:00+00:00");
         ("collections",
          JDict [("color",
                  JDict [("name", JStr "Color");
                         ("groups",
                          JDict [("background",
                                  JDict [("label", JStr "Background");
                                         ("tokens", JList tokens)])])])]);
         ("changelog", JList changelog)].

Definition old_doc : json :=
  document [token "background/primary" "FFFFFF" "1:1";
            token "background/secondary" "EEEEEE" "1:2"] [].

Definition new_doc : json :=
  document [token "background/primary" "FAFAFA" "1:1";
            token "background/tertiary" "DDDDDD" "1:3"] [JStr "first entry"].

(** ** Variable collections and text styles *)

Definition resolved (v : json) : json := JDict [("resolved", v)].

Definition variable (id name type : string) (values : dict) : json :=
  JDict [("id", JStr id); ("name", JStr name); ("type", JStr type);
         ("description", JStr ""); ("values", JDict values)].

Definition collection (id name : string) (variables : list json) : json :=
  JDict [("id", JStr id); ("name", JStr name); ("modes", JList []);
         ("variables", JList variables)].

Definition hover : json :=
  variable "4:1" "interaction/hover" "FLOAT"
    [("Light", resolved (JInt 1)); ("Mode 1", resolved (JInt 2))].

Definition pressed : json :=
  variable "4:2" "interaction/pressed" "FLOAT" [("Light", resolved (JInt 1))].

Definition stroke_default : json :=
  variable "1:9" "stroke/default" "FLOAT" [("Light", resolved (JInt 1))].

Definition stroke_thick : json :=
  variable "3:1" "stroke/thick" "FLOAT" [("Mode 1", resolved (JInt 2))].

Definition weight_strong : json :=
  variable "2:1" "font/weight/strong" "STRING" [("Default", resolved (JStr "SemiBold"))].

Definition size_1000 : json :=
  variable "2:2" "font/size/1000" "FLOAT" [("Default", resolved (JInt 48))].

Definition figma_data : json :=
  JList [collection "1" "Color" [stroke_default];
         collection "2" "Typography" [weight_strong; size_1000];
         collection "3" "Size" [stroke_thick];
         collection "4" "State" [hover; pressed]].

(** The same without a Size collection. *)
Definition color_only : json := JList [collection "1" "Color" [stroke_default]].

Definition heading : dict :=
  [("name", JStr "heading/large"); ("fontFamily", JStr "Outfit");
   ("fontStyle", JStr "SemiBold"); ("fontSize", JInt 48);
   ("lineHeight", JInt 60); ("letterSpacing", JInt 0)].

Definition text_styles : json := JList [JDict heading].

(** ** A runtime and a file system *)

(** The texts the sample files hold, with what they parse to; any other
    text is not JSON. *)
Definition texts : list (string * json) :=
  [("old tokens", old_doc); ("new tokens", new_doc);
   ("variables", figma_data); ("styles", text_styles);
   ("no variables", JList []); ("null", JNull); ("{...}", JDict [])].

Definition runtime : Runtime := {|
  py_repr := λ _, "...";
  str_lower := lower_ascii;
  json_loads := λ text,
    match dict_get text texts with
    | Some v => Ok v
    | None => Raise JSONDecodeError
    end;
  json_dumps := λ _, "{...}";
  isoformat := λ t, str_of_Z t;
  strftime_stamp := λ t, str_of_Z t;
|}.

Definition file_of (text : string) : file := {| f_data := text; f_mtime := 0 |}.

Definition disk (fs : list (string * string)) : world :=
  {| files := list_to_map ((λ kv, ([kv.1], file_of kv.2)) <$> fs); stdout := [] |}.

End Examples.

Module DiffExamples.
Import Py OS DiffTokens DiffSpec Examples.
#[local] Existing Instance runtime.

Definition old_tokens : gmap string flat_token :=
  match flatten_tokens old_doc with Ok t => t | Raise _ => ∅ end.

Definition new_tokens : gmap string flat_token :=
  match flatten_tokens new_doc with Ok t => t | Raise _ => ∅ end.

Definition differ_argv : list string := ["diff_tokens.py"; "old.json"; "new.json"].

Definition differ_disk : world :=
  disk [("old.json", "old tokens"); ("new.json", "new tokens")].

Definition same_disk : world :=
  disk [("old.json", "old tokens"); ("new.json", "old tokens")].

End DiffExamples.

Module BuildExamples.
Import Py OS BuildTokens HexSpec BuildSpec Examples.
#[local] Existing Instance runtime.

Definition one : spec_float := float_of_Z 1.

Definition half : spec_float := S754_finite false 4503599627370496 (-53).

Definition maps : font_maps :=
  match build_font_maps figma_data with Ok m => m | Raise _ => empty_maps end.

Definition build_argv : list string :=
  ["build_tokens.py"; "variables.json"; "styles.json"; "tokens.json"].

Definition collections : dict :=
  match build_collections figma_data text_styles with Ok c => c | Raise _ => [] end.

(** The prior output holds the text null. *)
Definition null_disk : world :=
  disk [("variables.json", "variables"); ("styles.json", "styles");
        ("tokens.json", "null")].

(** No prior output, and one. *)
Definition fresh_disk : world :=
  disk [("variables.json", "no variables"); ("styles.json", "no variables")].

Definition start_disk : world :=
  disk [("variables.json", "no variables"); ("styles.json", "no variables");
        ("tokens.json", "{...}")].

(** A prior output and one backup in place. *)
Definition stocked_disk : world :=
  {| files := <[[".backups"; backup_name 0] := file_of "{...}"]> (files start_disk);
     stdout := [] |}.

(** Runs of the builder at the given times. *)
Definition builds (times : list Z) : list run :=
  (λ t, {| r_argv := build_argv; r_export := t; r_stamp := t; r_write := t |})
    <$> times.

Definition after (rs : list run) (w : world) : world := default w (run_all rs w).

Definition backup_names (w : world) : list path :=
  (sorted_backups [".backups"] (files w)).*1.

End BuildExamples.

(* ===================================================================== *)
(** * Proofs *)
(* ===================================================================== *)

(** ** Proofs for the differ *)
Module DiffProofs.
Import Py OS DiffTokens DiffSpec.

Lemma omap_Forall2 {A B} (f : A → option B) (l : list A) :
  Forall2 (λ a b, f a = Some b) (filter (λ a, is_Some (f a)) l) (omap f l).
Proof.
  induction l as [|a l IH]; [constructor|].
  rewrite filter_cons. cbn [omap list_omap].
  destruct (decide (is_Some (f a))) as [[b Hb]|Hn].
  - rewrite Hb. by constructor.
  - destruct (f a) eqn:E; [|done]. destruct Hn; eauto.
Qed.

Lemma StronglySorted_filter {A} (R : relation A) (P : A → Prop)
    `{∀ x, Decision (P x)} (l : list A) :
  StronglySorted R l → StronglySorted R (filter P l).
Proof.
  induction 1 as [|a l Hs IH Hall]; [constructor|].
  rewrite filter_cons. case_decide; [|done].
  constructor; [done|]. 
  apply Forall_forall. intros x Hx. apply list_elem_of_filter in Hx as [_ Hx].
  rewrite Forall_forall in Hall. auto.
Qed.

Lemma sorted_elem_of (s : gset string) k : k ∈ sorted s ↔ k ∈ s.
Proof. unfold sorted. rewrite merge_sort_Permutation. apply elem_of_elements. Qed.

Lemma sorted_NoDup (s : gset string) : NoDup (sorted s).
Proof. unfold sorted. rewrite merge_sort_Permutation. apply NoDup_elements. Qed.

Lemma sorted_StronglySorted (s : gset string) : StronglySorted String.le (sorted s).
Proof. unfold sorted. apply StronglySorted_merge_sort; apply _. Qed.

Lemma py_eq_list l l' :
  py_eq (JList l) (JList l') = true ↔ Forall2 (λ x y, py_eq x y = true) l l'.
Proof.
  simpl. revert l'. induction l as [|x l IH]; intros [|y l']; split; intros Hx.
  all: try discriminate Hx; try (by inversion Hx); try reflexivity.
  - apply andb_true_iff in Hx as [Hxy Hl]. constructor; [exact Hxy|]. by apply IH.
  - inversion Hx; subst. apply andb_true_iff. split; [assumption|]. by apply IH.
Qed.

Lemma py_eq_dict d d' :
  py_eq (JDict d) (JDict d') =
  (length d =? length d')%nat &&
  forallb (λ kv, match dict_get kv.1 d' with
                 | Some v' => py_eq kv.2 v'
                 | None => false
                 end) d.
Proof. reflexivity. Qed.

Lemma SFeqb_refl f : f ≠ S754_nan → SFeqb f f = true.
Proof.
  intros Hf. unfold SFeqb. destruct f as [s|s| |s m e]; try done; simpl.
  - by destruct s.
  - rewrite Z.compare_refl, Pos.compare_cont_refl. by destruct s.
Qed.

Lemma dict_get_elem_of {A} k (v : A) (d : list (string * A)) :
  NoDup (dict_keys d) → (k, v) ∈ d → dict_get k d = Some v.
Proof.
  unfold dict_keys. induction d as [|[k' v'] d IH]; intros Hnd Hin; [by inversion Hin|].
  simpl in *. apply NoDup_cons in Hnd as [Hk Hnd].
  apply elem_of_cons in Hin as [Heq|Hin].
  - inversion Heq; subst. by rewrite String.eqb_refl.
  - destruct (String.eqb_spec k k') as [->|Hne]; [|by apply IH].
    destruct Hk. apply list_elem_of_fmap. by exists (k', v).
Qed.

Lemma strict_distinct v : strict_json v = true → distinct_keys v = true.
Proof.
  induction v as [|b|z|f|s|l IH|d IH] using json_rect_nested; try done; simpl.
  - intros Hs. apply forallb_forall. intros x Hx. rewrite forallb_forall in Hs.
    rewrite Forall_forall in IH. apply IH; [by apply list_elem_of_In|by apply Hs].
  - intros [Hnd Hs]%andb_true_iff. apply andb_true_iff. split; [done|].
    apply forallb_forall. intros x Hx. rewrite forallb_forall in Hs.
    rewrite Forall_forall in IH. apply IH; [by apply list_elem_of_In|by apply Hs].
Qed.

Lemma py_eq_refl v : distinct_keys v = true → py_eq v v = true.
Proof.
  induction v as [|b|z|f|s|l IH|d IH] using json_rect_nested; intros Hs.
  - reflexivity.
  - simpl. apply Z.eqb_refl.
  - simpl. apply Z.eqb_refl.
  - destruct f as [sg|sg| |sg m e]; [| |done|]; by apply SFeqb_refl.
  - simpl. apply String.eqb_refl.
  - apply py_eq_list. simpl in Hs. 
    induction l as [|x l IHl]; [constructor|].
    simpl in Hs. apply andb_true_iff in Hs as [Hx Hl]. 
    apply Forall_cons in IH as [IHx IH]. constructor; auto.
  - rewrite py_eq_dict. simpl in Hs. apply andb_true_iff in Hs as [Hnd Hall].
    apply bool_decide_eq_true in Hnd.
    rewrite Nat.eqb_refl. simpl. apply forallb_forall. intros [k v] Hin.
    apply list_elem_of_In in Hin. simpl.
    rewrite (dict_get_elem_of k v d Hnd Hin).
    rewrite Forall_forall in IH. apply (IH (k, v) Hin).
    rewrite forallb_forall in Hall. apply (Hall (k, v)). by apply list_elem_of_In.
Qed.

Lemma dict_get_elem_of_inv {A} k (v : A) d : dict_get k d = Some v → (k, v) ∈ d.
Proof.
  induction d as [|[k' v'] d IH]; simpl; [done|].
  destruct (String.eqb_spec k k') as [->|Hne].
  - intros [= ->]. by left.
  - intros Hg. right. auto.
Qed.

Lemma dict_get_filter {A} (P : string → bool) k (d : list (string * A)) :
  dict_get k (List.filter (λ kv, P kv.1) d) = if P k then dict_get k d else None.
Proof.
  induction d as [|[k' v] d IH]; simpl; [by destruct (P k)|].
  destruct (P k') eqn:Hk'; simpl; destruct (String.eqb_spec k k') as [->|Hne];
    rewrite ?Hk'; try done.
  rewrite IH. by rewrite Hk'.
Qed.

Lemma dict_get_is_Some {A} k (d : list (string * A)) :
  is_Some (dict_get k d) ↔ k ∈ dict_keys d.
Proof.
  unfold dict_keys. induction d as [|[k' v] d IH]; simpl.
  - split; [by intros [? ?]|by intros ?%elem_of_nil].
  - rewrite elem_of_cons. destruct (String.eqb_spec k k') as [->|Hne].
    + split; eauto.
    + rewrite IH. split; [by right|]. by intros [?|?].
Qed.

Lemma dict_keys_filter_NoDup {A} (P : string * A → bool) (d : list (string * A)) :
  NoDup (dict_keys d) → NoDup (dict_keys (List.filter P d)).
Proof.
  unfold dict_keys. induction d as [|kv d IH]; simpl; [done|].
  intros [Hk Hd]%NoDup_cons. destruct (P kv); simpl; [|by auto].
  apply NoDup_cons. split; [|by auto].
  intros Hin. apply Hk. apply list_elem_of_fmap in Hin as [kv' [-> Hin]].
  apply list_elem_of_fmap. exists kv'. split; [done|].
  apply list_elem_of_In, filter_In in Hin as [Hin _]. by apply list_elem_of_In.
Qed.

Lemma comparable_get k d :
  dict_get k (comparable d) = if is_meta k then None else dict_get k d.
Proof.
  unfold comparable. rewrite (dict_get_filter (λ k, negb (str_startswith k "_"))).
  unfold is_meta. by destruct (str_startswith k "_").
Qed.

Lemma distinct_dict_inv d :
  distinct_keys (JDict d) = true →
  NoDup (dict_keys d) ∧ ∀ k v, (k, v) ∈ d → distinct_keys v = true.
Proof.
  simpl. intros [Hnd Hall]%andb_true_iff. apply bool_decide_eq_true in Hnd.
  split; [done|]. intros k v Hin. rewrite forallb_forall in Hall.
  apply (Hall (k, v)). by apply list_elem_of_In.
Qed.

Lemma comparable_keys k d :
  k ∈ dict_keys (comparable d) ↔ is_meta k = false ∧ is_Some (dict_get k d).
Proof.
  rewrite <-dict_get_is_Some, comparable_get.
  destruct (is_meta k); [|by intuition]. split; [by intros [? ?]|by intros [? _]].
Qed.

Lemma comparable_elem k v d :
  NoDup (dict_keys d) →
  (k, v) ∈ comparable d ↔ is_meta k = false ∧ dict_get k d = Some v.
Proof.
  intros Hnd. unfold comparable, is_meta.
  rewrite list_elem_of_In, filter_In, <-list_elem_of_In. simpl.
  rewrite negb_true_iff. split.
  - intros [Hin Hk]. split; [done|]. by apply dict_get_elem_of.
  - intros [Hk Hg]. split; [|done]. clear Hnd Hk.
    induction d as [|[k' v'] d IH]; simpl in Hg; [done|].
    destruct (String.eqb_spec k k') as [->|Hne].
    + injection Hg as ->. by left.
    + right. auto.
Qed.

(** The two token objects are equal once the keys that start with "_" are
    left out: the other keys are the same on both sides and hold equal
    values. *)
Lemma comparable_equal d1 d2 :
  NoDup (dict_keys d1) → NoDup (dict_keys d2) →
  py_eq (JDict (comparable d1)) (JDict (comparable d2)) = true
  ↔ equal_outside_meta d1 d2.
Proof.
  intros Hnd1 Hnd2.
  pose proof (dict_keys_filter_NoDup (λ kv, negb (str_startswith kv.1 "_")) d1 Hnd1)
    as Hc1.
  pose proof (dict_keys_filter_NoDup (λ kv, negb (str_startswith kv.1 "_")) d2 Hnd2)
    as Hc2.
  fold (comparable d1) in Hc1. fold (comparable d2) in Hc2.
  rewrite py_eq_dict, andb_true_iff, Nat.eqb_eq, forallb_forall. split.
  - intros [Hlen Hall].
    assert (∀ k a, is_meta k = false → dict_get k d1 = Some a →
              ∃ b, dict_get k d2 = Some b ∧ py_eq a b = true) as Hsome.
    { intros k a Hk Ha.
      assert ((k, a) ∈ comparable d1) as Hin by (by apply comparable_elem).
      apply list_elem_of_In, Hall in Hin. simpl in Hin.
      rewrite comparable_get, Hk in Hin.
      destruct (dict_get k d2) as [b|]; [|done]. by exists b. }
    assert (dict_keys (comparable d1) ≡ₚ dict_keys (comparable d2)) as Hperm.
    { apply submseteq_length_Permutation.
      - apply NoDup_submseteq; [done|]. intros k [Hk [a Ha]]%comparable_keys.
        apply comparable_keys. split; [done|].
        destruct (Hsome k a Hk Ha) as (b & Hb & _). by exists b.
      - unfold dict_keys. rewrite !length_fmap. lia. }
    intros k Hk. destruct (dict_get k d1) as [a|] eqn:Ha.
    + destruct (Hsome k a Hk Ha) as (b & -> & Hab). done.
    + destruct (dict_get k d2) as [b|] eqn:Hb; [|done].
      assert (k ∈ dict_keys (comparable d1)) as Hin.
      { rewrite Hperm. apply comparable_keys. split; [done|]. by exists b. }
      apply comparable_keys in Hin as [_ [a Ha']]. congruence.
  - intros Heq. split.
    + rewrite <-(length_fmap fst (comparable d1)), <-(length_fmap fst (comparable d2)).
      apply Permutation_length, NoDup_Permutation; [done|done|].
      intros k. change (k ∈ dict_keys (comparable d1) ↔ k ∈ dict_keys (comparable d2)).
      rewrite !comparable_keys. split; intros [Hk Hs]; (split; [done|]);
        specialize (Heq k Hk); destruct (dict_get k d1), (dict_get k d2);
        try done; by eexists.
    + intros [k v] Hin. apply list_elem_of_In, comparable_elem in Hin as [Hk Hv]; [|done].
      simpl. rewrite comparable_get, Hk. specialize (Heq k Hk). rewrite Hv in Heq.
      by destruct (dict_get k d2).
Qed.

Lemma same_equal_outside_meta d1 d2 :
  distinct_keys (JDict d1) = true →
  same_outside_meta d1 d2 → equal_outside_meta d1 d2.
Proof.
  intros [Hnd Hs]%distinct_dict_inv Hsame k Hk. rewrite <-(Hsame k Hk).
  destruct (dict_get k d1) as [a|] eqn:Ha; [|done].
  apply py_eq_refl. eapply Hs, dict_get_elem_of_inv, Ha.
Qed.

Lemma comparable_meta_only d1 d2 :
  distinct_keys (JDict d1) = true → distinct_keys (JDict d2) = true →
  same_outside_meta d1 d2 →
  py_eq (JDict (comparable d1)) (JDict (comparable d2)) = true.
Proof.
  intros H1 H2 Hsame.
  apply comparable_equal; [by apply distinct_dict_inv in H1 as [? _]
                          |by apply distinct_dict_inv in H2 as [? _]|].
  by apply same_equal_outside_meta.
Qed.

Lemma for_each_inv {A S} (P : S → Prop) (body : S → A → result S) xs acc r :
  P acc →
  (∀ s x s', x ∈ xs → P s → body s x = Ok s' → P s') →
  for_each body xs acc = Ok r → P r.
Proof.
  revert acc. induction xs as [|x xs IH]; intros acc Hacc Hbody Hrun; simpl in Hrun.
  - by inversion Hrun; subst.
  - destruct (body acc x) as [acc'|e] eqn:Hb; [|done]. simpl in Hrun.
    apply (IH acc'); [|  |done].
    + eapply Hbody; [|done..]. by left.
    + intros s y s' Hy. apply Hbody. by right.
Qed.

Lemma dict_get_elem {A} k (v : A) d : dict_get k d = Some v → (k, v) ∈ d.
Proof.
  induction d as [|[k' v'] d IH]; simpl; [done|].
  destruct (String.eqb_spec k k') as [->|Hne].
  - intros [= ->]. by left.
  - intros Hg. right. auto.
Qed.

Lemma distinct_py_get v k dflt x :
  distinct_keys v = true → distinct_keys dflt = true →
  py_get v k dflt = Ok x → distinct_keys x = true.
Proof.
  destruct v; try done. intros Hv Hd [= <-].
  destruct (dict_get k d) as [y|] eqn:Hg; simpl; [|done].
  apply distinct_dict_inv in Hv as [_ Hv]. eapply Hv, dict_get_elem, Hg.
Qed.

Lemma distinct_py_items v d kv :
  distinct_keys v = true → py_items v = Ok d → kv ∈ d → distinct_keys kv.2 = true.
Proof.
  destruct v; try done. intros Hv [= <-] Hin. destruct kv as [k x].
  apply distinct_dict_inv in Hv as [_ Hv]. eauto.
Qed.

Lemma distinct_py_iter v l x :
  distinct_keys v = true → py_iter v = Ok l → x ∈ l → distinct_keys x = true.
Proof.
  destruct v; try done; intros Hv [= <-] Hin.
  - apply list_elem_of_fmap in Hin as [c [-> _]]. done.
  - simpl in Hv. rewrite forallb_forall in Hv. by apply Hv, list_elem_of_In.
  - apply list_elem_of_fmap in Hin as [c [-> _]]. done.
Qed.

Section flatten.
Context `{Runtime}.

Lemma flatten_item_ok strict c g m t m' :
  (strict = true → distinct_keys t = true) →
  map_Forall (flat_ok strict) m →
  flatten_item c g m t = Ok m' → map_Forall (flat_ok strict) m'.
Proof.
  intros Ht Hm. unfold flatten_item. destruct t as [| | | | | |d]; try done.
  destruct (dict_get "name" d) as [n|] eqn:Hn; [|done]. intros [= <-].
  apply map_Forall_insert_2; [|done]. by repeat split.
Qed.

Lemma flatten_group_ok strict c m kv m' :
  (strict = true → distinct_keys kv.2 = true) →
  map_Forall (flat_ok strict) m →
  flatten_group c m kv = Ok m' → map_Forall (flat_ok strict) m'.
Proof.
  destruct kv as [g grp]. simpl. intros Hg Hm. unfold flatten_group.
  destruct (py_get grp "styles" (JList [])) as [styles|] eqn:Hst; [|done]. simpl.
  destruct (py_get grp "tokens" styles) as [items|] eqn:Hit; [|done]. simpl.
  destruct (py_iter items) as [ts|] eqn:Hts; [|done]. simpl.
  apply for_each_inv; [done|]. intros s x s' Hx Hs. apply flatten_item_ok; [|done].
  intros ->. apply (distinct_py_iter items ts x); [|done..].
  apply (distinct_py_get grp "tokens" styles items); [by auto| |done].
  apply (distinct_py_get grp "styles" (JList []) styles); [by auto|done..].
Qed.

Lemma flatten_collection_ok strict m kv m' :
  (strict = true → distinct_keys kv.2 = true) →
  map_Forall (flat_ok strict) m →
  flatten_collection m kv = Ok m' → map_Forall (flat_ok strict) m'.
Proof.
  destruct kv as [c coll]. simpl. intros Hc Hm. unfold flatten_collection.
  destruct (py_get coll "groups" (JDict [])) as [groups|] eqn:Hgr; [|done]. simpl.
  destruct (py_items groups) as [gs|] eqn:Hgs; [|done]. simpl.
  apply for_each_inv; [done|]. intros s x s' Hx Hs. apply flatten_group_ok; [|done].
  intros ->. apply (distinct_py_items groups gs x); [|done..].
  apply (distinct_py_get coll "groups" (JDict []) groups); [by auto|done..].
Qed.

Lemma flatten_tokens_ok strict data m :
  (strict = true → distinct_keys data = true) →
  flatten_tokens data = Ok m → map_Forall (flat_ok strict) m.
Proof.
  intros Hd. unfold flatten_tokens.
  destruct (py_get data "collections" (JDict [])) as [colls|] eqn:Hc; [|done]. simpl.
  destruct (py_items colls) as [cs|] eqn:Hcs; [|done]. simpl.
  apply for_each_inv; [apply map_Forall_empty|].
  intros s x s' Hx Hs. apply flatten_collection_ok; [|done].
  intros ->. apply (distinct_py_items colls cs x); [|done..].
  apply (distinct_py_get data "collections" (JDict []) colls); [by auto|done..].
Qed.

End flatten.

Lemma omap_total_Forall2 {A B} (f : A → option B) (l : list A) :
  (∀ a, a ∈ l → is_Some (f a)) →
  Forall2 (λ a b, f a = Some b) l (omap f l).
Proof.
  intros Hall. induction l as [|a l IH]; [constructor|].
  cbn [omap list_omap]. destruct (Hall a) as [b Hb]; [by left|]. rewrite Hb.
  constructor; [done|]. apply IH. intros a' Ha'. apply Hall. by right.
Qed.

Lemma keys_sorted_sorted s : keys_sorted (sorted s).
Proof. split; [apply sorted_StronglySorted|apply sorted_NoDup]. Qed.

Lemma keys_sorted_filter (P : string → Prop) `{∀ k, Decision (P k)} ks :
  keys_sorted ks → keys_sorted (filter P ks).
Proof. intros [Hs Hnd]. split; [by apply StronglySorted_filter|by apply NoDup_filter]. Qed.

Section diff.
Context `{Runtime}.

Lemma added_entry_for t : entry_for "added" t (added_entry t).
Proof. unfold added_entry. destruct (py_truthy _); by eexists. Qed.

Lemma removed_entry_for t : entry_for "removed" t (removed_entry t).
Proof. by eexists. Qed.

Lemma changed_entry_for o n : entry_for "changed" n (changed_entry o n).
Proof. by eexists. Qed.

(** C1: with both documents flattened to maps keyed by
    collection/group/name, [diff] returns the added entries, then the
    removed ones, then the changed ones: an entry of type added for each
    key that only the new map has, one of type removed for each key that
    only the old map has, one of type changed for each key of both maps
    whose token objects differ once every top-level key starting with "_"
    is left out (some other key is on one side only, or holds unequal
    values), and nothing else; each entry names the collection, the group
    and the name of its token.  Each of the three lists follows its keys
    in sorted order, without repetition.  Two tokens that differ only in
    their "_" keys give no changed entry.  The documents are values as
    Python holds them: no object has a key twice. *)
Theorem diff_added_removed_changed (old_data new_data : json)
    (old_tokens new_tokens : gmap string flat_token) :
  distinct_keys old_data = true → distinct_keys new_data = true →
  flatten_tokens old_data = Ok old_tokens →
  flatten_tokens new_data = Ok new_tokens →
  ∃ (ka kr kc : list string) (added removed changed : list json),
    diff old_data new_data = Ok (added ++ removed ++ changed)%list ∧
    (∀ k t, old_tokens !! k = Some t ∨ new_tokens !! k = Some t →
       k = collection t ++ "/" ++ group t ++ "/" ++ py_str py_repr (name t)) ∧
    (keys_sorted ka ∧
     (∀ k, k ∈ ka ↔ is_Some (new_tokens !! k) ∧ old_tokens !! k = None) ∧
     Forall2 (λ k e, ∃ n, new_tokens !! k = Some n ∧ entry_for "added" n e)
             ka added) ∧
    (keys_sorted kr ∧
     (∀ k, k ∈ kr ↔ is_Some (old_tokens !! k) ∧ new_tokens !! k = None) ∧
     Forall2 (λ k e, ∃ o, old_tokens !! k = Some o ∧ entry_for "removed" o e)
             kr removed) ∧
    (keys_sorted kc ∧
     (∀ k, k ∈ kc ↔ ∃ o n, old_tokens !! k = Some o ∧ new_tokens !! k = Some n ∧
                           ¬ equal_outside_meta (raw o) (raw n)) ∧
     Forall2 (λ k e, ∃ n, new_tokens !! k = Some n ∧ entry_for "changed" n e)
             kc changed) ∧
    (∀ k o n, old_tokens !! k = Some o → new_tokens !! k = Some n →
              same_outside_meta (raw o) (raw n) → k ∉ kc).
Proof.
  intros Hso Hsn Ho Hn.
  pose proof (flatten_tokens_ok true _ _ (λ _, Hso) Ho) as Hold.
  pose proof (flatten_tokens_ok true _ _ (λ _, Hsn) Hn) as Hnew.
  assert (∀ k o n, old_tokens !! k = Some o → new_tokens !! k = Some n →
            (differs o n = true ↔ ¬ equal_outside_meta (raw o) (raw n))) as Hdiff.
  { intros k o n Hok Hnk. destruct (Hold k o Hok) as (_ & _ & Hro).
    destruct (Hnew k n Hnk) as (_ & _ & Hrn).
    apply distinct_dict_inv in Hro as [Hro _]; [|done].
    apply distinct_dict_inv in Hrn as [Hrn _]; [|done].
    unfold differs. rewrite negb_true_iff, <-not_true_iff_false.
    by rewrite (comparable_equal _ _ Hro Hrn). }
  set (fc := λ k, o ← old_tokens !! k; n ← new_tokens !! k;
                  if differs o n then Some (changed_entry o n) else None).
  exists (sorted (dom new_tokens ∖ dom old_tokens)),
         (sorted (dom old_tokens ∖ dom new_tokens)),
         (filter (λ k, is_Some (fc k)) (sorted (dom old_tokens ∩ dom new_tokens))).
  eexists _, _, _. split; [|split; [|split; [|split; [|split]]]].
  - unfold diff. rewrite Ho, Hn. reflexivity.
  - intros k t [Hk|Hk].
    + by destruct (Hold k t Hk).
    + by destruct (Hnew k t Hk).
  - split; [apply keys_sorted_sorted|]. split.
    + intros k. rewrite sorted_elem_of, elem_of_difference, elem_of_dom,
        not_elem_of_dom. reflexivity.
    + eapply Forall2_impl; [apply omap_total_Forall2|].
      * intros k Hk. apply sorted_elem_of, elem_of_difference in Hk as [Hk _].
        apply elem_of_dom in Hk as [n Hk]. rewrite Hk. by eexists.
      * intros k e He. apply fmap_Some in He as (n & Hk & ->). exists n.
        split; [done|]. apply added_entry_for.
  - split; [apply keys_sorted_sorted|]. split.
    + intros k. rewrite sorted_elem_of, elem_of_difference, elem_of_dom,
        not_elem_of_dom. reflexivity.
    + eapply Forall2_impl; [apply omap_total_Forall2|].
      * intros k Hk. apply sorted_elem_of, elem_of_difference in Hk as [Hk _].
        apply elem_of_dom in Hk as [n Hk]. rewrite Hk. by eexists.
      * intros k e He. apply fmap_Some in He as (n & Hk & ->). exists n.
        split; [done|]. apply removed_entry_for.
  - split; [apply keys_sorted_filter, keys_sorted_sorted|]. split.
    + intros k. rewrite list_elem_of_filter, sorted_elem_of, elem_of_intersection,
        !elem_of_dom. unfold fc. split.
      * intros [[e He] [[o Hok] [n Hnk]]]. exists o, n. rewrite Hok, Hnk in He.
        cbn -[differs] in He. split; [done|]. split; [done|].
        apply (Hdiff k o n Hok Hnk). by destruct (differs o n).
      * intros (o & n & Hok & Hnk & Hd). rewrite Hok, Hnk. cbn -[differs].
        apply (Hdiff k o n Hok Hnk) in Hd. rewrite Hd. eauto.
    + eapply Forall2_impl; [apply omap_Forall2|]. unfold fc.
      intros k e He. destruct (old_tokens !! k) as [o|]; [|done].
      destruct (new_tokens !! k) as [n|] eqn:Hnk; [|done]. cbn -[differs] in He.
      destruct (differs o n); [|done]. injection He as <-. exists n.
      split; [done|]. apply changed_entry_for.
  - intros k o n Hok Hnk Hsame Hin.
    apply list_elem_of_filter in Hin as [[e He] _]. unfold fc in He.
    rewrite Hok, Hnk in He. cbn -[differs] in He.
    destruct (differs o n) eqn:Hd; [|done].
    apply (Hdiff k o n Hok Hnk) in Hd. apply Hd.
    destruct (Hold k o Hok) as (_ & _ & Hro).
    apply same_equal_outside_meta; [by apply Hro|done].
Qed.

End diff.

Lemma writes_only_ret {A} P (a : A) : writes_only P (mret a).
Proof. by intros w p _. Qed.

Lemma writes_only_bind {A B} P (m : prog A) (f : A → prog B) :
  writes_only P m → (∀ a, writes_only P (f a)) → writes_only P (m ≫= f).
Proof.
  intros Hm Hf w p Hp. unfold mbind, prog_bind.
  specialize (Hm w p Hp). destruct (m w) as [[a|s] w'] eqn:Hmw; simpl in *; [|done].
  by rewrite Hf.
Qed.

Lemma writes_only_lift {A} P (r : result A) : writes_only P (lift r).
Proof. intros w p _. by destruct r. Qed.

Lemma writes_only_exit {A} P c : writes_only P (@sys_exit A c).
Proof. by intros w p _. Qed.

Lemma writes_only_print P s : writes_only P (print s).
Proof. by intros w p _. Qed.

Lemma writes_only_read P q : writes_only P (read_file q).
Proof. intros w p _. unfold read_file. by destruct (files w !! q). Qed.

Lemma writes_only_exists P q : writes_only P (exists_file q).
Proof. by intros w p _. Qed.

Lemma writes_only_write (P : path → Prop) q data t :
  P q → writes_only P (write_file q data t).
Proof.
  intros Hq w p Hp. simpl. apply lookup_insert_ne. by intros ->.
Qed.

Lemma writes_only_if {A} P (b : bool) (m1 m2 : prog A) :
  writes_only P m1 → writes_only P m2 → writes_only P (if b then m1 else m2).
Proof. by destruct b. Qed.

Create HintDb writes discriminated.

#[export] Hint Resolve writes_only_ret writes_only_lift writes_only_exit
  writes_only_print writes_only_read writes_only_exists : writes.

Ltac writes_only_step :=
  first [ apply writes_only_bind; [|intros ?]
        | apply writes_only_if
        | solve [eauto with writes] ].

Section main.
Context `{Runtime}.

Lemma main_writes_only argv t_now t_write :
  writes_only (λ p, ∃ new_path, argv !! 2 = Some new_path ∧ p = path_parts new_path)
    (main argv t_now t_write).
Proof.
  unfold main. case_bool_decide as Hlen.
  { repeat writes_only_step. }
  destruct (argv !! 2) as [new_path|] eqn:Hnew.
  2:{ apply lookup_ge_None in Hnew. lia. }
  simpl. repeat writes_only_step.
  apply writes_only_write. eauto.
Qed.

End main.

Lemma Forall_omap {A B} (P : B → Prop) (f : A → option B) (l : list A) :
  (∀ a b, f a = Some b → P b) → Forall P (omap f l).
Proof.
  intros Hf. induction l as [|a l IH]; [constructor|].
  cbn [omap list_omap]. destruct (f a) as [b|] eqn:E; [|done].
  constructor; eauto.
Qed.

Lemma count_type_ok kind changes :
  Forall has_type changes → ∃ n, count_type kind changes = Ok n.
Proof.
  unfold count_type. intros Hall. generalize 0.
  induction Hall as [|e l (d & ty & -> & Hty) _ IH]; intros acc; simpl; [by eexists|].
  rewrite Hty. cbn -[py_eq]. apply IH.
Qed.

Lemma bind_run {A B} (m : prog A) (f : A → prog B) w :
  (m ≫= f) w = match m w with
               | (inl a, w') => f a w'
               | (inr s, w') => (inr s, w')
               end.
Proof. reflexivity. Qed.

Lemma read_file_Some p f w :
  files w !! p = Some f → read_file p w = (inl (f_data f), w).
Proof. intros Hf. unfold read_file. by rewrite Hf. Qed.

Lemma lift_Ok {A} (r : result A) a w : r = Ok a → lift r w = (inl a, w).
Proof. by intros ->. Qed.

Lemma lift_Raise {A} (r : result A) e w :
  r = Raise e → lift r w = (inr (Uncaught e), w).
Proof. by intros ->. Qed.

Section main.
Context `{Runtime}.

Lemma diff_maps_typed o n : Forall has_type (diff_maps o n).
Proof.
  unfold diff_maps. rewrite !Forall_app. repeat split; apply Forall_omap.
  - intros k e (t & _ & ->)%fmap_Some. unfold added_entry.
    destruct (py_truthy _); by eexists _, _.
  - intros k e (t & _ & ->)%fmap_Some. by eexists _, _.
  - intros k e He. destruct (o !! k) as [t|]; [|done].
    destruct (n !! k) as [t'|]; [|done]. cbn -[differs] in He.
    destruct (differs t t'); [|done]. injection He as <-. by eexists _, _.
Qed.

Lemma diff_typed old_data new_data changes :
  diff old_data new_data = Ok changes → Forall has_type changes.
Proof.
  unfold diff. destruct (flatten_tokens old_data) as [o|]; [|done].
  destruct (flatten_tokens new_data) as [n|]; [|done].
  intros [= <-]. apply diff_maps_typed.
Qed.

Lemma diff_new_is_dict old_data new_data changes :
  diff old_data new_data = Ok changes → ∃ d, new_data = JDict d.
Proof.
  unfold diff. destruct (flatten_tokens old_data) as [o|]; [|done]. simpl.
  unfold flatten_tokens. destruct new_data; try done. eauto.
Qed.

Variables (argv : list string) (t_now t_write : Z) (w : world).

Variables (old_path new_path : string) (fo fn : file) (old_data new_data : json).

Hypothesis Hold : argv !! 1 = Some old_path.

Hypothesis Hnew : argv !! 2 = Some new_path.

Hypothesis Hfo : files w !! path_parts old_path = Some fo.

Hypothesis Hfn : files w !! path_parts new_path = Some fn.

Hypothesis Hlo : json_loads (f_data fo) = Ok old_data.

Hypothesis Hln : json_loads (f_data fn) = Ok new_data.

Lemma main_reads :
  main argv t_now t_write w =
  (changes ← lift (diff old_data new_data);
    added ← lift (count_type "added" changes);
    changed ← lift (count_type "changed" changes);
    removed ← lift (count_type "removed" changes);
    print ("Added: " ++ str_of_nat added ++ ", Changed: " ++ str_of_nat changed
           ++ ", Removed: " ++ str_of_nat removed);;
    if negb (py_truthy (JList changes)) then
      print "No changes detected â€” skipping changelog entry."
    else
      let entry :=
        changelog_entry (isoformat t_now) changes added changed removed
          (parse_notes argv) in
      changelog ← lift (py_get new_data "changelog" (JList []));
      changelog ← lift (list_append changelog entry);
      new_data ← lift (set_item new_data "changelog" changelog);
      write_file (path_parts new_path) (json_dumps new_data) t_write;;
      n ← lift (py_len changelog);
      print ("Appended changelog entry #" ++ str_of_nat n ++ " to " ++ new_path)) w.
Proof.
  unfold main. rewrite bool_decide_false.
  2:{ apply lookup_lt_Some in Hnew. lia. }
  rewrite Hold, Hnew. cbv beta zeta iota delta [default from_option id].
  rewrite bind_run, (read_file_Some _ _ _ Hfo).
  rewrite bind_run, (lift_Ok _ _ _ Hlo).
  rewrite bind_run, (read_file_Some _ _ _ Hfn).
  rewrite bind_run, (lift_Ok _ _ _ Hln).
  reflexivity.
Qed.

Lemma main_no_changes :
  diff old_data new_data = Ok [] →
  ∃ out, main argv t_now t_write w = (inl (), {| files := files w; stdout := out |}).
Proof.
  intros Hd. rewrite main_reads, bind_run, (lift_Ok _ _ _ Hd). by eexists.
Qed.

Lemma main_raises e :
  diff old_data new_data = Raise e →
  main argv t_now t_write w = (inr (Uncaught e), w).
Proof.
  intros Hd. by rewrite main_reads, bind_run, (lift_Raise _ _ _ Hd).
Qed.

Lemma main_changes changes d :
  diff old_data new_data = Ok changes → changes ≠ [] → new_data = JDict d →
  ∃ added changed removed out,
    count_type "added" changes = Ok added ∧
    count_type "changed" changes = Ok changed ∧
    count_type "removed" changes = Ok removed ∧
    let entry := changelog_entry (isoformat t_now) changes added changed removed
                   (parse_notes argv) in
    main argv t_now t_write w =
    match changelog_of d with
    | Some cl =>
        (inl (),
         {| files :=
              <[path_parts new_path :=
                  {| f_data := json_dumps
                       (JDict (dict_set "changelog" (JList (cl ++ [entry])) d));
                     f_mtime := t_write |}]> (files w);
            stdout := out ++ ["Appended changelog entry #"
                              ++ str_of_nat (length (cl ++ [entry])%list)
                              ++ " to " ++ new_path] |})
    | None => (inr (Uncaught AttributeError), {| files := files w; stdout := out |})
    end.
Proof.
  intros Hd Hne Hnd. pose proof (diff_typed _ _ _ Hd) as Hty.
  destruct (count_type_ok "added" _ Hty) as [a Ha].
  destruct (count_type_ok "changed" _ Hty) as [c Hc].
  destruct (count_type_ok "removed" _ Hty) as [r Hr].
  exists a, c, r. eexists. split; [done|]. split; [done|]. split; [done|].
  cbn zeta. rewrite main_reads, bind_run, (lift_Ok _ _ _ Hd).
  rewrite bind_run, (lift_Ok _ _ _ Ha), bind_run, (lift_Ok _ _ _ Hc).
  rewrite bind_run, (lift_Ok _ _ _ Hr).
  destruct changes as [|e0 changes']; [done|].
  rewrite Hnd. unfold changelog_of. cbn -[changelog_entry str_of_nat String.append].
  destruct (dict_get "changelog" d) as [[]|] eqn:Hcl; 
    cbn -[changelog_entry str_of_nat String.append]; try reflexivity.
Qed.

End main.

Lemma omap_None_nil {A B} (f : A → option B) (l : list A) :
  (∀ a, a ∈ l → f a = None) → omap f l = [].
Proof.
  induction l as [|a l IH]; intros Hf; [done|]. cbn [omap list_omap].
  rewrite (Hf a) by left. apply IH. intros a' Ha'. apply Hf. by right.
Qed.

Lemma sorted_empty : sorted ∅ = [].
Proof. unfold sorted. by rewrite elements_empty. Qed.

Lemma dict_get_set_eq {A} k (v : A) d : dict_get k (dict_set k v d) = Some v.
Proof.
  induction d as [|[k' v'] d IH]; simpl; [by rewrite String.eqb_refl|].
  destruct (String.eqb_spec k k') as [->|Hne]; simpl.
  - by rewrite String.eqb_refl.
  - by destruct (String.eqb_spec k k').
Qed.

Lemma dict_get_set_ne {A} k k' (v : A) d :
  k' ≠ k → dict_get k' (dict_set k v d) = dict_get k' d.
Proof.
  intros Hne. induction d as [|[k0 v0] d IH]; simpl.
  - by destruct (String.eqb_spec k' k).
  - destruct (String.eqb_spec k k0) as [->|Hk]; simpl.
    + by destruct (String.eqb_spec k' k0).
    + destruct (String.eqb_spec k' k0); [done|apply IH].
Qed.

Lemma dict_keys_set {A} k (v : A) d :
  dict_keys (dict_set k v d) =
  if dict_has k d then dict_keys d else (dict_keys d ++ [k])%list.
Proof.
  unfold dict_has, dict_keys. induction d as [|[k0 v0] d IH]; csimpl; [done|].
  destruct (String.eqb_spec k k0) as [->|Hk]; csimpl; [done|].
  rewrite IH. by destruct (dict_get k d).
Qed.

Section differ.
Context `{Runtime}.

Lemma differs_self t :
  distinct_keys (JDict (raw t)) = true → differs t t = false.
Proof.
  intros Hs. unfold differs. by rewrite comparable_meta_only.
Qed.

Lemma diff_maps_self strict m :
  strict = true → map_Forall (flat_ok strict) m → diff_maps m m = [].
Proof.
  intros -> Hm. unfold diff_maps.
  rewrite difference_diag_L.
  rewrite sorted_empty. simpl. apply omap_None_nil. intros k _.
  destruct (m !! k) as [t|] eqn:Hk; [|done]. cbn -[differs].
  rewrite differs_self; [done|]. by destruct (Hm k t Hk) as (_ & _ & ->).
Qed.

Lemma diff_self d :
  strict_json d = true →
  match flatten_tokens d with
  | Ok _ => diff d d = Ok []
  | Raise e => diff d d = Raise e
  end.
Proof.
  intros Hs. unfold diff. destruct (flatten_tokens d) as [m|e] eqn:Hf; [|done].
  simpl. f_equal. apply (diff_maps_self true); [done|].
  apply (flatten_tokens_ok true d); [|done]. intros _. by apply strict_distinct.
Qed.

End differ.

Section differ.
Context `{Runtime}.

Variables (argv : list string) (t_now t_write : Z) (w : world).

Variables (old_path new_path : string) (fo fn : file) (old_data new_data : json).

Lemma main_same_document :
  argv !! 1 = Some old_path → argv !! 2 = Some new_path →
  files w !! path_parts old_path = Some fo →
  files w !! path_parts new_path = Some fn →
  json_loads (f_data fo) = Ok old_data →
  json_loads (f_data fn) = Ok new_data →
  old_data = new_data → strict_json new_data = true →
  files (main argv t_now t_write w).2 = files w.
Proof.
  intros Ho Hn Hfo Hfn Hlo Hln Heq Hs.
  pose proof (diff_self new_data Hs) as Hd.
  assert (diff old_data new_data = diff new_data new_data) as Hdd by by rewrite Heq.
  rewrite <-Hdd in Hd.
  destruct (flatten_tokens new_data).
  - by destruct (main_no_changes argv t_now t_write w _ _ _ _ _ _
                   Ho Hn Hfo Hfn Hlo Hln Hd) as [out ->].
  - by rewrite (main_raises argv t_now t_write w _ _ _ _ _ _
                  Ho Hn Hfo Hfn Hlo Hln e Hd).
Qed.

(** C2: when the change list is empty the differ returns without writing:
    the files are what they were, the new document included, and no
    entry is appended.  In particular, when the old and the new file hold
    the same document (JSON proper), no file is modified, and the diff of
    the document with itself is the empty list. *)
Theorem differ_no_changes_no_write :
  argv !! 1 = Some old_path → argv !! 2 = Some new_path →
  files w !! path_parts old_path = Some fo →
  files w !! path_parts new_path = Some fn →
  json_loads (f_data fo) = Ok old_data →
  json_loads (f_data fn) = Ok new_data →
  (diff old_data new_data = Ok [] →
   ∃ out, main argv t_now t_write w
          = (inl (), {| files := files w; stdout := out |})) ∧
  (old_data = new_data → strict_json new_data = true →
   files (main argv t_now t_write w).2 = files w ∧
   (is_ok (flatten_tokens new_data) = true → diff old_data new_data = Ok [])).
Proof.
  intros Ho Hn Hfo Hfn Hlo Hln. split.
  - by apply main_no_changes with old_path new_path fo fn.
  - intros Heq Hs. split; [by apply main_same_document|].
    intros Hok. pose proof (diff_self new_data Hs) as Hd. rewrite Heq.
    by destruct (flatten_tokens new_data).
Qed.

(** C10: the differ writes no file but the new one, so the old file is
    only read (when both paths name one file, that file holds one
    document, and nothing is written).  When there are changes, the new
    file is rewritten with the document it held in which only the
    changelog differs: the prior entries followed by exactly one new
    entry, which holds the changes; every other field, exportedAt and
    collections among them, is written back as it was, in the same
    order. *)
Theorem differ_rewrites_only_changelog :
  argv !! 1 = Some old_path → argv !! 2 = Some new_path →
  files w !! path_parts old_path = Some fo →
  files w !! path_parts new_path = Some fn →
  json_loads (f_data fo) = Ok old_data →
  json_loads (f_data fn) = Ok new_data →
  (∀ p, p ≠ path_parts new_path →
        files (main argv t_now t_write w).2 !! p = files w !! p) ∧
  (strict_json new_data = true →
   files (main argv t_now t_write w).2 !! path_parts old_path = Some fo) ∧
  (∀ changes, diff old_data new_data = Ok changes → changes ≠ [] →
     ∃ d, new_data = JDict d ∧
       match changelog_of d with
       | Some prior =>
           ∃ entry d' out,
             main argv t_now t_write w =
               (inl (), {| files := <[path_parts new_path :=
                                        {| f_data := json_dumps (JDict d');
                                           f_mtime := t_write |}]> (files w);
                           stdout := out |}) ∧
             dict_get "changelog" d' = Some (JList (prior ++ [entry])) ∧
             dict_get "changes" (match entry with JDict e => e | _ => [] end)
               = Some (JList changes) ∧
             (∀ k, k ≠ "changelog" → dict_get k d' = dict_get k d) ∧
             dict_keys d' = (if dict_has "changelog" d then dict_keys d
                             else dict_keys d ++ ["changelog"])%list
       | None => files (main argv t_now t_write w).2 = files w
       end).
Proof.
  intros Ho Hn Hfo Hfn Hlo Hln. split; [|split].
  - intros p Hp. apply (main_writes_only argv t_now t_write w p).
    intros (np & Hnp & ->). congruence.
  - intros Hs. destruct (decide (path_parts old_path = path_parts new_path)) as [Heq|Hne].
    + assert (old_data = new_data) as Hdata.
      { assert (fo = fn) as Hf by (rewrite Heq in Hfo; congruence).
        rewrite Hf in Hlo. congruence. }
      by rewrite (main_same_document Ho Hn Hfo Hfn Hlo Hln Hdata Hs).
    + rewrite <-Hfo. apply (main_writes_only argv t_now t_write w).
      intros (np & Hnp & Hp). congruence.
  - intros changes Hd Hne. destruct (diff_new_is_dict _ _ _ Hd) as [d Hnd].
    exists d. split; [done|].
    destruct (main_changes argv t_now t_write w _ _ _ _ _ _
                Ho Hn Hfo Hfn Hlo Hln changes d Hd Hne Hnd)
      as (a & c & r & out & _ & _ & _ & Hrun).
    cbn zeta in Hrun. rewrite Hrun. destruct (changelog_of d) as [prior|]; [|done].
    eexists _, _, _. split; [reflexivity|].
    split; [apply dict_get_set_eq|]. split; [reflexivity|].
    split; [intros k Hk; by apply dict_get_set_ne|apply dict_keys_set].
Qed.

End differ.

End DiffProofs.

(** ** Proofs for numbers and colours *)
Module HexProofs.
Import Py OS BuildTokens HexSpec.
#[local] Open Scope Z_scope.

(** ** Binary64 arithmetic *)

Lemma digits2_pos_bounds (m : positive) :
  2 ^ (Z.pos (digits2_pos m) - 1) ≤ Z.pos m < 2 ^ Z.pos (digits2_pos m).
Proof.
  induction m as [m IH|m IH|]; simpl digits2_pos.
  - rewrite Pos2Z.inj_succ.
    replace (Z.succ (Z.pos (digits2_pos m)) - 1) with (Z.succ (Z.pos (digits2_pos m) - 1)) by lia.
    rewrite !Z.pow_succ_r by lia. lia.
  - rewrite Pos2Z.inj_succ.
    replace (Z.succ (Z.pos (digits2_pos m)) - 1) with (Z.succ (Z.pos (digits2_pos m) - 1)) by lia.
    rewrite !Z.pow_succ_r by lia. lia.
  - simpl. lia.
Qed.

Lemma digits2_upper (m : positive) (k : Z) :
  0 ≤ k → Z.pos m < 2 ^ k → Z.pos (digits2_pos m) ≤ k.
Proof.
  intros Hk Hm. destruct (digits2_pos_bounds m) as [Hlo _].
  destruct (Z.le_gt_cases (Z.pos (digits2_pos m)) k) as [|Hgt]; [done|].
  assert (2 ^ k ≤ 2 ^ (Z.pos (digits2_pos m) - 1)) by (apply Z.pow_le_mono_r; lia).
  lia.
Qed.

Lemma shr_1_spec mrs :
  0 ≤ shr_m mrs →
  shr_m (shr_1 mrs) = shr_m mrs / 2 ∧
  sticky (shr_1 mrs) = Z.odd (shr_m mrs) || sticky mrs.
Proof.
  destruct mrs as [m r s]. unfold sticky. simpl. intros Hm.
  destruct m as [|[p|p|]|p]; cbn [shr_1 shr_m shr_r shr_s Z.odd]; try lia.
  - done.
  - split; [|done]. apply (Z.div_unique _ _ _ 1); lia.
  - split; [|done]. apply (Z.div_unique _ _ _ 0); lia.
  - split; [done|done].
Qed.

Lemma iter_pos_nat {A} (f : A → A) p x :
  SpecFloat.iter_pos f p x = Nat.iter (Pos.to_nat p) f x.
Proof.
  revert x. induction p as [p IH|p IH|]; intros x; cbn [SpecFloat.iter_pos].
  - rewrite !IH, Pos2Nat.inj_xI.
    replace (S (2 * Pos.to_nat p)) with (S (Pos.to_nat p + Pos.to_nat p)) by lia.
    by rewrite Nat.iter_succ_r, Nat.iter_add.
  - rewrite !IH, Pos2Nat.inj_xO.
    replace (2 * Pos.to_nat p)%nat with (Pos.to_nat p + Pos.to_nat p)%nat by lia.
    by rewrite Nat.iter_add.
  - done.
Qed.

Lemma iter_shr_spec (k : nat) mrs :
  0 ≤ shr_m mrs →
  let r := Nat.iter k shr_1 mrs in
  shr_m r = shr_m mrs / 2 ^ Z.of_nat k ∧
  sticky r = negb (shr_m mrs mod 2 ^ Z.of_nat k =? 0) || sticky mrs.
Proof.
  intros Hm. induction k as [|k IH]; cbn zeta in *.
  - simpl. rewrite Z.div_1_r, Z.mod_1_r. done.
  - destruct IH as [IHm IHs]. rewrite Nat2Z.inj_succ, Z.pow_succ_r by lia.
    simpl Nat.iter. set (r := Nat.iter k shr_1 mrs) in *.
    assert (0 ≤ shr_m r) as Hr.
    { rewrite IHm. apply Z.div_pos; [done|]. apply Z.pow_pos_nonneg; lia. }
    destruct (shr_1_spec r Hr) as [-> ->]. rewrite IHm, IHs.
    set (M := shr_m mrs) in *. set (P := 2 ^ Z.of_nat k).
    assert (0 < P) as HP by (apply Z.pow_pos_nonneg; lia).
    split.
    + rewrite Z.div_div by lia. f_equal. lia.
    + rewrite orb_assoc. f_equal.
      rewrite (Z.mul_comm 2 P), Z.rem_mul_r by lia.
      pose proof (Z.mod_pos_bound M P HP). pose proof (Z.mod_pos_bound (M / P) 2 ltac:(lia)).
      rewrite Zodd_mod.
      destruct (Z.eqb_spec (M mod P) 0) as [->|Hne];
        destruct (Z.eqb_spec ((M / P) mod 2) 1) as [->|Hne2]; simpl;
        symmetry; rewrite ?negb_true_iff, ?negb_false_iff, ?Z.eqb_neq, ?Z.eqb_eq; lia.
Qed.

Lemma shr_spec mrs e n :
  0 ≤ shr_m mrs →
  let k := Z.max n 0 in
  (shr mrs e n).2 = e + k ∧
  shr_m (shr mrs e n).1 = shr_m mrs / 2 ^ k ∧
  sticky (shr mrs e n).1 = negb (shr_m mrs mod 2 ^ k =? 0) || sticky mrs.
Proof.
  intros Hm. destruct n as [|p|p]; cbn [shr fst snd Z.max Z.compare].
  - simpl. rewrite Z.div_1_r, Z.mod_1_r, Z.add_0_r. done.
  - rewrite iter_pos_nat. destruct (iter_shr_spec (Pos.to_nat p) mrs Hm) as [H1 H2].
    rewrite positive_nat_Z in H1, H2.
    replace (Z.max (Z.pos p) 0) with (Z.pos p) by lia. done.
  - replace (Z.max (Z.neg p) 0) with 0 by lia.
    simpl. rewrite Z.div_1_r, Z.mod_1_r, Z.add_0_r. done.
Qed.

Lemma round_nearest_even_bounds mrs :
  let m := round_nearest_even (shr_m mrs) (loc_of_shr_record mrs) in
  shr_m mrs ≤ m ≤ shr_m mrs + 1 ∧ (sticky mrs = false → m = shr_m mrs).
Proof.
  destruct mrs as [m [] []]; unfold sticky; simpl; try destruct (Z.even m); split; (lia || done).
Qed.

Lemma Zdigits2_upper (m k : Z) : 0 ≤ m → 0 ≤ k → m < 2 ^ k → Zdigits2 m ≤ k.
Proof.
  intros Hm Hk Hlt. destruct m as [|p|p]; simpl; [done| |lia].
  by apply digits2_upper.
Qed.

(** One rounding step keeps a mantissa below [255 * 2^(-e)] below it. *)
Lemma shr_fexp_bound (m e : Z) :
  0 ≤ m → e ≤ 0 → m ≤ 255 * 2 ^ (- e) →
  let mrs := (shr_fexp prec emax m e loc_Exact).1 in
  let e' := (shr_fexp prec emax m e loc_Exact).2 in
  let m' := round_nearest_even (shr_m mrs) (loc_of_shr_record mrs) in
  e' ≤ 0 ∧ 0 ≤ shr_m mrs ≤ 255 * 2 ^ (- e') ∧ 0 ≤ m' ≤ 255 * 2 ^ (- e').
Proof.
  intros Hm He Hle. unfold shr_fexp. cbn [shr_record_of_loc].
  set (n := fexp prec emax (Zdigits2 m + e) - e).
  destruct (shr_spec (Build_shr_record m false false) e n Hm) as (He' & Hm' & Hs).
  cbn [shr_m] in Hm', Hs. unfold sticky at 2 in Hs. cbn [shr_r shr_s orb] in Hs.
  rewrite orb_false_r in Hs.
  cbn zeta. set (r := shr _ e n) in *.
  destruct (round_nearest_even_bounds r.1) as [Hb Hex]. cbn zeta in Hb, Hex.
  set (k := Z.max n 0) in *.
  assert (0 ≤ k) as Hk by lia.
  assert (Zdigits2 m ≤ 8 - e) as Hd.
  { apply Zdigits2_upper; [done|lia|].
    replace (8 - e) with (8 + - e) by lia. rewrite Z.pow_add_r by lia.
    assert (0 < 2 ^ (- e)) by (apply Z.pow_pos_nonneg; lia). lia. }
  assert (e + k ≤ 0) as Hek.
  { unfold k, n, fexp, SpecFloat.emin, prec, emax. lia. }
  assert (0 < 2 ^ k) as HP by (apply Z.pow_pos_nonneg; lia).
  assert (2 ^ (- e) = 2 ^ (- (e + k)) * 2 ^ k) as Hsplit.
  { rewrite <-Z.pow_add_r by lia. f_equal. lia. }
  set (B := 255 * 2 ^ (- (e + k))) in *.
  assert (m ≤ B * 2 ^ k) as HmB by (unfold B; lia).
  assert (m / 2 ^ k ≤ B) as Hq.
  { apply Z.div_le_upper_bound; lia. }
  assert (0 ≤ m / 2 ^ k) by (apply Z.div_pos; lia).
  rewrite He'. fold B. rewrite Hm' in *. split; [done|]. split; [lia|].
  split; [lia|].
  destruct (Z.eq_dec (m / 2 ^ k) B) as [Heq|Hne]; [|lia].
  assert (m mod 2 ^ k = 0) as H0.
  { pose proof (Z.div_mod m (2 ^ k) ltac:(lia)) as Hdm. rewrite Heq in Hdm.
    pose proof (Z.mod_pos_bound m (2 ^ k) HP). lia. }
  rewrite H0 in Hs. simpl in Hs. rewrite (Hex Hs). lia.
Qed.

Lemma round_half_even_bound (m e : Z) :
  0 ≤ m → e ≤ 0 → m ≤ 255 * 2 ^ (- e) → 0 ≤ round_half_even m e ≤ 255.
Proof.
  intros Hm He Hle. unfold round_half_even.
  destruct (Z.leb_spec 0 e) as [H0|Hneg].
  - assert (e = 0) as -> by lia. simpl in *. lia.
  - cbn zeta. set (d := 2 ^ (- e)) in *.
    assert (0 < d) as Hd by (apply Z.pow_pos_nonneg; lia).
    pose proof (Z.div_mod m d ltac:(lia)) as Hdm.
    pose proof (Z.mod_pos_bound m d Hd) as Hmod.
    assert (0 ≤ m / d) by (apply Z.div_pos; lia).
    assert (m / d ≤ 255) as Hq by (apply Z.div_le_upper_bound; lia).
    destruct (Z.eq_dec (m / d) 255) as [Heq|Hne].
    + assert (m mod d = 0) as -> by nia.
      rewrite Heq. replace (2 * 0 ?= d) with Lt by (symmetry; apply Z.compare_lt_iff; lia).
      lia.
    + repeat case_match; lia.
Qed.

(** The nearest integer, ties to the even one. *)
Lemma round_half_even_nearest (m e : Z) :
  0 ≤ m → e < 0 →
  let n := round_half_even m e in
  let d := 2 ^ (- e) in
  2 * Z.abs (n * d - m) ≤ d ∧ (2 * Z.abs (n * d - m) = d → Z.even n = true).
Proof.
  intros Hm He. unfold round_half_even.
  destruct (Z.leb_spec 0 e) as [H0|_]; [lia|]. cbn zeta.
  set (d := 2 ^ (- e)).
  assert (0 < d) as Hd by (apply Z.pow_pos_nonneg; lia).
  pose proof (Z.div_mod m d ltac:(lia)) as Hdm.
  pose proof (Z.mod_pos_bound m d Hd) as Hmod.
  set (q := m / d) in *. set (r := m mod d) in *.
  destruct (Z.compare_spec (2 * r) d) as [Heq|Hlt|Hgt].
  - destruct (Z.even q) eqn:Hev.
    + split; [nia|done].
    + split; [nia|]. intros _. rewrite Z.even_add, Hev. done.
  - split; [nia|nia].
  - split; [nia|nia].
Qed.

Lemma round_half_even_exact (m e : Z) : 0 ≤ e → round_half_even m e = m * 2 ^ e.
Proof. intros He. unfold round_half_even. by destruct (Z.leb_spec 0 e); [|lia]. Qed.

Lemma float_255 : float_of_Z 255 = S754_finite false 8972014882652160 (-45).
Proof. reflexivity. Qed.

Lemma float_1 : float_of_Z 1 = S754_finite false 4503599627370496 (-52).
Proof. reflexivity. Qed.

Lemma SFleb_finite m e m' e' :
  SFleb (S754_finite false m e) (S754_finite false m' e') = true →
  e < e' ∨ (e = e' ∧ Z.pos m ≤ Z.pos m').
Proof.
  unfold SFleb, SFcompare.
  destruct (Z.compare_spec e e') as [->|Hlt|Hgt]; [|by left|done].
  fold (Pos.compare m m'). destruct (Pos.compare_spec m m'); [|by right; lia|done].
  right. split; [done|lia].
Qed.

Lemma unit_float_finite s m e :
  unit_float (S754_finite s m e) → s = false ∧ e < 0 ∧ Z.pos m ≤ 2 ^ (- e).
Proof.
  intros (Hv & H0 & H1). destruct s; [done|]. split; [done|].
  rewrite float_1 in H1. apply SFleb_finite in H1.
  cbn [valid_binary] in Hv. unfold bounded, canonical_mantissa in Hv.
  apply andb_prop in Hv as [Hc _]. apply Z.eqb_eq in Hc.
  unfold fexp, SpecFloat.emin, prec, emax in Hc.
  pose proof (digits2_pos_bounds m) as [_ Hd].
  assert (2 ^ 52 = 4503599627370496) as H52 by reflexivity.
  destruct H1 as [Hlt|[-> Hm]].
  - split; [lia|].
    assert (Z.pos (digits2_pos m) ≤ 53) as Hd53 by lia.
    assert (2 ^ Z.pos (digits2_pos m) ≤ 2 ^ 53) by (apply Z.pow_le_mono_r; lia).
    assert (2 ^ 53 ≤ 2 ^ (- e)) by (apply Z.pow_le_mono_r; lia).
    lia.
  - split; [lia|]. replace (- -52) with 52 by lia. rewrite H52. done.
Qed.

Lemma round_aux_bound (M E : Z) :
  0 ≤ M → E ≤ 0 → M ≤ 255 * 2 ^ (- E) →
  ∃ n, py_round (binary_round_aux prec emax false M E loc_Exact) = Ok n ∧ 0 ≤ n ≤ 255.
Proof.
  intros HM HE Hle. unfold binary_round_aux.
  pose proof (shr_fexp_bound M E HM HE Hle) as H1. cbn zeta in H1.
  destruct (shr_fexp prec emax M E loc_Exact) as [mrs1 e1]. cbn [fst snd] in H1.
  destruct H1 as (He1 & _ & Hm2).
  set (m2 := round_nearest_even _ _) in *.
  pose proof (shr_fexp_bound m2 e1 (proj1 Hm2) He1 (proj2 Hm2)) as H2. cbn zeta in H2.
  destruct (shr_fexp prec emax m2 e1 loc_Exact) as [mrs2 e2]. cbn [fst snd] in H2.
  destruct H2 as (He2 & Hm3 & _).
  destruct (shr_m mrs2) as [|m3|m3]; [| |lia].
  - exists 0. done.
  - destruct (Z.leb_spec e2 (emax - prec)) as [_|Hbad]; [|unfold emax, prec in Hbad; lia].
    cbn [py_round cond_Zopp]. eexists; split; [done|].
    apply round_half_even_bound; lia.
Qed.

Lemma channel_unit c :
  unit_channel c → ∃ n, channel c = Ok n ∧ 0 ≤ n ≤ 255.
Proof.
  destruct c as [|b|z|x|s|l|d]; try done; cbn [unit_channel channel].
  - intros Hz. eexists; split; [done|lia].
  - intros Hx. destruct x as [s|s| |s m e].
    + exists 0. by rewrite float_255.
    + destruct Hx as (_ & H0 & H1). by destruct s.
    + by destruct Hx as (_ & H0 & _).
    + destruct (unit_float_finite _ _ _ Hx) as (-> & He & Hm).
      rewrite float_255. cbn [SFmul xorb].
      apply round_aux_bound; [lia|lia|].
      rewrite Pos2Z.inj_mul.
      replace (- (e + -45)) with (- e + 45) by lia.
      rewrite Z.pow_add_r by lia.
      change (Z.pos 8972014882652160) with (255 * 2 ^ 45). nia.
Qed.

Lemma format_02X_byte (n : Z) : 0 ≤ n ≤ 255 → format_02X n = two_hex n.
Proof.
  intros Hn.
  assert (forallb (λ n, String.eqb (format_02X n) (two_hex n)) (seqZ 0 256) = true) as Hall
    by (vm_compute; reflexivity).
  rewrite forallb_forall in Hall. apply String.eqb_eq, Hall.
  apply list_elem_of_In, elem_of_seqZ. lia.
Qed.

Lemma hex_digit_upper (n : Z) : upper_hex (hex_digit n).
Proof.
  unfold upper_hex, hex_digit.
  destruct (_ !! Z.to_nat n) as [c|] eqn:Hc; simpl.
  - by eapply list_elem_of_lookup_2.
  - set_solver.
Qed.

(** C4: for channels in [0,1], each of the three is converted on its own
    by [round(channel * 255)]: the product is the binary64 product, the
    rounding is to the nearest integer with ties to the even one, the
    result lies between 0 and 255 and is written with exactly two
    upper-case hexadecimal digits; [rgb_to_hex] returns the three pairs
    one after the other.  Nothing is clamped: a channel outside [0,1]
    gives more digits or a sign.  In particular (1,0,0) gives "FF0000"
    and (0,0,0) gives "000000". *)
Theorem rgb_to_hex_unit_channels (r g b : json) :
  unit_channel r → unit_channel g → unit_channel b →
  (∃ nr ng nb,
     channel r = Ok nr ∧ channel g = Ok ng ∧ channel b = Ok nb ∧
     0 ≤ nr ≤ 255 ∧ 0 ≤ ng ≤ 255 ∧ 0 ≤ nb ≤ 255 ∧
     rgb_to_hex r g b = Ok (two_hex nr ++ two_hex ng ++ two_hex nb)%string) ∧
  (∀ n, upper_hex (hex_digit n)) ∧
  (∀ x, channel (JFloat x) = py_round (SFmul prec emax x (float_of_Z 255))) ∧
  (∀ z, channel (JInt z) = Ok (z * 255)) ∧
  (∀ m e, e < 0 →
     let n := round_half_even (Z.pos m) e in
     py_round (S754_finite false m e) = Ok n ∧
     2 * Z.abs (n * 2 ^ (- e) - Z.pos m) ≤ 2 ^ (- e) ∧
     (2 * Z.abs (n * 2 ^ (- e) - Z.pos m) = 2 ^ (- e) → Z.even n = true)) ∧
  (∀ m e, 0 ≤ e → py_round (S754_finite false m e) = Ok (Z.pos m * 2 ^ e)) ∧
  rgb_to_hex (JInt 1) (JInt 0) (JInt 0) = Ok "FF0000"%string ∧
  rgb_to_hex (JFloat (float_of_Z 1)) (JFloat (S754_zero false)) (JFloat (S754_zero false))
    = Ok "FF0000"%string ∧
  rgb_to_hex (JInt 0) (JInt 0) (JInt 0) = Ok "000000"%string ∧
  rgb_to_hex (JFloat (S754_finite false 4503599627370496 (-53)))
             (JFloat (S754_finite false 8936554554703808 (-54)))
             (JFloat (S754_finite false 5651576002974740 (-59)))
    = Ok "807E02"%string ∧
  rgb_to_hex (JInt 2) (JInt (-1)) (JInt 0) = Ok "1FE-FF00"%string.
Proof.
  intros Hr Hg Hb. split.
  { destruct (channel_unit r Hr) as (nr & Hnr & Br).
    destruct (channel_unit g Hg) as (ng & Hng & Bg).
    destruct (channel_unit b Hb) as (nb & Hnb & Bb).
    exists nr, ng, nb. split_and!; try done; try lia.
    unfold rgb_to_hex. rewrite Hnr, Hng, Hnb. cbn [mbind result_bind].
    by rewrite !format_02X_byte. }
  split; [apply hex_digit_upper|]. split; [reflexivity|]. split; [reflexivity|].
  split.
  { intros m e He n. split; [reflexivity|]. by apply round_half_even_nearest. }
  split.
  { intros m e He. cbn [py_round cond_Zopp]. by rewrite round_half_even_exact. }
  split_and!; vm_compute; reflexivity.
Qed.

Lemma float_eq_spec f g :
  num_eq (NFloat f) (NFloat g) = true ↔
  (∃ s s', f = S754_zero s ∧ g = S754_zero s') ∨ f = g.
Proof.
  split.
  - destruct f as [s|s| |s m e], g as [s'|s'| |s' m' e']; cbn [num_eq];
      unfold SFeqb, SFcompare; try (left; by eauto); try (by right);
      try (destruct s; done); try (destruct s'; done);
      try (destruct s, s'; done || (by right)).
    destruct s, s'; try done.
    + destruct (Z.compare_spec e e') as [->| |]; try done.
      fold (Pos.compare m m'). destruct (Pos.compare_spec m m') as [->| |]; try done.
      by right.
    + destruct (Z.compare_spec e e') as [->| |]; try done.
      fold (Pos.compare m m'). destruct (Pos.compare_spec m m') as [->| |]; try done.
      by right.
  - intros [(s & s' & -> & ->)|<-]; [done|].
    destruct f as [s|s| |s m e]; cbn [num_eq]; unfold SFeqb, SFcompare;
      try done; try (by destruct s).
    rewrite Z.compare_refl. fold (Pos.compare m m). rewrite Pos.compare_refl.
    by destruct s.
Qed.

Lemma float_eq_Z_inj f z z' :
  float_eq_Z f z = true → float_eq_Z f z' = true → z = z'.
Proof.
  destruct f as [s|s| |s m e]; cbn [float_eq_Z]; try done.
  - intros ?%Z.eqb_eq ?%Z.eqb_eq. lia.
  - destruct (Z.leb_spec 0 e).
    + intros ?%Z.eqb_eq ?%Z.eqb_eq. lia.
    + intros H1%Z.eqb_eq H2%Z.eqb_eq.
      assert (0 < 2 ^ (- e)) by (apply Z.pow_pos_nonneg; lia).
      apply (Z.mul_reg_r _ _ (2 ^ (- e))); lia.
Qed.

Lemma float_eq_Z_eq f g z :
  num_eq (NFloat f) (NFloat g) = true → float_eq_Z f z = float_eq_Z g z.
Proof. by intros [(s & s' & -> & ->)|<-]%float_eq_spec. Qed.

(** The absolute value a finite [float] is compared by. *)
Lemma float_eq_Z_finite s m e z :
  float_eq_Z (S754_finite s m e) z = true →
  (if s then z < 0 else 0 < z) ∧
  (if Z.leb 0 e then Z.abs z = Z.pos m * 2 ^ e
   else Z.abs z * 2 ^ (- e) = Z.pos m).
Proof.
  cbn [float_eq_Z]. destruct (Z.leb_spec 0 e).
  - intros ->%Z.eqb_eq. assert (0 < 2 ^ e) by (apply Z.pow_pos_nonneg; lia).
    destruct s.
    + change (Z.neg m) with (- Z.pos m). split; [nia|].
      rewrite Z.abs_neq by nia. lia.
    + split; [nia|]. rewrite Z.abs_eq by nia. done.
  - intros Hz%Z.eqb_eq. assert (0 < 2 ^ (- e)) by (apply Z.pow_pos_nonneg; lia).
    destruct s.
    + change (Z.neg m) with (- Z.pos m) in Hz. split; [nia|].
      rewrite Z.abs_neq by nia. lia.
    + split; [nia|]. rewrite Z.abs_eq by nia. done.
Qed.

(** Two mantissas of the same value: the one with the lower exponent is
    the other, shifted. *)
Lemma same_value_shift m e m' e' a :
  e ≤ e' →
  (if Z.leb 0 e then a = Z.pos m * 2 ^ e else a * 2 ^ (- e) = Z.pos m) →
  (if Z.leb 0 e' then a = Z.pos m' * 2 ^ e' else a * 2 ^ (- e') = Z.pos m') →
  Z.pos m = Z.pos m' * 2 ^ (e' - e).
Proof.
  intros Hle. destruct (Z.leb_spec 0 e), (Z.leb_spec 0 e'); try lia.
  - intros -> H2. assert (0 < 2 ^ e) by (apply Z.pow_pos_nonneg; lia).
    replace e' with ((e' - e) + e) in H2 at 1 by lia.
    rewrite Z.pow_add_r in H2 by lia. nia.
  - intros H1 ->. rewrite <-H1.
    replace (e' - e) with (e' + - e) by lia. rewrite Z.pow_add_r by lia. lia.
  - intros H1 H2. rewrite <-H1, <-H2.
    replace (- e) with (- e' + (e' - e)) by lia. rewrite Z.pow_add_r by lia. lia.
Qed.

Lemma canonical_shift m e m' e' :
  canonical_mantissa prec emax m e = true →
  canonical_mantissa prec emax m' e' = true →
  e ≤ e' → Z.pos m = Z.pos m' * 2 ^ (e' - e) → e = e' ∧ m = m'.
Proof.
  unfold canonical_mantissa. intros Hc%Z.eqb_eq Hc'%Z.eqb_eq Hle Hm.
  pose proof (digits2_pos_bounds m) as [Hlo Hhi].
  pose proof (digits2_pos_bounds m') as [Hlo' Hhi'].
  set (d := Z.pos (digits2_pos m)) in *. set (d' := Z.pos (digits2_pos m')) in *.
  assert (0 < d ∧ 0 < d') as [Hd Hd'] by (unfold d, d'; lia).
  assert (0 < 2 ^ (e' - e)) as Hp by (apply Z.pow_pos_nonneg; lia).
  assert (2 ^ (d' - 1 + (e' - e)) ≤ Z.pos m) as H1.
  { rewrite Z.pow_add_r by lia. nia. }
  assert (Z.pos m < 2 ^ (d' + (e' - e))) as H2.
  { rewrite Z.pow_add_r by lia. nia. }
  assert (d = d' + (e' - e)) as Hdd.
  { assert (d' - 1 + (e' - e) < d).
    { apply (Z.pow_lt_mono_r_iff 2); lia. }
    assert (d - 1 < d' + (e' - e)).
    { apply (Z.pow_lt_mono_r_iff 2); lia. }
    lia. }
  assert (e = e') as <-.
  { rewrite <-Hc, <-Hc'. f_equal. lia. }
  split; [done|]. rewrite Z.sub_diag in Hm. simpl in Hm. lia.
Qed.

Lemma float_eq_Z_unique f g z :
  valid_binary prec emax f = true → valid_binary prec emax g = true →
  float_eq_Z f z = true → float_eq_Z g z = true →
  num_eq (NFloat f) (NFloat g) = true.
Proof.
  intros Hf Hg Hfz Hgz. apply float_eq_spec.
  destruct f as [s|s| |s m e], g as [s'|s'| |s' m' e']; try done.
  - left. by eauto.
  - apply Z.eqb_eq in Hfz as ->. apply float_eq_Z_finite in Hgz as [Hs _].
    destruct s'; lia.
  - apply Z.eqb_eq in Hgz as ->. apply float_eq_Z_finite in Hfz as [Hs _].
    destruct s; lia.
  - right. apply float_eq_Z_finite in Hfz as [Hs Hv].
    apply float_eq_Z_finite in Hgz as [Hs' Hv'].
    assert (s = s') as <- by (destruct s, s'; lia || done).
    cbn [valid_binary] in Hf, Hg. unfold bounded in Hf, Hg.
    apply andb_prop in Hf as [Hc _]. apply andb_prop in Hg as [Hc' _].
    destruct (Z.le_ge_cases e e') as [Hle|Hle].
    + destruct (canonical_shift m e m' e' Hc Hc' Hle) as [-> ->]; [|done].
      by apply (same_value_shift m e m' e' (Z.abs z)).
    + destruct (canonical_shift m' e' m e Hc' Hc Hle) as [-> ->]; [|done].
      by apply (same_value_shift m' e' m e (Z.abs z)).
Qed.

Lemma num_eq_float_int f z : num_eq (NFloat f) (NInt z) = float_eq_Z f z.
Proof. by destruct f. Qed.

Lemma num_eq_int_float f z : num_eq (NInt z) (NFloat f) = float_eq_Z f z.
Proof. done. Qed.

Lemma num_eq_sym a b : num_eq a b = true → num_eq b a = true.
Proof.
  destruct a as [x|f], b as [y|g].
  - cbn [num_eq]. intros ->%Z.eqb_eq. apply Z.eqb_refl.
  - by rewrite num_eq_float_int.
  - by rewrite num_eq_float_int.
  - intros [(s & s' & -> & ->)|<-]%float_eq_spec; [done|].
    apply float_eq_spec. by right.
Qed.

Lemma num_eq_trans a b c :
  valid_number a → valid_number b → valid_number c →
  num_eq a b = true → num_eq b c = true → num_eq a c = true.
Proof.
  destruct a as [x|f], b as [y|g], c as [z|h]; intros Ha Hb Hc Hab Hbc;
    rewrite ?num_eq_float_int, ?num_eq_int_float in *.
  - apply Z.eqb_eq in Hab as ->. done.
  - apply Z.eqb_eq in Hab as ->. done.
  - apply Z.eqb_eq. by apply (float_eq_Z_inj g).
  - by rewrite <-(float_eq_Z_eq g h x).
  - apply Z.eqb_eq in Hbc as <-. done.
  - by apply (float_eq_Z_unique f h y).
  - by rewrite (float_eq_Z_eq f g z).
  - apply float_eq_spec in Hab as [(s & s' & -> & ->)|<-]; [|done].
    apply float_eq_spec in Hbc as [(s1 & s2 & [= <-] & ->)|<-]; done.
Qed.

Lemma key_number v n :
  binary64_floats v = true → as_number v = Some n → valid_number n.
Proof. destruct v; try done; by intros ? [= <-]. Qed.

Lemma py_eq_scalar a b :
  hashable a = true → hashable b = true →
  py_eq a b = match a, b with
              | JNull, JNull => true
              | JStr s, JStr t => String.eqb s t
              | _, _ => match as_number a, as_number b with
                        | Some x, Some y => num_eq x y
                        | _, _ => false
                        end
              end.
Proof. by destruct a, b. Qed.

(** On keys, [==] is an equivalence: a key equal to a key of the table
    is that key. *)
Lemma py_eq_key_sym a b :
  key_ok a → key_ok b → py_eq a b = true → py_eq b a = true.
Proof.
  intros [Ha _] [Hb _]. rewrite !py_eq_scalar by done.
  destruct a, b; try done; cbn [as_number]; try apply num_eq_sym.
  intros ->%String.eqb_eq. apply String.eqb_refl.
Qed.

Lemma py_eq_key_trans a b c :
  key_ok a → key_ok b → key_ok c →
  py_eq a b = true → py_eq b c = true → py_eq a c = true.
Proof.
  intros [Ha Va] [Hb Vb] [Hc Vc]. rewrite !py_eq_scalar by done.
  destruct a, b; try done; destruct c; try done; cbn [as_number];
    try (apply num_eq_trans; done).
  intros ->%String.eqb_eq. done.
Qed.

Lemma table_set_keys k v m k' v' :
  (k', v') ∈ table_set k v m → k' = k ∨ ∃ v0, (k', v0) ∈ m.
Proof.
  induction m as [|[k0 v0] m IH]; simpl.
  - intros [= -> ->]%list_elem_of_singleton. by left.
  - destruct (py_eq k0 k).
    + intros [[= -> ->]|Hin]%elem_of_cons; right.
      * exists v0. by left.
      * exists v'. by right.
    + intros [[= -> ->]|Hin]%elem_of_cons.
      * right. exists v0. by left.
      * destruct (IH Hin) as [?|[v1 ?]]; [by left|right]. exists v1. by right.
Qed.

(** [m[k] = v] and then [m.get(value)]: the new entry for a [value] equal
    to [k], what the table had for any other. *)
Lemma table_get_set k v m value :
  key_ok k → key_ok value → (∀ k' v', (k', v') ∈ m → key_ok k') →
  table_get value (table_set k v m)
  = if py_eq k value then Some v else table_get value m.
Proof.
  intros Hk Hv. induction m as [|[k0 v0] m IH]; intros Hm; simpl; [done|].
  assert (key_ok k0) as Hk0 by (apply (Hm k0 v0); by left).
  assert (∀ k' v', (k', v') ∈ m → key_ok k') as Hm'.
  { intros k' v' Hin. apply (Hm k' v'). by right. }
  destruct (py_eq k0 k) eqn:E0; simpl.
  - destruct (py_eq k0 value) eqn:E1.
    + rewrite (py_eq_key_trans k k0 value); try done. by apply py_eq_key_sym.
    + destruct (py_eq k value) eqn:E2; [|done].
      by rewrite (py_eq_key_trans k0 k value) in E1.
  - destruct (py_eq k0 value) eqn:E1; [|by apply IH].
    destruct (py_eq k value) eqn:E2; [|done].
    rewrite (py_eq_key_trans k0 value k) in E0; try done. by apply py_eq_key_sym.
Qed.

(** What a value holds is a value of the same kind. *)
Lemma binary64_get d k dflt v :
  binary64_floats d = true → binary64_floats dflt = true →
  py_get d k dflt = Ok v → binary64_floats v = true.
Proof.
  destruct d as [| | | | | |d]; try done. cbn [py_get binary64_floats].
  intros Hd Hdf [= <-]. rewrite forallb_forall in Hd.
  destruct (dict_get k d) as [x|] eqn:Hg; [|done]. simpl.
  induction d as [|[k' x'] d IH]; [done|]. simpl in Hg.
  destruct (String.eqb k k').
  - injection Hg as ->. apply (Hd (k', x)). by left.
  - apply IH; [|done]. intros kv Hin. apply Hd. by right.
Qed.

Lemma binary64_iter v l x :
  binary64_floats v = true → py_iter v = Ok l → x ∈ l →
  binary64_floats x = true.
Proof.
  destruct v as [| | | |s|l'|d]; try done; cbn [py_iter binary64_floats].
  - intros _ [= <-] (c & -> & _)%list_elem_of_fmap. done.
  - intros Hl [= <-] Hx. rewrite forallb_forall in Hl. apply Hl.
    by apply list_elem_of_In.
  - intros _ [= <-] (c & -> & _)%list_elem_of_fmap. done.
Qed.

End HexProofs.

(** ** Proofs for the builder *)
Module BuildProofs.
Import Py OS BuildTokens DiffSpec DiffProofs HexSpec HexProofs BuildSpec.

Lemma typed_variable_inv var :
  typed_variable var = true →
  wf_variable var = true ∧
  ∃ d ty, var = JDict d ∧ dict_get "type" d = Some ty.
Proof.
  unfold typed_variable. intros [Hwf Hty]%andb_true_iff. split; [done|].
  destruct var as [| | | | | |d]; try done. unfold dict_has in Hty.
  destruct (dict_get "type" d) as [ty|] eqn:E; [|done]. by exists d, ty.
Qed.

Lemma wf_variable_inv var :
  wf_variable var = true →
  ∃ d n, var = JDict d ∧ dict_get "name" d = Some (JStr n) ∧
            py_get var "values" (JDict []) = Ok (JDict (values_of var)) ∧
            (dict_has "values" d = false → values_of var = []) ∧
            (dict_has "values" d = true →
             dict_get "values" d = Some (JDict (values_of var))) ∧
            Forall (λ kv, is_dict kv.2 = true) (values_of var).
Proof.
  destruct var as [| | | | | |d]; try done. simpl. unfold dict_has.
  destruct (dict_get "name" d) as [[| | | |n| |]|] eqn:Hn; try done. simpl.
  destruct (dict_get "values" d) as [[| | | | | |v]|] eqn:Hvs; try done; intros Hv.
  - exists d, n. simpl. unfold dict_has. rewrite Hvs. split_and!; try done.
    apply Forall_forall. intros kv Hkv. rewrite forallb_forall in Hv.
    by apply Hv, list_elem_of_In.
  - exists d, n. simpl. unfold dict_has. rewrite Hvs. by split_and!.
Qed.

Lemma alias_loop_ok (items : dict) acc :
  Forall (λ kv, is_dict kv.2 = true) items →
  ∃ r, for_each (λ (acc : dict) (kv : string * json),
                   has ← py_in "aliasId" kv.2;
                   if (has : bool)
                   then a ← py_index kv.2 "aliasId"; Ok (dict_set kv.1 a acc)
                   else Ok acc) items acc = Ok r.
Proof.
  intros Hall. revert acc. induction Hall as [|[k v] items Hv _ IH]; intros acc.
  - by eexists.
  - simpl in *. destruct v as [| | | | | |md]; try done. simpl.
    unfold dict_has. destruct (dict_get "aliasId" md) as [a|]; simpl; apply IH.
Qed.

Lemma get_figma_ids_ok var :
  wf_variable var = true →
  ∃ ids, get_figma_ids var = Ok ids ∧
         dict_get "name" ids = None ∧ dict_get "value" ids = None ∧
         dict_get "description" ids = None ∧ dict_get "type" ids = None.
Proof.
  intros (d & n & -> & Hn & Hget & _ & _ & Hall)%wf_variable_inv.
  unfold get_figma_ids.
  change (py_get (JDict d) "id" (JStr ""))
    with (Ok (default (JStr "") (dict_get "id" d))).
  cbn [mbind result_bind]. rewrite Hget. cbn [mbind result_bind py_items].
  destruct (alias_loop_ok (values_of (JDict d)) [] Hall) as [r ->].
  cbn [mbind result_bind]. eexists. split; [reflexivity|].
  by destruct (py_truthy (JDict r)).
Qed.

Lemma mode_data_wf var mode :
  wf_variable var = true →
  mode_data var mode = Ok (dict_get mode (values_of var)).
Proof.
  intros (d & n & -> & Hn & Hget & Hno & Hyes & Hall)%wf_variable_inv.
  unfold mode_data. rewrite Hget. cbn [mbind result_bind py_in].
  unfold dict_has at 1. destruct (dict_get mode (values_of (JDict d))) as [md|] eqn:Hm;
    [|done].
  destruct (dict_has "values" d) eqn:Hv.
  - cbn [py_index]. rewrite (Hyes eq_refl). cbn [mbind result_bind py_index].
    by rewrite Hm.
  - rewrite (Hno eq_refl) in Hm. done.
Qed.

Lemma py_get_resolved data :
  is_dict data = true → py_get data "resolved" JNull = Ok (resolved_of data).
Proof. by destruct data. Qed.

Lemma values_are_dicts var mode data :
  wf_variable var = true → dict_get mode (values_of var) = Some data →
  is_dict data = true.
Proof.
  intros (d & n & _ & _ & _ & _ & _ & Hall)%wf_variable_inv Hm.
  rewrite Forall_forall in Hall. apply (Hall (mode, data)).
  clear Hall. induction (values_of var) as [|[k v] l IH]; simpl in Hm; [done|].
  destruct (String.eqb_spec mode k) as [->|Hne].
  - injection Hm as ->. by left.
  - right. auto.
Qed.

Lemma state_step_spec gs var :
  typed_variable var = true →
  match dict_get "Mode 1" (values_of var) with
  | None => state_step gs var = Ok gs
  | Some _ =>
      ∃ token, state_step gs var = Ok (append_token "interaction" token gs) ∧
               token_of_mode "Mode 1" var token
  end.
Proof.
  intros (Hwf & d & ty & -> & Hty)%typed_variable_inv.
  destruct (get_figma_ids_ok _ Hwf) as (ids & Hids & Hi1 & Hi2 & _).
  pose proof (mode_data_wf _ "Mode 1" Hwf) as Hmd.
  pose proof (values_are_dicts (JDict d) "Mode 1") as Hdata.
  pose proof Hwf as (? & n & [= <-] & Hn & _)%wf_variable_inv.
  unfold state_step. cbn [py_index]. rewrite Hn, Hty.
  cbn [mbind result_bind py_get]. rewrite Hids. cbn [mbind result_bind].
  rewrite Hmd. cbn [mbind result_bind].
  destruct (dict_get "Mode 1" (values_of (JDict d))) as [data|] eqn:Hm; [|done].
  rewrite (py_get_resolved data) by auto. cbn [mbind result_bind].
  eexists. split; [reflexivity|]. exists data. eexists.
  split; [done|]. split; [reflexivity|]. simpl. by rewrite Hn.
Qed.

Lemma py_in_slash n : py_in "/" (JStr n) = Ok (str_contains "/" n).
Proof. reflexivity. Qed.

Lemma first_segment_str n :
  first_segment (JStr n)
  = Ok (JStr (if str_contains "/" n then hd "" (str_split slash n) else n)).
Proof. unfold first_segment. simpl py_in. cbn [mbind result_bind]. by destruct (str_contains "/" n). Qed.

Lemma size_step_spec gs var :
  wf_variable var = true →
  match first_group var gs, dict_get "Mode 1" (values_of var) with
  | Some g, Some _ =>
      ∃ token, size_step gs var = Ok (append_token g token gs) ∧
               token_of_mode "Mode 1" var token
  | _, _ => size_step gs var = Ok gs
  end.
Proof.
  intros Hwf. destruct (get_figma_ids_ok var Hwf) as (ids & Hids & Hi1 & Hi2 & _).
  pose proof (mode_data_wf var "Mode 1" Hwf) as Hmd.
  pose proof (values_are_dicts var "Mode 1") as Hdata.
  pose proof Hwf as (d & n & -> & Hn & _)%wf_variable_inv.
  unfold size_step, first_group. cbn [py_index name_of]. rewrite Hn.
  cbn [mbind result_bind py_get default from_option id]. rewrite Hids. cbn [mbind result_bind].
  rewrite first_segment_str. cbn [mbind result_bind group_of].
  destruct (dict_has _ gs); cbn [mbind result_bind]; [|by destruct (dict_get _ _)].
  rewrite Hmd. cbn [mbind result_bind].
  destruct (dict_get "Mode 1" (values_of (JDict d))) as [data|] eqn:Hm; [|done].
  rewrite (py_get_resolved data) by auto. cbn [mbind result_bind].
  eexists. split; [reflexivity|]. exists data. eexists.
  split; [done|]. split; [reflexivity|]. simpl. by rewrite Hn.
Qed.

Lemma typography_step_spec gs var :
  typed_variable var = true →
  match second_group var gs, dict_get "Default" (values_of var) with
  | Some g, Some data =>
      ∃ tok, typography_step gs var = Ok (append_token g (JDict tok) gs) ∧
             dict_get "name" tok = Some (name_of var) ∧
             dict_get "value" tok =
               if py_eq (type_of var) (JStr "STRING")
                  || py_eq (type_of var) (JStr "FLOAT")
               then Some (resolved_of data) else None
  | _, _ => typography_step gs var = Ok gs
  end.
Proof.
  intros (Hwf & d & ty & -> & Hty)%typed_variable_inv.
  destruct (get_figma_ids_ok _ Hwf) as (ids & Hids & Hi1 & Hi2 & _).
  pose proof (mode_data_wf _ "Default" Hwf) as Hmd.
  pose proof (values_are_dicts (JDict d) "Default") as Hdata.
  pose proof Hwf as (? & n & [= <-] & Hn & _)%wf_variable_inv.
  unfold typography_step, second_group. cbn [py_index name_of type_of].
  rewrite Hn, Hty.
  cbn [mbind result_bind py_get default from_option id py_split]. rewrite Hids.
  cbn [mbind result_bind].
  destruct (str_split slash n) as [|p0 [|seg rest]]; try done.
  destruct (dict_has seg gs); [|done].
  rewrite Hmd. cbn [mbind result_bind].
  destruct (dict_get "Default" (values_of (JDict d))) as [data|]; [|done].
  rewrite (py_get_resolved data) by auto. cbn [mbind result_bind].
  eexists. split; [reflexivity|].
  destruct (py_eq ty (JStr "STRING")); [cbn [orb]|destruct (py_eq ty (JStr "FLOAT")); cbn [orb]].
  - by rewrite dict_get_set_eq, dict_get_set_ne.
  - by rewrite dict_get_set_eq, dict_get_set_ne.
  - simpl. by rewrite Hi2.
Qed.

Lemma dict_keys_append k t gs : dict_keys (append_token k t gs) = dict_keys gs.
Proof.
  unfold dict_keys, append_token. rewrite <-list_fmap_compose.
  apply list_fmap_ext. intros _ [k' g] _. simpl. by destruct (String.eqb k k').
Qed.

Lemma dict_has_keys {A B} k (d : list (string * A)) (d' : list (string * B)) :
  dict_keys d = dict_keys d' → dict_has k d = dict_has k d'.
Proof.
  unfold dict_keys, dict_has. revert d'.
  induction d as [|[k1 v1] d IH]; intros [|[k2 v2] d']; try done.
  csimpl. intros [= -> Hk]. destruct (String.eqb k k2); [done|]. by apply IH.
Qed.

Lemma dict_keys_emit e gs : dict_keys (emit e gs) = dict_keys gs.
Proof. destruct e as [[k t]|]; [apply dict_keys_append|done]. Qed.

Lemma group_tokens_append g k t gs :
  group_tokens g (append_token k t gs)
  = if String.eqb k g && dict_has g gs
    then (group_tokens g gs ++ [t])%list else group_tokens g gs.
Proof.
  unfold group_tokens, append_token, dict_has.
  induction gs as [|[k' grp] gs IH]; csimpl; [by rewrite andb_false_r|].
  destruct (String.eqb_spec g k') as [->|Hg].
  - destruct (String.eqb_spec k k') as [->|Hk]; simpl; by rewrite String.eqb_refl.
  - destruct (String.eqb_spec k k') as [->|Hk]; simpl;
      destruct (String.eqb_spec g k'); try done.
Qed.

Lemma for_each_emit {A} (step : groups → A → result groups)
    (f : A → option (string * json)) (keys : list string) xs gs :
  (∀ gs x, x ∈ xs → dict_keys gs = keys → step gs x = Ok (emit (f x) gs)) →
  dict_keys gs = keys →
  ∃ gs', for_each step xs gs = Ok gs' ∧ dict_keys gs' = keys ∧
         ∀ g, dict_has g gs = true →
              group_tokens g gs' = (group_tokens g gs ++ emitted f g xs)%list.
Proof.
  revert gs. induction xs as [|x xs IH]; intros gs Hstep Hkeys.
  - exists gs. split; [done|]. split; [done|]. intros g _. by rewrite app_nil_r.
  - simpl. rewrite Hstep by (done || by left). cbn [mbind result_bind].
    destruct (IH (emit (f x) gs)) as (gs' & Hrun & Hk' & Htok).
    { intros gs0 y Hy. apply Hstep. by right. }
    { by rewrite dict_keys_emit. }
    exists gs'. split; [done|]. split; [done|]. intros g Hg.
    rewrite Htok by (by rewrite (dict_has_keys g _ gs) by apply dict_keys_emit).
    unfold emitted. cbn [omap list_omap]. destruct (f x) as [[k t]|]; simpl; [|done].
    rewrite group_tokens_append, Hg, andb_true_r.
    destruct (String.eqb k g); [by rewrite <-app_assoc|done].
Qed.

Lemma size_token_of_mode mode var data :
  dict_get mode (values_of var) = Some data →
  token_of_mode mode var (size_token_of var data).
Proof. intros Hm. exists data. eexists. by split_and!. Qed.

Lemma first_group_keys var (gs gs' : groups) :
  dict_keys gs = dict_keys gs' → first_group var gs = first_group var gs'.
Proof.
  intros Hk. unfold first_group. destruct (name_of var); try done.
  by rewrite (dict_has_keys _ gs gs').
Qed.

Lemma size_step_emit gs var :
  wf_variable var = true → dict_keys gs = dict_keys size_groups →
  size_step gs var = Ok (emit (size_emit var) gs).
Proof.
  intros Hwf Hk. destruct (get_figma_ids_ok var Hwf) as (ids & Hids & _).
  pose proof (mode_data_wf var "Mode 1" Hwf) as Hmd.
  pose proof (values_are_dicts var "Mode 1") as Hdata.
  unfold size_emit, size_token_of, figma_ids_of.
  rewrite <-(first_group_keys var gs) by done. rewrite Hids.
  pose proof Hwf as (d & n & -> & Hn & _)%wf_variable_inv.
  unfold size_step, first_group. cbn [py_index name_of description_of]. rewrite Hn.
  cbn [mbind result_bind py_get default from_option id]. rewrite Hids.
  cbn [mbind result_bind]. rewrite first_segment_str. cbn [mbind result_bind group_of].
  destruct (dict_has _ gs); cbn [mbind result_bind]; [|done].
  rewrite Hmd. cbn [mbind result_bind].
  destruct (dict_get "Mode 1" (values_of (JDict d))) as [data|] eqn:Hm; [|done].
  rewrite (py_get_resolved data) by auto. reflexivity.
Qed.

Lemma stroke_step_emit gs var :
  wf_variable var = true →
  stroke_step gs var = Ok (emit (stroke_emit var) gs).
Proof.
  intros Hwf. destruct (get_figma_ids_ok var Hwf) as (ids & Hids & _).
  pose proof (mode_data_wf var "Light" Hwf) as Hmd.
  pose proof (values_are_dicts var "Light") as Hdata.
  unfold stroke_emit, size_token_of, figma_ids_of, is_stroke.
  rewrite Hids.
  pose proof Hwf as (d & n & -> & Hn & _)%wf_variable_inv.
  unfold stroke_step. cbn [py_index name_of description_of]. rewrite Hn.
  cbn [mbind result_bind py_get default from_option id py_startswith].
  destruct (str_startswith n "stroke/"); [|done].
  rewrite Hids. cbn [mbind result_bind]. rewrite Hmd. cbn [mbind result_bind].
  destruct (dict_get "Light" (values_of (JDict d))) as [data|] eqn:Hm; [|done].
  rewrite (py_get_resolved data) by auto. reflexivity.
Qed.

Lemma groups_json_get kind g gs :
  String.eqb kind "label" = false →
  match groups_json kind gs with
  | JDict gsj =>
      match dict_get g gsj with
      | Some (JDict grp) =>
          match dict_get kind grp with Some (JList l) => l | _ => [] end
      | _ => []
      end
  | _ => []
  end = group_tokens g gs.
Proof.
  intros Hkind. unfold groups_json, group_tokens.
  induction gs as [|[k grp] gs IH]; csimpl; [done|].
  destruct (String.eqb g k); [|done]. simpl. by rewrite Hkind, String.eqb_refl.
Qed.

Lemma group_tokens_drop_empty g gs :
  NoDup (dict_keys gs) → group_tokens g (drop_empty gs) = group_tokens g gs.
Proof.
  unfold group_tokens, drop_empty, dict_keys.
  induction gs as [|[k grp] gs IH]; csimpl; [done|]. intros [Hk Hnd]%NoDup_cons.
  destruct (String.eqb_spec g k) as [->|Hg].
  - destruct (tokens grp) eqn:Ht; simpl.
    + destruct (dict_get k (List.filter _ gs)) as [grp'|] eqn:Hget; [|done].
      destruct Hk. apply dict_get_elem in Hget.
      apply list_elem_of_In, filter_In in Hget as [Hget _].
      apply list_elem_of_fmap. exists (k, grp'). split; [done|].
      by apply list_elem_of_In.
    + by rewrite String.eqb_refl.
  - destruct (tokens grp); simpl; [by apply IH|].
    destruct (String.eqb_spec g k); [done|by apply IH].
Qed.

Lemma emitted_elem_of {A} (f : A → option (string * json)) g xs t :
  t ∈ emitted f g xs ↔ ∃ x, x ∈ xs ∧ f x = Some (g, t).
Proof.
  unfold emitted. rewrite list_elem_of_omap. split.
  - intros (x & Hx & Hf). exists x. split; [done|].
    destruct (f x) as [[k t']|]; [|done].
    destruct (String.eqb_spec k g) as [->|]; [|done]. by injection Hf as ->.
  - intros (x & Hx & Hf). exists x. split; [done|].
    by rewrite Hf, String.eqb_refl.
Qed.

Lemma size_groups_NoDup : NoDup (dict_keys size_groups).
Proof. by apply (bool_decide_eq_true_1 (NoDup (dict_keys size_groups))). Qed.

Lemma size_groups_empty g : group_tokens g size_groups = [].
Proof.
  unfold group_tokens, size_groups. simpl.
  repeat (destruct (String.eqb g _); [done|]). done.
Qed.

Section size.
Context `{Runtime}.

Lemma build_size_collection_tokens data size_col color_col svars cvars g :
  find_collection data "Size" = Ok (Some size_col) →
  find_collection data "Color" = Ok (Some color_col) →
  is_ok (get_collection_meta size_col) = true →
  variables size_col = Ok svars → Forall (λ v, wf_variable v = true) svars →
  variables color_col = Ok cvars → Forall (λ v, wf_variable v = true) cvars →
  dict_has g size_groups = true →
  ∃ out, build_size_collection data = Ok out ∧
         built_tokens "tokens" g out
         = (emitted size_emit g svars ++ emitted stroke_emit g cvars)%list.
Proof.
  intros Hs Hc Hmeta Hsv Hswf Hcv Hcwf Hg. unfold build_size_collection.
  rewrite Hs. cbn [mbind result_bind].
  destruct (get_collection_meta size_col) as [meta|]; [|done].
  cbn [mbind result_bind]. rewrite Hsv. cbn [mbind result_bind].
  destruct (for_each_emit size_step size_emit (dict_keys size_groups) svars size_groups)
    as (gs1 & -> & Hk1 & Ht1); [|done|].
  { intros gs x Hx Hk. apply size_step_emit; [|done].
    rewrite Forall_forall in Hswf. auto. }
  cbn [mbind result_bind]. rewrite Hc. cbn [mbind result_bind].
  rewrite Hcv. cbn [mbind result_bind].
  destruct (for_each_emit stroke_step stroke_emit (dict_keys size_groups) cvars gs1)
    as (gs2 & -> & Hk2 & Ht2); [|done|].
  { intros gs x Hx Hk. apply stroke_step_emit.
    rewrite Forall_forall in Hcwf. auto. }
  cbn [mbind result_bind]. eexists. split; [reflexivity|].
  unfold built_tokens. cbn [dict_get String.eqb Ascii.eqb Bool.eqb].
  rewrite groups_json_get by done.
  rewrite group_tokens_drop_empty by (rewrite Hk2; apply size_groups_NoDup).
  rewrite Ht2 by by rewrite (dict_has_keys g gs1 size_groups).
  rewrite Ht1 by done. by rewrite size_groups_empty.
Qed.

(** C6 (as amended): with a Size collection in the input, the [stroke]
    group of the built Size collection holds the Size collection's own
    stroke variables (mode "Mode 1") and, after them, every [stroke/*]
    variable of the Color collection that has a "Light" value, and nothing
    else. *)
Theorem size_merges_color_strokes data size_col color_col svars cvars :
  find_collection data "Size" = Ok (Some size_col) →
  find_collection data "Color" = Ok (Some color_col) →
  is_ok (get_collection_meta size_col) = true →
  variables size_col = Ok svars → Forall (λ v, wf_variable v = true) svars →
  variables color_col = Ok cvars → Forall (λ v, wf_variable v = true) cvars →
  ∃ out own merged,
    build_size_collection data = Ok out ∧
    built_tokens "tokens" "stroke" out = (own ++ merged)%list ∧
    (∀ token, token ∈ merged ↔
       ∃ var mode, var ∈ cvars ∧ is_stroke var = true ∧
                   dict_get "Light" (values_of var) = Some mode ∧
                   token = size_token_of var mode) ∧
    (∀ token, token ∈ own ↔
       ∃ var mode, var ∈ svars ∧ first_group var size_groups = Some "stroke" ∧
                   dict_get "Mode 1" (values_of var) = Some mode ∧
                   token = size_token_of var mode) ∧
    (∀ var mode token, token = size_token_of var mode →
       dict_get "name" (match token with JDict t => t | _ => [] end)
         = Some (name_of var) ∧
       dict_get "value" (match token with JDict t => t | _ => [] end)
         = Some (resolved_of mode)).
Proof.
  intros Hs Hc Hmeta Hsv Hswf Hcv Hcwf.
  destruct (build_size_collection_tokens data size_col color_col svars cvars
              "stroke" Hs Hc Hmeta Hsv Hswf Hcv Hcwf eq_refl) as (out & Hout & Htok).
  exists out, (emitted size_emit "stroke" svars), (emitted stroke_emit "stroke" cvars).
  split; [done|]. split; [done|]. split; [|split].
  - intros token. rewrite emitted_elem_of. unfold stroke_emit. split.
    + intros (var & Hvar & He). exists var.
      destruct (is_stroke var); [|done].
      destruct (dict_get "Light" (values_of var)) as [mode|]; [|done].
      exists mode. by injection He as <-.
    + intros (var & mode & Hvar & Hst & Hm & ->). exists var.
      by rewrite Hst, Hm.
  - intros token. rewrite emitted_elem_of. unfold size_emit. split.
    + intros (var & Hvar & He). exists var.
      destruct (first_group var size_groups) as [g|]; [|done].
      destruct (dict_get "Mode 1" (values_of var)) as [mode|]; [|done].
      exists mode. by injection He as -> <-.
    + intros (var & mode & Hvar & Hst & Hm & ->). exists var.
      by rewrite Hst, Hm.
  - by intros var mode token ->.
Qed.

End size.

Lemma table_get_None k m :
  table_get k m = None → ∀ k' v, (k', v) ∈ m → py_eq k' k = false.
Proof.
  induction m as [|[k0 v0] m IH]; simpl; [by intros _ ?? ?%elem_of_nil|].
  destruct (py_eq k0 k) eqn:E; [done|].
  intros Hm k' v [[= -> ->]|Hin]%elem_of_cons; [done|]. by eapply IH.
Qed.

Lemma py_eq_str v s : py_eq v (JStr s) = true → v = JStr s.
Proof.
  destruct v; simpl; try done. by intros ->%String.eqb_eq.
Qed.

Lemma reverse_lookup_snoc keyword ty before vars var value found :
  reverse_lookup keyword ty before vars value found →
  (∀ k name, entry_of keyword ty before var k name → py_eq k value = false) →
  reverse_lookup keyword ty before (vars ++ [var]) value found.
Proof.
  intros Hl Hvar. destruct found as [name|]; simpl in *.
  - destruct Hl as (pre & var0 & post & k & -> & He & Heq & Hpost).
    exists pre, var0, (post ++ [var])%list, k. split; [by rewrite <-app_assoc|].
    split; [done|]. split; [done|].
    intros var' k' name' [Hin|Hin]%elem_of_app He'.
    + by eapply Hpost.
    + apply list_elem_of_singleton in Hin as ->. by eapply Hvar.
  - intros var' k' name' [Hin|Hin]%elem_of_app He'.
    + by eapply Hl.
    + apply list_elem_of_singleton in Hin as ->. by eapply Hvar.
Qed.

Lemma looks_up_nil keyword ty before : looks_up keyword ty before [] [].
Proof.
  split; [by intros k name ?%elem_of_nil|].
  intros value _ var k name ?%elem_of_nil. done.
Qed.

Lemma looks_up_fed keyword ty before vars var m m' :
  binary64_floats var = true →
  looks_up keyword ty before vars m → fed keyword ty before var m m' →
  looks_up keyword ty before (vars ++ [var]) m'.
Proof.
  intros Hvar [Hkeys Hm] [(k & name & He & Hh & ->)|[Hno ->]].
  - assert (key_ok k) as Hk.
    { split; [done|]. destruct He as (_ & Hr & _). revert Hr.
      unfold default_resolved.
      destruct (py_get var "values" (JDict [])) as [values|] eqn:Hv; [|done].
      cbn [mbind result_bind].
      destruct (py_get values "Default" (JDict [])) as [dm|] eqn:Hd; [|done].
      cbn [mbind result_bind]. intros Hr.
      apply (binary64_get dm "resolved" JNull k); [|done|exact Hr].
      apply (binary64_get values "Default" (JDict []) dm); [|done|exact Hd].
      by apply (binary64_get var "values" (JDict []) values). }
    split.
    + intros k' name' [->|[v0 Hin]]%table_set_keys; [done|by eapply Hkeys].
    + intros value Hvalue. rewrite table_get_set by done.
      destruct (py_eq k value) eqn:Heq.
      * exists vars, var, [], k. split; [done|]. split; [done|]. split; [done|].
        by intros var' k' name' ?%elem_of_nil.
      * apply reverse_lookup_snoc; [by apply Hm|].
        intros k' name' (_ & Hr' & _). destruct He as (_ & Hr & _).
        rewrite Hr in Hr'. by injection Hr' as <-.
  - split; [done|]. intros value Hvalue. apply reverse_lookup_snoc; [by apply Hm|].
    intros k name He. by destruct (Hno k name).
Qed.

(** A variable feeds one map at most: the first of the four whose keyword
    and type fit. *)
Lemma font_map_step_fed maps var maps' :
  font_map_step maps var = Ok maps' →
  fed "family" "STRING" [] var (font_family_map maps) (font_family_map maps') ∧
  fed "weight" "STRING" ["family"] var (font_weight_map maps) (font_weight_map maps') ∧
  fed "size" "FLOAT" [] var (font_size_map maps) (font_size_map maps') ∧
  fed "height" "FLOAT" ["size"] var (font_height_map maps) (font_height_map maps').
Proof.
  unfold font_map_step.
  destruct (py_index var "name") as [name|] eqn:Hn; [|done]. cbn [mbind result_bind].
  destruct (py_get var "values" (JDict [])) as [values|] eqn:Hv; [|done].
  cbn [mbind result_bind].
  destruct (py_get values "Default" (JDict [])) as [dm|] eqn:Hd; [|done].
  cbn [mbind result_bind].
  destruct (py_get dm "resolved" JNull) as [r|] eqn:Hr; [|done].
  cbn [mbind result_bind].
  assert (default_resolved var = Ok r) as Hres.
  { unfold default_resolved. rewrite Hv. cbn [mbind result_bind]. rewrite Hd. done. }
  assert (∀ kw ty before k name',
    entry_of kw ty before var k name' →
    name' = name ∧ k = r ∧ r ≠ JNull ∧ py_get var "type" JNull = Ok (JStr ty) ∧
    py_in kw name = Ok true ∧ ∀ kw', kw' ∈ before → py_in kw' name = Ok false)
    as Hinv.
  { intros kw ty before k name' (Hn' & Hr' & Hnn & Hty & Hin & Hbef).
    rewrite Hn in Hn'. injection Hn' as <-. rewrite Hres in Hr'.
    injection Hr' as <-. done. }
  assert (r = JNull ∨ r ≠ JNull) as [->|Hnn] by (destruct r; auto).
  { intros [= <-]. repeat split; right; (split; [|done]);
      intros k name' (_ & _ & Hnull & _)%Hinv; done. }
  assert (∀ X : result font_maps,
    match r with JNull => Ok maps | _ => X end = X) as Hmatch by (by destruct r).
  rewrite Hmatch. clear Hmatch.
  destruct (py_get var "type" JNull) as [ty|] eqn:Hty; [|done]. cbn [mbind result_bind].
  assert (∀ kw ty' before k name',
    entry_of kw ty' before var k name' →
    ty = JStr ty' ∧ py_in kw name = Ok true ∧
    ∀ kw', kw' ∈ before → py_in kw' name = Ok false) as Hinv'.
  { intros kw ty' before k name' (_ & _ & _ & [= ->] & ? & ?)%Hinv. done. }
  clear Hinv.
  destruct (py_in "family" name) as [inf|] eqn:Hif; [|done]. cbn [mbind result_bind].
  destruct (inf && py_eq ty (JStr "STRING")) eqn:E1.
  { apply andb_true_iff in E1 as [-> ->%py_eq_str].
    unfold py_table_set. destruct (hashable r) eqn:Hh; [|done].
    cbn [mbind result_bind]. intros [= <-]. cbn. split_and!.
    - left. exists r, name. split; [|done]. split_and!; try done.
      by intros kw ?%elem_of_nil.
    - right. split; [|done]. intros k name' (_ & _ & Hb)%Hinv'.
      specialize (Hb "family"). rewrite Hif in Hb.
      assert (@Ok bool true = Ok false) as Hc by (apply Hb; by left). done.
    - right. split; [|done]. by intros k name' ([= ?] & _)%Hinv'.
    - right. split; [|done]. by intros k name' ([= ?] & _)%Hinv'. }
  destruct (py_in "weight" name) as [inw|] eqn:Hiw; [|done]. cbn [mbind result_bind].
  destruct (inw && py_eq ty (JStr "STRING")) eqn:E2.
  { apply andb_true_iff in E2 as [-> ->%py_eq_str].
    rewrite andb_true_r in E1. subst inf.
    unfold py_table_set. destruct (hashable r) eqn:Hh; [|done].
    cbn [mbind result_bind]. intros [= <-]. cbn. split_and!.
    - right. split; [|done]. intros k name' (_ & Hb & _)%Hinv'. congruence.
    - left. exists r, name. split; [|done]. split_and!; try done.
      intros kw Hkw. by apply list_elem_of_singleton in Hkw as ->.
    - right. split; [|done]. by intros k name' ([= ?] & _)%Hinv'.
    - right. split; [|done]. by intros k name' ([= ?] & _)%Hinv'. }
  destruct (py_in "size" name) as [ins|] eqn:His; [|done]. cbn [mbind result_bind].
  destruct (ins && py_eq ty (JStr "FLOAT")) eqn:E3.
  { apply andb_true_iff in E3 as [-> ->%py_eq_str].
    unfold py_table_set. destruct (hashable r) eqn:Hh; [|done].
    cbn [mbind result_bind]. intros [= <-]. cbn. split_and!.
    - right. split; [|done]. by intros k name' ([= ?] & _)%Hinv'.
    - right. split; [|done]. by intros k name' ([= ?] & _)%Hinv'.
    - left. exists r, name. split; [|done]. split_and!; try done.
      by intros kw ?%elem_of_nil.
    - right. split; [|done]. intros k name' (_ & _ & Hb)%Hinv'.
      specialize (Hb "size"). rewrite His in Hb.
      assert (@Ok bool true = Ok false) as Hc by (apply Hb; by left). done. }
  destruct (py_in "height" name) as [inh|] eqn:Hih; [|done]. cbn [mbind result_bind].
  destruct (inh && py_eq ty (JStr "FLOAT")) eqn:E4.
  { apply andb_true_iff in E4 as [-> ->%py_eq_str].
    rewrite andb_true_r in E3. subst ins.
    unfold py_table_set. destruct (hashable r) eqn:Hh; [|done].
    cbn [mbind result_bind]. intros [= <-]. cbn. split_and!.
    - right. split; [|done]. by intros k name' ([= ?] & _)%Hinv'.
    - right. split; [|done]. by intros k name' ([= ?] & _)%Hinv'.
    - right. split; [|done]. intros k name' (_ & Hb & _)%Hinv'. congruence.
    - left. exists r, name. split; [|done]. split_and!; try done.
      intros kw Hkw. by apply list_elem_of_singleton in Hkw as ->. }
  intros [= <-]. split_and!; right; (split; [|done]);
    intros k name' (-> & Hb & _)%Hinv'; rewrite ?Hif, ?Hiw, ?His, ?Hih in Hb;
    injection Hb as ->; done.
Qed.

Lemma for_each_prefix {A S} (P : list A → S → Prop) (step : S → A → result S)
    xs pre acc r :
  P pre acc →
  (∀ pre s x s', P pre s → step s x = Ok s' → P (pre ++ [x])%list s') →
  for_each step xs acc = Ok r → P (pre ++ xs)%list r.
Proof.
  intros Hacc Hstep. revert pre acc Hacc.
  induction xs as [|x xs IH]; intros pre acc Hacc Hrun; simpl in Hrun.
  - injection Hrun as <-. by rewrite app_nil_r.
  - destruct (step acc x) as [acc'|] eqn:Hs; [|done]. cbn in Hrun.
    rewrite (cons_middle x pre xs), app_assoc. eapply IH; [|done]. eauto.
Qed.

Lemma find_in_elem cols name col :
  find_in cols name = Ok (Some col) → col ∈ cols.
Proof.
  induction cols as [|c cols IH]; simpl; [done|].
  destruct (py_get c "name" JNull) as [n|]; [|done]. cbn [mbind result_bind].
  destruct (py_eq n (JStr name)).
  - intros [= ->]. by left.
  - intros ?%IH. by right.
Qed.

Lemma typography_variables_binary64 data vars :
  binary64_floats data = true → typography_variables data = Ok vars →
  Forall (λ var, binary64_floats var = true) vars.
Proof.
  intros Hdata. unfold typography_variables, find_collection.
  destruct (py_iter data) as [cols|] eqn:Hcols; [|done]. cbn [mbind result_bind].
  destruct (find_in cols "Typography") as [[col|]|] eqn:Hfind; try done;
    cbn [mbind result_bind]; [|intros [= <-]; constructor].
  apply find_in_elem in Hfind.
  assert (binary64_floats col = true) as Hcol
    by by apply (binary64_iter data cols col).
  unfold variables.
  destruct (py_get col "variables" (JList [])) as [vs|] eqn:Hvs; [|done].
  cbn [mbind result_bind]. intros Hiter. apply Forall_forall. intros var Hvar.
  apply (binary64_iter vs vars var); [|exact Hiter|exact Hvar].
  by apply (binary64_get col "variables" (JList []) vs).
Qed.

Lemma build_font_maps_look_up data maps :
  binary64_floats data = true → build_font_maps data = Ok maps →
  ∃ vars, typography_variables data = Ok vars ∧ maps_look_up vars maps.
Proof.
  intros Hdata Hmaps.
  destruct (typography_variables data) as [vars|e] eqn:Hvars.
  - exists vars. split; [done|].
    pose proof (typography_variables_binary64 data vars Hdata Hvars) as Hall.
    revert Hmaps Hvars. unfold build_font_maps, typography_variables.
    destruct (find_collection data "Typography") as [[col|]|]; try done;
      cbn [mbind result_bind].
    + intros Hrun Hv. rewrite Hv in Hrun. cbn [mbind result_bind] in Hrun.
      apply (for_each_prefix
        (λ pre maps, Forall (λ var, binary64_floats var = true) pre →
                     maps_look_up pre maps)
        font_map_step vars [] empty_maps maps); [| |done|done].
      * intros _. unfold maps_look_up. split_and!; apply looks_up_nil.
      * intros pre s x s' IH Hstep Hpre. rewrite Forall_app in Hpre.
        destruct Hpre as [Hpre Hx]. rewrite Forall_singleton in Hx.
        destruct (IH Hpre) as (Lf & Lw & Ls & Lh).
        destruct (font_map_step_fed s x s' Hstep) as (Ff & Fw & Fs & Fh).
        unfold maps_look_up. split_and!; by eapply looks_up_fed.
    + intros [= <-] [= <-]. unfold maps_look_up. split_and!; apply looks_up_nil.
  - revert Hmaps Hvars. unfold build_font_maps, typography_variables.
    destruct (find_collection data "Typography") as [[col|]|]; try done;
      cbn [mbind result_bind].
    by destruct (variables col).
Qed.

Section recipe.
Context `{Runtime}.

Lemma recipe_lookup_spec key value m recipe :
  hashable value = true →
  recipe_lookup key value m recipe
  = Ok (match table_get value m with
        | Some name => dict_set key name recipe
        | None => recipe
        end).
Proof. intros Hh. unfold recipe_lookup, py_table_get. by rewrite Hh. Qed.

Lemma build_recipe_spec maps style weight :
  hashable (field style "fontFamily") = true →
  hashable (field style "fontSize") = true →
  hashable (field style "lineHeight") = true →
  weight_lower (field style "fontStyle") = Ok weight →
  ∃ recipe,
    build_recipe maps (JDict style) = Ok recipe ∧
    dict_get "fontFamily" recipe
      = table_get (field style "fontFamily") (font_family_map maps) ∧
    dict_get "fontSize" recipe
      = table_get (field style "fontSize") (font_size_map maps) ∧
    dict_get "lineHeight" recipe
      = table_get (field style "lineHeight") (font_height_map maps) ∧
    dict_get "fontWeight" recipe = Some (JStr ("font/weight/" ++ weight)) ∧
    dict_get "letterSpacing" recipe
      = Some (JStr (letter_spacing_label (field style "letterSpacing"))).
Proof.
  intros Hf Hs Hh Hw. unfold build_recipe. cbn [py_get mbind result_bind].
  fold (field style "fontFamily") (field style "fontStyle")
       (field style "fontSize") (field style "lineHeight")
       (field style "letterSpacing").
  rewrite recipe_lookup_spec by done. cbn [mbind result_bind]. rewrite Hw.
  cbn [mbind result_bind]. rewrite recipe_lookup_spec by done.
  cbn [mbind result_bind]. rewrite recipe_lookup_spec by done.
  cbn [mbind result_bind]. eexists. split; [reflexivity|].
  destruct (table_get (field style "fontFamily") (font_family_map maps));
    destruct (table_get (field style "fontSize") (font_size_map maps));
    destruct (table_get (field style "lineHeight") (font_height_map maps));
    by split_and!.
Qed.

End recipe.

(** C3 (amended): each of the three collections looks its values up under
    one fixed mode name: "Default" for a Typography variable, "Mode 1" for
    a Size variable and "Mode 1", not "Light", for a State variable.  For
    a well-formed variable that has the mode (and belongs to a group), one
    token is appended whose value is what the variable resolves to under
    that mode; a variable without the mode adds no token and raises no
    error. *)
Theorem fixed_mode_names (gs : groups) (var : json) :
  wf_variable var = true →
  (typed_variable var = true →
   match second_group var gs, dict_get "Default" (values_of var) with
   | Some g, Some data =>
       ∃ tok, typography_step gs var = Ok (append_token g (JDict tok) gs) ∧
              dict_get "name" tok = Some (name_of var) ∧
              dict_get "value" tok =
                if py_eq (type_of var) (JStr "STRING")
                   || py_eq (type_of var) (JStr "FLOAT")
                then Some (resolved_of data) else None
   | _, _ => typography_step gs var = Ok gs
   end) ∧
  match first_group var gs, dict_get "Mode 1" (values_of var) with
  | Some g, Some _ =>
      ∃ token, size_step gs var = Ok (append_token g token gs) ∧
               token_of_mode "Mode 1" var token
  | _, _ => size_step gs var = Ok gs
  end ∧
  (typed_variable var = true →
   match dict_get "Mode 1" (values_of var) with
   | Some _ =>
       ∃ token, state_step gs var = Ok (append_token "interaction" token gs) ∧
                token_of_mode "Mode 1" var token
   | None => state_step gs var = Ok gs
   end).
Proof.
  intros Hwf. split; [apply typography_step_spec|].
  split; [by apply size_step_spec|apply state_step_spec].
Qed.

Section recipe.
Context `{Runtime}.

Lemma field_key_ok (style : dict) (key : string) :
  binary64_floats (JDict style) = true → hashable (field style key) = true →
  key_ok (field style key).
Proof.
  intros Hs Hh. split; [done|].
  by apply (binary64_get (JDict style) key JNull).
Qed.

(** C5 (the code departs from it on fontWeight): in the recipe of a text
    style, fontFamily, fontSize and lineHeight are the names found by
    reverse lookup of the style's values among the Typography variables:
    the name of the last "family", "size" or "height" variable of the
    fitting type whose value under "Default" equals the style's; each is
    left out when there is no such variable.  letterSpacing is
    "font/spacing/tight" for -0.5, "font/spacing/normal" for 0 and
    "font/spacing/" followed by the text of the value otherwise.
    fontWeight is not looked up.  The map of the "weight" variables is
    built like the other three and holds the reverse lookup of the style's
    fontStyle, but the recipe never reads it: fontWeight is always there,
    and is "font/weight/" followed by the fontStyle in lower case
    ("regular" when the style has none), whether the lookup finds another
    name or none at all.  The data are values as Python holds them: every
    [float] is a binary64 number. *)
Theorem recipe_of_style (data : json) (maps : font_maps) (style : dict)
    (weight : string) :
  binary64_floats data = true → binary64_floats (JDict style) = true →
  build_font_maps data = Ok maps →
  hashable (field style "fontFamily") = true →
  hashable (field style "fontSize") = true →
  hashable (field style "lineHeight") = true →
  weight_lower (field style "fontStyle") = Ok weight →
  ∃ vars recipe,
    typography_variables data = Ok vars ∧
    build_recipe maps (JDict style) = Ok recipe ∧
    reverse_lookup "family" "STRING" [] vars
      (field style "fontFamily") (dict_get "fontFamily" recipe) ∧
    reverse_lookup "size" "FLOAT" [] vars
      (field style "fontSize") (dict_get "fontSize" recipe) ∧
    reverse_lookup "height" "FLOAT" ["size"] vars
      (field style "lineHeight") (dict_get "lineHeight" recipe) ∧
    dict_get "letterSpacing" recipe
      = Some (JStr
          (if py_eq (field style "letterSpacing") (JFloat minus_half)
           then "font/spacing/tight"
           else if py_eq (field style "letterSpacing") (JInt 0)
           then "font/spacing/normal"
           else "font/spacing/" ++ py_str py_repr (field style "letterSpacing"))) ∧
    (hashable (field style "fontStyle") = true →
     reverse_lookup "weight" "STRING" ["family"] vars
       (field style "fontStyle")
       (table_get (field style "fontStyle") (font_weight_map maps))) ∧
    dict_get "fontWeight" recipe = Some (JStr ("font/weight/" ++ weight)) ∧
    (weight = if py_truthy (field style "fontStyle") then weight else "regular") ∧
    (∀ s, field style "fontStyle" = JStr s → s ≠ "" → weight = str_lower s).
Proof.
  intros Hdata Hstyle Hmaps Hf Hs Hh Hw.
  destruct (build_font_maps_look_up data maps Hdata Hmaps)
    as (vars & Hvars & (_ & Lf) & (_ & Lw) & (_ & Ls) & (_ & Lh)).
  destruct (build_recipe_spec maps style weight Hf Hs Hh Hw)
    as (recipe & Hrec & Rf & Rs & Rh & Rw & Rl).
  exists vars, recipe. split; [done|]. split; [done|].
  rewrite Rf, Rs, Rh. split; [by apply Lf, field_key_ok|].
  split; [by apply Ls, field_key_ok|]. split; [by apply Lh, field_key_ok|].
  split; [done|]. split; [intros Hhw; by apply Lw, field_key_ok|].
  split; [done|]. split.
  { revert Hw. unfold weight_lower. destruct (py_truthy _); [done|by intros [= <-]]. }
  intros s Hs' Hne. unfold weight_lower in Hw. rewrite Hs' in Hw.
  destruct s as [|c s]; [done|].
  change (Ok (str_lower (String c s)) = Ok weight) in Hw. congruence.
Qed.

End recipe.

Section shape.
Context `{Runtime}.

Lemma group_size_ok kind g :
  kind = "tokens" ∨ kind = "styles" → ∃ n, group_size (group_json kind g) = Ok n.
Proof. intros [-> | ->]; by eexists. Qed.

Lemma summary_loop_ok kind (gs : groups) acc :
  kind = "tokens" ∨ kind = "styles" →
  ∃ total,
    for_each (λ (acc : nat) (kv : string * json), n ← group_size kv.2; Ok (acc + n))
      ((λ kg : string * group, (kg.1, group_json kind kg.2)) <$> gs) acc = Ok total.
Proof.
  intros Hkind. revert acc. induction gs as [|[k g] gs IH]; intros acc; csimpl;
    [by eexists|].
  destruct (group_size_ok kind g Hkind) as [n ->]. cbn [mbind result_bind].
  apply IH.
Qed.

Lemma summary_line_ok col : built_shape col → ∃ line, summary_line col = Ok line.
Proof.
  intros (fields & name & kind & gs & -> & Hn & Hg & Hkind).
  unfold summary_line. cbn [py_in py_index]. unfold dict_has. rewrite Hg, Hn.
  cbn [mbind result_bind groups_json py_items py_len].
  destruct (summary_loop_ok kind gs 0 Hkind) as [total ->].
  cbn [mbind result_bind]. by eexists.
Qed.

Ltac shape name kind gs :=
  eexists _, name, kind, gs; split; [reflexivity|]; split; [reflexivity|];
  split; [reflexivity|]; auto.

Lemma build_color_shape data col :
  build_color_collection data = Ok col → built_shape col.
Proof.
  unfold build_color_collection.
  destruct (find_collection data "Color") as [[c|]|]; try done; cbn [mbind result_bind].
  - destruct (get_collection_meta c); [|done]. cbn [mbind result_bind].
    destruct (variables c); [|done]. cbn [mbind result_bind].
    destruct (for_each color_step _ _) as [gs|]; [|done]. cbn [mbind result_bind].
    intros [= <-]. shape "Color" "tokens" (drop_empty gs).
  - intros [= <-]. shape "Color" "tokens" ([] : groups).
Qed.

Lemma build_typography_shape data col :
  build_typography_collection data = Ok col → built_shape col.
Proof.
  unfold build_typography_collection.
  destruct (find_collection data "Typography") as [[c|]|]; try done;
    cbn [mbind result_bind].
  - destruct (get_collection_meta c); [|done]. cbn [mbind result_bind].
    destruct (variables c); [|done]. cbn [mbind result_bind].
    destruct (for_each typography_step _ _) as [gs|]; [|done]. cbn [mbind result_bind].
    intros [= <-]. shape "Typography" "tokens" (drop_empty gs).
  - intros [= <-]. shape "Typography" "tokens" ([] : groups).
Qed.

Lemma build_size_shape data col :
  build_size_collection data = Ok col → built_shape col.
Proof.
  unfold build_size_collection.
  destruct (find_collection data "Size") as [[c|]|]; try done; cbn [mbind result_bind].
  - destruct (get_collection_meta c); [|done]. cbn [mbind result_bind].
    destruct (variables c); [|done]. cbn [mbind result_bind].
    destruct (for_each size_step _ _) as [gs|]; [|done]. cbn [mbind result_bind].
    destruct (find_collection data "Color") as [cc|]; [|done]. cbn [mbind result_bind].
    destruct (match cc with Some _ => _ | None => _ end) as [gs'|]; [|done].
    cbn [mbind result_bind].
    intros [= <-]. shape "Size" "tokens" (drop_empty gs').
  - intros [= <-]. shape "Size" "tokens" ([] : groups).
Qed.

Lemma build_styles_shape data styles col :
  build_styles_collection data styles = Ok col → built_shape col.
Proof.
  unfold build_styles_collection.
  destruct (build_font_maps data); [|done]. cbn [mbind result_bind].
  destruct (py_iter styles); [|done]. cbn [mbind result_bind].
  destruct (for_each _ _ _) as [gs|]; [|done]. cbn [mbind result_bind].
  intros [= <-]. shape "Styles" "styles" gs.
Qed.

Lemma build_state_shape data col :
  build_state_collection data = Ok col → built_shape col.
Proof.
  unfold build_state_collection.
  destruct (find_collection data "State") as [[c|]|]; try done; cbn [mbind result_bind].
  - destruct (get_collection_meta c); [|done]. cbn [mbind result_bind].
    destruct (variables c); [|done]. cbn [mbind result_bind].
    destruct (for_each state_step _ _) as [gs|]; [|done]. cbn [mbind result_bind].
    intros [= <-]. shape "State" "tokens" gs.
  - intros [= <-]. shape "State" "tokens" state_groups.
Qed.

Lemma build_collections_shape data styles cols :
  build_collections data styles = Ok cols → Forall (λ kv, built_shape kv.2) cols.
Proof.
  unfold build_collections.
  destruct (build_color_collection data) eqn:H1; [|done]. cbn [mbind result_bind].
  destruct (build_typography_collection data) eqn:H2; [|done]. cbn [mbind result_bind].
  destruct (build_size_collection data) eqn:H3; [|done]. cbn [mbind result_bind].
  destruct (build_styles_collection data styles) eqn:H4; [|done]. cbn [mbind result_bind].
  destruct (build_state_collection data) eqn:H5; [|done]. cbn [mbind result_bind].
  intros [= <-]. repeat constructor; simpl;
    eauto using build_color_shape, build_typography_shape, build_size_shape,
      build_styles_shape, build_state_shape.
Qed.

(** Printing the summary never fails and touches no file. *)
Lemma summary_runs cols w :
  Forall (λ kv, built_shape kv.2) cols →
  ∃ out, for_prog (λ kv : string * json, line ← lift (summary_line kv.2); print line)
           cols w = (inl (), {| files := files w; stdout := out |}).
Proof.
  intros Hall. revert w. induction Hall as [|[k col] cols Hcol _ IH]; intros w.
  - destruct w. by eexists.
  - cbn [for_prog]. rewrite bind_run, bind_run.
    destruct (summary_line_ok col Hcol) as [line Hline]. simpl in Hline |- *.
    rewrite (lift_Ok _ _ _ Hline). cbn [print].
    destruct (IH {| files := files w; stdout := stdout w ++ [line] |}) as [out ->].
    by eexists.
Qed.

End shape.

Lemma keeps_files_ret {A} (a : A) : keeps_files (mret a).
Proof. by intros w. Qed.

Lemma keeps_files_lift {A} (r : result A) : keeps_files (lift r).
Proof. intros w. by destruct r. Qed.

Lemma keeps_files_print s : keeps_files (print s).
Proof. by intros w. Qed.

Lemma keeps_files_read p : keeps_files (read_file p).
Proof. intros w. unfold read_file. by destruct (files w !! p). Qed.

Lemma keeps_files_exists p : keeps_files (exists_file p).
Proof. by intros w. Qed.

Lemma keeps_files_exit {A} c : keeps_files (@sys_exit A c).
Proof. by intros w. Qed.

Lemma keeps_files_bind {A B} (m : prog A) (f : A → prog B) :
  keeps_files m → (∀ a, keeps_files (f a)) → keeps_files (m ≫= f).
Proof.
  intros Hm Hf w. rewrite bind_run. specialize (Hm w).
  destruct (m w) as [[a|s] w1]; simpl in *; [|done]. by rewrite Hf.
Qed.

Lemma keeps_files_if {A} (b : bool) (m1 m2 : prog A) :
  keeps_files m1 → keeps_files m2 → keeps_files (if b then m1 else m2).
Proof. by destruct b. Qed.

Lemma keeps_files_try {A} (m : prog A) h :
  keeps_files m → (∀ e h', h e = Some h' → keeps_files h') →
  keeps_files (try_except m h).
Proof.
  intros Hm Hh w. unfold try_except. specialize (Hm w).
  destruct (m w) as [[a|[c|e]] w1]; simpl in *; try done.
  destruct (h e) as [h'|] eqn:He; [|done]. by rewrite (Hh e h' He).
Qed.

Lemma keeps_files_for {A} (body : A → prog unit) xs :
  (∀ x, keeps_files (body x)) → keeps_files (for_prog body xs).
Proof.
  intros Hb. induction xs as [|x xs IH]; [by intros w|].
  cbn [for_prog]. apply keeps_files_bind; [apply Hb|by intros _].
Qed.

Ltac keeps_files_go :=
  repeat first
    [ apply keeps_files_bind; [|intros ?]
    | apply keeps_files_if
    | apply keeps_files_ret | apply keeps_files_lift | apply keeps_files_print
    | apply keeps_files_read | apply keeps_files_exists | apply keeps_files_exit
    | apply keeps_files_for; intros ? ].

(** Running [m] and then [f], when [m] keeps the files. *)
Lemma bind_keeps_inv {A B} (m : prog A) (f : A → prog B) w r w' :
  keeps_files m → (m ≫= f) w = (inl r, w') →
  ∃ a w1, m w = (inl a, w1) ∧ files w1 = files w ∧ f a w1 = (inl r, w').
Proof.
  intros Hm. rewrite bind_run. specialize (Hm w).
  destruct (m w) as [[a|s] w1]; simpl in *; [|done]. intros Hf. by exists a, w1.
Qed.

Lemma bind_inv {A B} (m : prog A) (f : A → prog B) w r w' :
  (m ≫= f) w = (inl r, w') →
  ∃ a w1, m w = (inl a, w1) ∧ f a w1 = (inl r, w').
Proof.
  rewrite bind_run. destruct (m w) as [[a|s] w1]; [|done]. intros Hf. by exists a, w1.
Qed.

Section builder.
Context `{Runtime}.

Lemma keeps_files_preserve p output : keeps_files (preserve_changelog p output).
Proof.
  unfold preserve_changelog. apply keeps_files_try.
  - keeps_files_go.
  - intros e h'. destruct e; try done; intros [= <-]; apply keeps_files_ret.
Qed.

Lemma keeps_files_load p : keeps_files (load_figma_data p).
Proof. unfold load_figma_data. keeps_files_go. Qed.

Lemma for_unlink_run (l : list (path * file)) w :
  for_prog (λ old_backup : path * file, unlink old_backup.1) l w
  = (inl (), {| files := foldl (λ m (pf : path * file), delete pf.1 m) (files w) l;
                stdout := stdout w |}).
Proof.
  revert w. induction l as [|x l IH]; intros w; [by destruct w|].
  cbn [for_prog]. rewrite bind_run. cbn [unlink]. by rewrite IH.
Qed.

Lemma backup_and_prune_run output_path t_stamp f w :
  files w !! output_path = Some f →
  ∃ out, backup_and_prune output_path t_stamp w
         = (inl (), {| files := backed_up output_path t_stamp (files w);
                       stdout := out |}).
Proof.
  intros Hf. unfold backup_and_prune, backed_up, pruned. rewrite Hf.
  rewrite bind_run. unfold copy2 at 1. rewrite Hf.
  rewrite bind_run. cbn [print]. rewrite bind_run. cbn [glob_backups files].
  set (fs1 := <[_ := f]> (files w)).
  destruct (keep <? length (sorted_backups _ fs1))%nat eqn:Hk.
  - rewrite bind_run, for_unlink_run. cbn [files stdout print]. by eexists.
  - apply Nat.ltb_ge in Hk.
    replace (length (sorted_backups _ fs1) - keep) with 0 by lia.
    by eexists.
Qed.

End builder.

Section builder.
Context `{Runtime}.

Lemma main_usage argv t_export t_stamp t_write w :
  length argv ≠ 4 →
  main argv t_export t_stamp t_write w
  = (inr (Exited 1), {| files := files w; stdout := stdout w ++ [usage_doc] |}).
Proof.
  intros Hlen. unfold main.
  destruct (length argv =? 4)%nat eqn:E; [by apply Nat.eqb_eq in E|]. done.
Qed.

End builder.

(** ** Backup names and paths *)

Lemma name_in_spec dir p n : name_in dir p = Some n ↔ p = (dir ++ [n])%list.
Proof.
  unfold name_in. split.
  - destruct (last p) as [n'|]; [|done]. case_bool_decide; [|done]. by intros [= <-].
  - intros ->. rewrite last_snoc. by rewrite bool_decide_true.
Qed.

Lemma is_backup_spec dir p :
  is_backup dir p = true ↔ ∃ n, p = (dir ++ [n])%list ∧ is_backup_name n = true.
Proof.
  unfold is_backup. split.
  - destruct (name_in dir p) as [n|] eqn:E; [|done]. apply name_in_spec in E.
    intros Hn. by exists n.
  - intros (n & Hp & Hn). apply name_in_spec in Hp. by rewrite Hp.
Qed.

Lemma length_parent (p : path) : length (parent p) = length p - 1.
Proof.
  unfold parent. induction p as [|a [|b p] IH]; try done.
  change (removelast (a :: b :: p)) with (a :: removelast (b :: p)).
  simpl in *. rewrite IH. lia.
Qed.

Lemma output_not_backup output_path :
  is_backup (backup_dir_of output_path) output_path = false.
Proof.
  apply not_true_is_false. intros (n & Hp & _)%is_backup_spec.
  apply (f_equal length) in Hp. unfold backup_dir_of in Hp.
  rewrite !length_app, length_parent in Hp. simpl in Hp. lia.
Qed.

Lemma str_app_cons c (a b : string) : String c a ++ b = String c (a ++ b).
Proof. reflexivity. Qed.

Lemma str_app_assoc (a b c : string) : (a ++ b) ++ c = a ++ (b ++ c).
Proof. induction a as [|x a IH]; [done|]. rewrite !str_app_cons. by f_equal. Qed.

Lemma str_length_app (a b : string) :
  String.length (a ++ b) = String.length a + String.length b.
Proof.
  induction a as [|x a IH]; [done|]. rewrite str_app_cons. simpl. by f_equal.
Qed.

Lemma string_rev_app_gen (s1 s2 acc : string) :
  String.rev_app (s1 ++ s2) acc = String.rev_app s2 (String.rev_app s1 acc).
Proof. revert acc. induction s1 as [|c s1 IH]; intros acc; simpl; [done|apply IH]. Qed.

Lemma string_rev_app_acc (s acc : string) :
  String.rev_app s acc = String.rev_app s "" ++ acc.
Proof.
  revert acc. induction s as [|c s IH]; intros acc; simpl; [done|].
  rewrite (IH (String c acc)), (IH (String c "")). by rewrite str_app_assoc.
Qed.

Lemma prefix_app (p s : string) : String.prefix p (p ++ s) = true.
Proof.
  induction p as [|c p IH]; [by destruct s|]. rewrite str_app_cons. simpl.
  destruct (ascii_dec c c); [done|congruence].
Qed.

Lemma str_endswith_app (s suffix : string) : str_endswith (s ++ suffix) suffix = true.
Proof.
  unfold str_endswith, String.rev. rewrite string_rev_app_gen.
  rewrite (string_rev_app_acc suffix (String.rev_app s "")). apply prefix_app.
Qed.

Section names.
Context `{Runtime}.

Lemma backup_name_ok t_stamp : is_backup_name (backup_name t_stamp) = true.
Proof.
  unfold is_backup_name, backup_name. rewrite !andb_true_iff. split_and!.
  - apply prefix_app.
  - rewrite <-str_app_assoc. apply str_endswith_app.
  - apply Nat.leb_le. rewrite !str_length_app. simpl. lia.
Qed.

Lemma new_backup_is_backup output_path t_stamp :
  is_backup (backup_dir_of output_path)
    (backup_dir_of output_path ++ [backup_name t_stamp])%list = true.
Proof. apply is_backup_spec. eexists. split; [done|apply backup_name_ok]. Qed.

End names.

(** ** The sorted list of backups *)

#[export] Instance mtime_le_trans : Transitive mtime_le.
Proof. intros a b c. unfold mtime_le. lia. Qed.

#[export] Instance mtime_le_total : Total mtime_le.
Proof. intros a b. unfold mtime_le. lia. Qed.

Lemma sorted_backups_elem_of dir fs p f :
  (p, f) ∈ sorted_backups dir fs ↔ fs !! p = Some f ∧ is_backup dir p = true.
Proof.
  unfold sorted_backups. rewrite merge_sort_Permutation, list_elem_of_In, filter_In.
  rewrite <-list_elem_of_In, elem_of_map_to_list. done.
Qed.

Lemma sorted_backups_NoDup dir fs : NoDup (sorted_backups dir fs).*1.
Proof.
  unfold sorted_backups. rewrite merge_sort_Permutation.
  assert (∀ l : list (path * file), NoDup l.*1 →
            NoDup (List.filter (λ pf, is_backup dir pf.1) l).*1) as Hf.
  { induction l as [|[p f] l IH]; csimpl; [done|]. intros [Hp Hl]%NoDup_cons.
    destruct (is_backup dir p); csimpl; [|by auto].
    apply NoDup_cons. split; [|by auto]. intros Hin. apply Hp.
    apply list_elem_of_fmap in Hin as (pf & -> & Hin).
    apply list_elem_of_In, filter_In in Hin as [Hin _].
    apply list_elem_of_fmap. exists pf. split; [done|]. by apply list_elem_of_In. }
  apply Hf, NoDup_fst_map_to_list.
Qed.

Lemma sorted_backups_sorted dir fs : StronglySorted mtime_le (sorted_backups dir fs).
Proof. apply StronglySorted_merge_sort; apply _. Qed.

Lemma NoDup_fst_pairs {A B} (l : list (A * B)) : NoDup l.*1 → NoDup l.
Proof. apply NoDup_fmap_1. Qed.

(** Two file systems with the same backups have the same list of
    backups, up to the order of the files of equal age. *)
Lemma sorted_backups_perm dir fs fs' :
  (∀ p, is_backup dir p = true → fs !! p = fs' !! p) →
  sorted_backups dir fs ≡ₚ sorted_backups dir fs'.
Proof.
  intros Heq. apply NoDup_Permutation.
  - apply NoDup_fst_pairs, sorted_backups_NoDup.
  - apply NoDup_fst_pairs, sorted_backups_NoDup.
  - intros [p f]. rewrite !sorted_backups_elem_of. split; intros [Hf Hb]; split;
      try done; [by rewrite <-Heq|by rewrite Heq].
Qed.

Lemma sorted_backups_insert dir fs p f :
  is_backup dir p = true → fs !! p = None →
  sorted_backups dir (<[p := f]> fs) ≡ₚ (p, f) :: sorted_backups dir fs.
Proof.
  intros Hb Hnone. apply NoDup_Permutation.
  - apply NoDup_fst_pairs, sorted_backups_NoDup.
  - apply NoDup_cons. split; [|apply NoDup_fst_pairs, sorted_backups_NoDup].
    rewrite sorted_backups_elem_of. intros [? _]. congruence.
  - intros [q g]. rewrite elem_of_cons, !sorted_backups_elem_of.
    destruct (decide (q = p)) as [->|Hne].
    + rewrite lookup_insert_eq. split.
      * intros [[= ->] _]. by left.
      * intros [[= ->]|[? _]]; [done|congruence].
    + rewrite lookup_insert_ne by done. split; [by right|].
      intros [[= -> ->]|?]; [done|done].
Qed.

(** A copy over a backup that is there replaces it: the number of backups
    stays. *)
Lemma sorted_backups_overwrite dir fs p f g :
  is_backup dir p = true → fs !! p = Some g →
  length (sorted_backups dir (<[p := f]> fs)) = length (sorted_backups dir fs).
Proof.
  intros Hb Hg. rewrite <-(insert_delete_eq fs p f).
  rewrite <-(insert_delete_id fs p g Hg) at 2.
  rewrite !sorted_backups_insert; try done; apply lookup_delete_eq.
Qed.

Lemma foldl_delete_lookup (l : list (path * file)) (fs : gmap path file) p :
  foldl (λ m (pf : path * file), delete pf.1 m) fs l !! p
  = if decide (p ∈ l.*1) then None else fs !! p.
Proof.
  revert fs. induction l as [|[q g] l IH]; intros fs; csimpl; [done|].
  rewrite IH. destruct (decide (p ∈ l.*1)) as [Hin|Hnin].
  - rewrite decide_True; [done|by right].
  - destruct (decide (p = q)) as [->|Hne].
    + rewrite lookup_delete_eq, decide_True; [done|by left].
    + rewrite lookup_delete_ne by done.
      rewrite decide_False; [done|]. by intros [?|?]%elem_of_cons.
Qed.

Section prune.
Context `{Runtime}.

Lemma pruned_lookup dir fs p :
  pruned dir fs !! p
  = if decide (p ∈ (take (length (sorted_backups dir fs) - keep)
                         (sorted_backups dir fs)).*1)
    then None else fs !! p.
Proof. unfold pruned. apply foldl_delete_lookup. Qed.

Lemma pruned_other dir fs p :
  is_backup dir p = false → pruned dir fs !! p = fs !! p.
Proof.
  intros Hb. rewrite pruned_lookup. case_decide as Hin; [|done].
  apply list_elem_of_fmap in Hin as ([q g] & -> & Hin).
  apply subseteq_take, sorted_backups_elem_of in Hin as [_ Hq].
  simpl in Hb. congruence.
Qed.

Lemma pruned_backups dir fs :
  sorted_backups dir (pruned dir fs)
  ≡ₚ drop (length (sorted_backups dir fs) - keep) (sorted_backups dir fs).
Proof.
  set (bs := sorted_backups dir fs). set (k := length bs - keep).
  pose proof (sorted_backups_NoDup dir fs) as Hnd. fold bs in Hnd.
  apply NoDup_Permutation.
  - apply NoDup_fst_pairs, sorted_backups_NoDup.
  - apply NoDup_fst_pairs. rewrite <-(take_drop k bs), fmap_app in Hnd.
    by apply NoDup_app in Hnd as (_ & _ & ?).
  - intros [p f]. rewrite sorted_backups_elem_of, pruned_lookup. fold bs k.
    rewrite <-(take_drop k bs) in Hnd. rewrite fmap_app in Hnd.
    apply NoDup_app in Hnd as (_ & Hdisj & _).
    split.
    + case_decide as Hin; [by intros [? _]|]. intros [Hf Hb].
      assert ((p, f) ∈ bs) as Hpf by by apply sorted_backups_elem_of.
      rewrite <-(take_drop k bs) in Hpf. apply elem_of_app in Hpf as [Ht|Hd]; [|done].
      destruct Hin. apply list_elem_of_fmap. by exists (p, f).
    + intros Hd. assert ((p, f) ∈ bs) as Hpf.
      { rewrite <-(take_drop k bs). apply elem_of_app. by right. }
      apply sorted_backups_elem_of in Hpf as [Hf Hb].
      rewrite decide_False; [done|]. intros Hin. apply (Hdisj p Hin).
      apply list_elem_of_fmap. by exists (p, f).
Qed.

Lemma pruned_count dir fs :
  length (sorted_backups dir (pruned dir fs))
  = min (length (sorted_backups dir fs)) keep.
Proof. rewrite pruned_backups, length_drop. lia. Qed.

End prune.

Ltac step_keeps H a w1 Hf :=
  let Hm := fresh "Hm" in
  apply bind_keeps_inv in H as (a & w1 & Hm & Hf & H);
  [clear Hm
  | solve [repeat first [ apply keeps_files_load | apply keeps_files_preserve
                        | progress keeps_files_go ]] ].

Section builder.
Context `{Runtime}.

Lemma backup_step_files output_path t_stamp w r w' :
  (if bool_decide (is_Some (files w !! output_path))
   then backup_and_prune output_path t_stamp else mret ()) w = (inl r, w') →
  files w' = backed_up output_path t_stamp (files w).
Proof.
  unfold backed_up. destruct (files w !! output_path) as [f|] eqn:Hf.
  - rewrite bool_decide_true by eauto.
    destruct (backup_and_prune_run output_path t_stamp f w Hf) as [out ->].
    intros [= _ <-]. unfold backed_up. by rewrite Hf.
  - rewrite bool_decide_false by (by intros [? ?]). by intros [= _ <-].
Qed.

(** The files after a run of [main] that returns: the output file is
    written over what the backup step left. *)
Lemma main_files argv t_export t_stamp t_write w w' :
  length argv = 4 →
  main argv t_export t_stamp t_write w = (inl (), w') →
  ∃ data,
    files w' =
    <[path_parts (default "" (argv !! 3)) :=
        {| f_data := data; f_mtime := t_write |}]>
      (backed_up (path_parts (default "" (argv !! 3))) t_stamp (files w)).
Proof.
  intros Hlen Hrun. unfold main in Hrun. rewrite Hlen in Hrun.
  cbv beta zeta iota delta [Nat.eqb negb] in Hrun.
  step_keeps Hrun a1 w1 Hf1. step_keeps Hrun a2 w2 Hf2.
  step_keeps Hrun a3 w3 Hf3. step_keeps Hrun a4 w4 Hf4.
  step_keeps Hrun a5 w5 Hf5. step_keeps Hrun a6 w6 Hf6.
  step_keeps Hrun a7 w7 Hf7. step_keeps Hrun a8 w8 Hf8.
  step_keeps Hrun a9 w9 Hf9. step_keeps Hrun a10 w10 Hf10.
  step_keeps Hrun a11 w11 Hf11.
  assert (files w11 = files w) as Hw11 by congruence.
  clear Hf1 Hf2 Hf3 Hf4 Hf5 Hf6 Hf7 Hf8 Hf9 Hf10 Hf11.
  apply bind_inv in Hrun as (present & w12 & Hex & Hrun).
  cbn [exists_file] in Hex. injection Hex as <- <-.
  apply bind_inv in Hrun as (u & w13 & Hbk & Hrun).
  apply backup_step_files in Hbk. rewrite Hw11 in Hbk. clear Hw11 w11.
  step_keeps Hrun a14 w14 Hf14. step_keeps Hrun a15 w15 Hf15.
  step_keeps Hrun a16 w16 Hf16.
  apply bind_inv in Hrun as (u2 & w17 & Hwr & Hrun).
  cbn [write_file] in Hwr. injection Hwr as _ <-.
  step_keeps Hrun a18 w18 Hf18. step_keeps Hrun a19 w19 Hf19.
  cbn [print] in Hrun. injection Hrun as <-. cbn [files].
  rewrite Hf19, Hf18. cbn [files]. rewrite Hf16, Hf15, Hf14, Hbk. by eexists.
Qed.

End builder.

Section runs.
Context `{Runtime}.

Lemma between_step output_file (r : run) w w1 made gone :
  let output_path := path_parts output_file in
  length (r_argv r) = 4 → r_argv r !! 3 = Some output_file →
  between output_path w made gone →
  backup_path output_path r ∉ made.*1 →
  run_main r w = (inl (), w1) →
  ∃ f gone1,
    files w !! output_path = Some f ∧
    between output_path w1 (made ++ [(backup_path output_path r, f)]) gone1 ∧
    (length (sorted_backups (backup_dir_of output_path) (files w1)) ≤ keep)%nat.
Proof.
  intros op Hlen Hargv (Hmade & Hnd & Hbk & Hcount & Hord & [f Hf]) Hfresh Hrun.
  exists f. apply main_files in Hrun as [data Hw1]; [|done].
  rewrite Hargv in Hw1. cbn [default from_option id] in Hw1. fold op in Hw1.
  unfold backed_up in Hw1. rewrite Hf in Hw1.
  set (dir := backup_dir_of op) in *. set (bp := backup_path op r) in *.
  change (dir ++ [backup_name (r_stamp r)])%list with bp in Hw1.
  set (L := sorted_backups dir (files w)) in *.
  set (fs1 := <[bp := f]> (files w)) in *.
  set (bs := sorted_backups dir fs1).
  set (k := length bs - keep).
  assert (is_backup dir bp = true) as Hbp by apply new_backup_is_backup.
  assert (files w !! bp = None) as Hnone.
  { destruct (files w !! bp) as [g|] eqn:Hg; [|done]. destruct Hfresh.
    rewrite Hmade, fmap_app. apply elem_of_app. left. apply list_elem_of_fmap.
    exists (bp, g). split; [done|]. by apply sorted_backups_elem_of. }
  assert (bs ≡ₚ (bp, f) :: L) as Hbs by by apply sorted_backups_insert.
  assert (sorted_backups dir (files w1) ≡ₚ drop k bs) as HL1.
  { trans (sorted_backups dir (pruned dir fs1)); [|apply pruned_backups].
    apply sorted_backups_perm. intros p Hp.
    rewrite Hw1. apply lookup_insert_ne. intros <-.
    pose proof (output_not_backup op) as Hop. fold dir in Hop. congruence. }
  assert (length bs = S (length L)) as Hlbs by by rewrite Hbs.
  exists (gone ++ take k bs)%list. split; [done|].
  split; [|rewrite HL1, length_drop; unfold k; lia]. unfold between.
  fold dir. split_and!.
  - rewrite HL1. rewrite (Permutation_app_comm gone), app_assoc.
    rewrite (Permutation_app_comm (drop k bs)), take_drop.
    rewrite Hbs, Hmade. rewrite <-Permutation_cons_append. done.
  - rewrite fmap_app. apply NoDup_app. split; [done|]. split.
    + intros p Hp ->%list_elem_of_singleton. done.
    + apply NoDup_singleton.
  - apply Forall_app. split; [done|]. by apply Forall_singleton.
  - intros Hgone1. rewrite HL1, length_drop. unfold k.
    destruct gone as [|g0 gone0].
    + destruct (take (length bs - keep) bs) eqn:Htake; [done|].
      assert (length (take (length bs - keep) bs) ≠ 0) as Hk0 by by rewrite Htake.
      rewrite length_take in Hk0. lia.
    + fold L in Hcount. rewrite Hlbs, Hcount by done. lia.
  - intros x y Hx Hy. rewrite HL1 in Hy.
    pose proof (sorted_backups_sorted dir fs1) as Hsorted. fold bs in Hsorted.
    rewrite <-(take_drop k bs) in Hsorted.
    apply elem_of_app in Hx as [Hx|Hx].
    2:{ by apply (StronglySorted_app_1_elem_of _ _ _ _ _ Hsorted). }
    assert (y ∈ bs) as Hybs by (by apply (subseteq_drop k)).
    rewrite Hbs in Hybs. apply elem_of_cons in Hybs as [->|HyL]; [|by apply Hord].
    destruct (take k bs) as [|e tk] eqn:Htake.
    { (* nothing was pruned: nothing had been deleted before either *)
      assert (length (take k bs) = 0) as Hk0 by by rewrite Htake.
      rewrite length_take in Hk0.
      destruct gone as [|g0 gone0]; [by apply elem_of_nil in Hx|].
      fold L in Hcount. unfold k in Hk0. rewrite Hlbs, Hcount in Hk0 by done.
      unfold keep in Hk0. lia. }
    assert (mtime_le e (bp, f)) as He.
    { apply (StronglySorted_app_1_elem_of _ _ _ _ _ Hsorted); [by left|done]. }
    assert (e ∈ L) as HeL.
    { assert (e ∈ bs) as Hebs.
      { apply (subseteq_take k). rewrite Htake. by left. }
      rewrite Hbs in Hebs. apply elem_of_cons in Hebs as [->|?]; [|done].
      pose proof (sorted_backups_NoDup dir fs1) as Hnd1. fold bs in Hnd1.
      apply NoDup_fst_pairs in Hnd1. rewrite <-(take_drop k bs), Htake in Hnd1.
      apply NoDup_app in Hnd1 as (_ & Hdisj & _).
      destruct (Hdisj (bp, f)); [by left|done]. }
    etrans; [by apply Hord|done].
  - rewrite Hw1, lookup_insert_eq. by eexists.
Qed.

Lemma between_runs output_file rs w w' made gone :
  let output_path := path_parts output_file in
  Forall (λ r, length (r_argv r) = 4 ∧ r_argv r !! 3 = Some output_file) rs →
  between output_path w made gone →
  NoDup (made.*1 ++ (backup_path output_path <$> rs)) →
  run_all rs w = Some w' →
  ∃ gone',
    between output_path w' (made ++ backups_made output_path rs w) gone' ∧
    (rs ≠ [] →
     (length (sorted_backups (backup_dir_of output_path) (files w')) ≤ keep)%nat).
Proof.
  intros op Hall. subst op. revert w made gone.
  induction Hall as [|r rs [Hlen Hargv] Hall IH]; intros w made gone Hbet Hnd Hrun.
  - injection Hrun as <-. exists gone. simpl. by rewrite app_nil_r.
  - cbn [run_all] in Hrun.
    destruct (run_main r w) as [[[]|?] w1] eqn:Hmain; [|done].
    destruct (between_step output_file r w w1 made gone Hlen Hargv Hbet)
      as (f & gone1 & Hf & Hbet1 & Hle1); [|done|].
    { csimpl in Hnd. apply NoDup_app in Hnd as (_ & Hdisj & _).
      intros Hin. apply (Hdisj _ Hin). by left. }
    destruct (IH w1 _ gone1 Hbet1) as (gone' & Hbet' & Hle'); [|done|].
    { csimpl in Hnd. rewrite fmap_app, <-app_assoc. done. }
    exists gone'. cbn [backups_made]. rewrite Hf, Hmain.
    split; [by rewrite <-app_assoc in Hbet'|]. intros _.
    destruct rs as [|r' rs']; [|by apply Hle'].
    injection Hrun as <-. done.
Qed.

Lemma backups_made_length output_file rs w w' :
  Forall (λ r, length (r_argv r) = 4 ∧ r_argv r !! 3 = Some output_file) rs →
  is_Some (files w !! path_parts output_file) →
  run_all rs w = Some w' →
  length (backups_made (path_parts output_file) rs w) = length rs.
Proof.
  intros Hall. revert w. induction Hall as [|r rs [Hlen Hargv] _ IH];
    intros w [f Hf] Hrun; [done|].
  cbn [run_all backups_made] in *. rewrite Hf.
  destruct (run_main r w) as [[[]|?] w1] eqn:Hmain; [|done]. simpl. f_equal.
  apply IH; [|done]. apply main_files in Hmain as [data ->]; [|done].
  rewrite Hargv. cbn [default from_option id]. rewrite lookup_insert_eq.
  by eexists.
Qed.

End runs.

Section rotation.
Context `{Runtime}.

(** C8, as the code has it.  A build that finds the output file copies it
    to the backup directory under the name of its time stamp (over a
    backup of that name, if there is one: the number of backups then
    stays), then deletes the oldest backups by modification time so that
    at most 10 remain.  A build that finds no output file takes no backup
    and deletes none.  Runs on one output path that exists before the
    first of them, each stamped with a second of its own for which no
    backup is there yet, take one backup each; of these and the backups
    that were there before, the 10 newest remain (all of them, when they
    are fewer) and the older ones are deleted.  So after 12 such runs 10
    backups remain, and the number of backups deleted is 2 more than the
    number that were there before the first run: the 2 oldest only when
    there was none. *)
Theorem backup_rotation :
  (∀ argv t_export t_stamp t_write w w' output_file f,
     length argv = 4 → argv !! 3 = Some output_file →
     files w !! path_parts output_file = Some f →
     main argv t_export t_stamp t_write w = (inl (), w') →
     let dir := backup_dir_of (path_parts output_file) in
     let backup := (dir ++ [backup_name t_stamp])%list in
     let copied := <[backup := f]> (files w) in
     let backups := sorted_backups dir copied in
     sorted_backups dir (files w')
       ≡ₚ drop (length backups - 10) backups ∧
     (length (sorted_backups dir (files w')) ≤ 10)%nat ∧
     (∀ x y, x ∈ take (length backups - 10) backups →
             y ∈ sorted_backups dir (files w') → mtime_le x y) ∧
     length backups
       = match files w !! backup with Some _ => 0 | None => 1 end
         + length (sorted_backups dir (files w))) ∧
  (∀ argv t_export t_stamp t_write w w' output_file,
     length argv = 4 → argv !! 3 = Some output_file →
     files w !! path_parts output_file = None →
     main argv t_export t_stamp t_write w = (inl (), w') →
     let dir := backup_dir_of (path_parts output_file) in
     sorted_backups dir (files w') ≡ₚ sorted_backups dir (files w) ∧
     is_Some (files w' !! path_parts output_file)) ∧
  (∀ rs w w' output_file,
     let output_path := path_parts output_file in
     let dir := backup_dir_of output_path in
     let before := sorted_backups dir (files w) in
     rs ≠ [] →
     Forall (λ r, length (r_argv r) = 4 ∧ r_argv r !! 3 = Some output_file) rs →
     NoDup ((λ r, backup_name (r_stamp r)) <$> rs) →
     Forall (λ r, files w !! backup_path output_path r = None) rs →
     is_Some (files w !! output_path) →
     run_all rs w = Some w' →
     ∃ gone,
       (before ++ backups_made output_path rs w)%list
         ≡ₚ (sorted_backups dir (files w') ++ gone)%list ∧
       length (backups_made output_path rs w) = length rs ∧
       length (sorted_backups dir (files w'))
         = min (length before + length rs) 10 ∧
       length gone = length before + length rs - 10 ∧
       (length rs = 12 →
        length (sorted_backups dir (files w')) = 10 ∧
        length gone = length before + 2) ∧
       (∀ x y, x ∈ gone → y ∈ sorted_backups dir (files w') → mtime_le x y) ∧
       (∀ x, x ∈ gone → files w' !! x.1 = None)).
Proof.
  split; [|split].
  - intros argv t_export t_stamp t_write w w' output_file f Hlen Hargv Hf Hrun
      dir backup copied backups.
    apply main_files in Hrun as [data Hw']; [|done].
    rewrite Hargv in Hw'. cbn [default from_option id] in Hw'.
    unfold backed_up in Hw'. rewrite Hf in Hw'. fold dir backup copied in Hw'.
    assert (sorted_backups dir (files w') ≡ₚ drop (length backups - 10) backups)
      as Hperm.
    { trans (sorted_backups dir (pruned dir copied)); [|apply pruned_backups].
      apply sorted_backups_perm. intros p Hp. rewrite Hw'.
      apply lookup_insert_ne. intros <-.
      pose proof (output_not_backup (path_parts output_file)) as Hop.
      fold dir in Hop. congruence. }
    split; [done|]. split; [rewrite Hperm, length_drop; lia|]. split.
    + intros x y Hx Hy. rewrite Hperm in Hy.
      pose proof (sorted_backups_sorted dir copied) as Hsorted. fold backups in Hsorted.
      rewrite <-(take_drop (length backups - 10) backups) in Hsorted.
      by apply (StronglySorted_app_1_elem_of _ _ _ _ _ Hsorted).
    + assert (is_backup dir backup = true) as Hb by apply new_backup_is_backup.
      subst backups copied. destruct (files w !! backup) as [g|] eqn:Hg.
      * exact (sorted_backups_overwrite dir (files w) backup f g Hb Hg).
      * exact (Permutation_length (sorted_backups_insert dir (files w) backup f Hb Hg)).
  - intros argv t_export t_stamp t_write w w' output_file Hlen Hargv Hf Hrun dir.
    apply main_files in Hrun as [data Hw']; [|done].
    rewrite Hargv in Hw'. cbn [default from_option id] in Hw'.
    unfold backed_up in Hw'. rewrite Hf in Hw'. split.
    + apply sorted_backups_perm. intros p Hp. rewrite Hw'.
      apply lookup_insert_ne. intros <-.
      pose proof (output_not_backup (path_parts output_file)) as Hop.
      fold dir in Hop. congruence.
    + rewrite Hw', lookup_insert_eq. by eexists.
  - intros rs w w' output_file output_path dir before Hne Hall Hnd Hnew Hout Hrun.
    subst output_path dir before.
    set (op := path_parts output_file) in *. set (dir := backup_dir_of op) in *.
    set (before := sorted_backups dir (files w)).
    assert (Forall (λ x : path * file, is_backup dir x.1 = true) before) as Hbefore.
    { apply Forall_forall. intros [p f] Hin.
      by apply sorted_backups_elem_of in Hin as [_ ?]. }
    destruct (between_runs output_file rs w w' before [] Hall) as (gone & Hbet & Hle);
      [| |done|].
    { unfold between. fold op dir before. rewrite app_nil_r.
      split_and!; try done; [apply sorted_backups_NoDup|by intros x y ?%elem_of_nil]. }
    { fold op. apply NoDup_app. split; [apply sorted_backups_NoDup|]. split.
      - intros p Hp Hq. apply list_elem_of_fmap in Hp as ([p' f] & -> & Hin).
        apply sorted_backups_elem_of in Hin as [Hf _]. simpl in Hq.
        apply list_elem_of_fmap in Hq as (r & Heq & Hr).
        rewrite Forall_forall in Hnew. specialize (Hnew r Hr). simpl in Hnew.
        congruence.
      - assert (backup_path op <$> rs
                = (λ n, (dir ++ [n])%list) <$> ((λ r, backup_name (r_stamp r)) <$> rs))
          as -> by (by rewrite <-list_fmap_compose).
        assert (Inj (=) (=) (λ n : string, (dir ++ [n])%list)) as Hinj.
        { intros n1 n2 Heq. apply app_inv_head in Heq. by injection Heq. }
        by apply (NoDup_fmap_2 _). }
    specialize (Hle Hne).
    destruct Hbet as (Hmade & Hndm & Hbk & Hcount & Hord & _).
    fold op dir in Hmade, Hcount, Hord, Hbk, Hndm, Hle.
    pose proof (backups_made_length output_file rs w w' Hall Hout Hrun) as Hlm.
    fold op in Hlm.
    pose proof (Permutation_length Hmade) as Hlen. rewrite !length_app, Hlm in Hlen.
    assert (length (sorted_backups dir (files w'))
            = min (length before + length rs) 10) as Hhere.
    { unfold keep in Hle, Hcount. destruct gone as [|g gone].
      - simpl in Hlen. lia.
      - rewrite Hcount in Hlen |- * by done. simpl in Hlen. lia. }
    exists gone. split; [done|]. split; [done|]. split; [done|].
    split; [lia|]. split; [lia|]. split; [done|].
    intros [p g] Hx. simpl. destruct (files w' !! p) as [g'|] eqn:Hg; [|done].
    rewrite Forall_forall in Hbk.
    assert ((p, g) ∈ (before ++ backups_made op rs w)%list) as Hin.
    { rewrite Hmade. apply elem_of_app. by right. }
    assert ((p, g') ∈ sorted_backups dir (files w')) as Hhere'.
    { apply sorted_backups_elem_of. split; [done|]. by apply (Hbk (p, g)). }
    rewrite Hmade, fmap_app in Hndm. apply NoDup_app in Hndm as (_ & Hdisj & _).
    destruct (Hdisj p).
    + apply list_elem_of_fmap. by exists (p, g').
    + apply list_elem_of_fmap. by exists (p, g).
Qed.

End rotation.

Section carry.
Context `{Runtime}.

Lemma preserve_changelog_run output_path output f w :
  files w !! output_path = Some f →
  ∃ out,
    preserve_changelog output_path output w
    = (match carry (f_data f) output with
       | Ok o => inl o
       | Raise e => inr (Uncaught e)
       end, {| files := files w; stdout := out |}).
Proof.
  intros Hf. unfold preserve_changelog, try_except, carry, carry_body.
  rewrite bind_run, (read_file_Some _ _ _ Hf), bind_run.
  destruct (json_loads (f_data f)) as [existing|e]; cbn [lift mbind result_bind].
  2:{ destruct w. destruct e; by eexists. }
  rewrite bind_run.
  destruct (py_in "changelog" existing) as [has|e]; cbn [lift mbind result_bind].
  2:{ destruct w. destruct e; by eexists. }
  destruct has; [|destruct w; by eexists].
  rewrite bind_run.
  destruct (py_index existing "changelog") as [cl|e]; cbn [lift mbind result_bind].
  2:{ destruct w. destruct e; by eexists. }
  rewrite bind_run.
  destruct (py_len cl) as [n|e]; cbn [lift mbind result_bind].
  2:{ destruct w. destruct e; by eexists. }
  by eexists.
Qed.

Lemma backed_up_output output_path t_stamp fs :
  backed_up output_path t_stamp fs !! output_path = fs !! output_path.
Proof.
  unfold backed_up. destruct (fs !! output_path) as [f|] eqn:Hf; [|done].
  rewrite pruned_other by apply output_not_backup.
  rewrite lookup_insert_ne; [done|]. intros Heq.
  pose proof (new_backup_is_backup output_path t_stamp) as Hb.
  rewrite Heq, output_not_backup in Hb. done.
Qed.

(** How [main] ends once the collections are built: the document written
    is the new one, with the changelog of the prior output if there is
    one; an exception the [try] block does not catch ends the run before
    anything is written to the output. *)
Lemma finish_run output_file collections t_export t_stamp t_write w :
  Forall (λ kv, built_shape kv.2) collections →
  let output_path := path_parts output_file in
  let fs := backed_up output_path t_stamp (files w) in
  let written :=
    match files w !! output_path with
    | Some f => carry (f_data f) (new_document t_export collections)
    | None => Ok (new_document t_export collections)
    end in
  ∃ out,
    finish output_file collections t_export t_stamp t_write w
    = match written with
      | Ok output =>
          (inl (),
           {| files := <[output_path := {| f_data := json_dumps (JDict output);
                                           f_mtime := t_write |}]> fs;
              stdout := out |})
      | Raise e => (inr (Uncaught e), {| files := fs; stdout := out |})
      end.
Proof.
  intros Hshape op fs written. unfold finish. cbv zeta. fold op.
  rewrite bind_run. cbn [exists_file]. rewrite bind_run.
  assert (∃ out1,
    (if bool_decide (is_Some (files w !! op))
     then backup_and_prune op t_stamp else mret ()) w
    = (inl (), {| files := fs; stdout := out1 |})) as [out1 ->].
  { unfold fs, backed_up. destruct (files w !! op) as [f|] eqn:Hf.
    - rewrite bool_decide_true by eauto.
      destruct (backup_and_prune_run op t_stamp f w Hf) as [out ->].
      unfold backed_up. rewrite Hf. by eexists.
    - rewrite bool_decide_false by (by intros [? ?]). destruct w. by eexists. }
  rewrite bind_run. cbn [exists_file files]. rewrite bind_run.
  unfold written.
  destruct (files w !! op) as [f|] eqn:Hf.
  - rewrite bool_decide_true by (unfold fs; rewrite backed_up_output, Hf; eauto).
    destruct (preserve_changelog_run op (new_document t_export collections) f
                {| files := fs; stdout := out1 |}) as [out2 Hp].
    { cbn [files]. unfold fs. by rewrite backed_up_output. }
    unfold new_document in Hp |- *. rewrite Hp. cbn [files].
    destruct (carry (f_data f) _) as [output|e]; [|by eexists].
    rewrite bind_run. cbn [print]. rewrite bind_run. cbn [write_file files stdout].
    rewrite bind_run. cbn [print files stdout]. rewrite bind_run.
    match goal with |- context [for_prog _ _ ?w0] =>
      destruct (summary_runs collections w0 Hshape) as [out3 ->] end.
    cbn [print files stdout]. by eexists.
  - rewrite bool_decide_false
      by (unfold fs; rewrite backed_up_output, Hf; by intros [? ?]).
    cbn [mret prog_ret].
    rewrite bind_run. cbn [print]. rewrite bind_run. cbn [write_file files stdout].
    rewrite bind_run. cbn [print files stdout]. rewrite bind_run.
    match goal with |- context [for_prog _ _ ?w0] =>
      destruct (summary_runs collections w0 Hshape) as [out3 ->] end.
    cbn [print files stdout]. by eexists.
Qed.

Lemma main_loaded argv t_export t_stamp t_write w
    input_file styles_file output_file fi fs_ figma_data text_styles n1 n2 collections :
  argv = ["build_tokens.py"; input_file; styles_file; output_file] ∨
  (length argv = 4 ∧ argv !! 1 = Some input_file ∧ argv !! 2 = Some styles_file ∧
   argv !! 3 = Some output_file) →
  files w !! path_parts input_file = Some fi →
  json_loads (f_data fi) = Ok figma_data → py_len figma_data = Ok n1 →
  files w !! path_parts styles_file = Some fs_ →
  json_loads (f_data fs_) = Ok text_styles → py_len text_styles = Ok n2 →
  build_collections figma_data text_styles = Ok collections →
  ∃ out,
    main argv t_export t_stamp t_write w
    = finish output_file collections t_export t_stamp t_write
        {| files := files w; stdout := out |}.
Proof.
  intros Hargv Hfi Hli Hn1 Hfs Hls Hn2 Hbuild.
  assert (length argv = 4 ∧ argv !! 1 = Some input_file ∧
          argv !! 2 = Some styles_file ∧ argv !! 3 = Some output_file)
    as (Hlen & H1 & H2 & H3) by (destruct Hargv as [->|?]; done).
  unfold main, finish. rewrite Hlen, H1, H2, H3.
  cbv beta zeta iota delta [Nat.eqb negb default from_option id].
  rewrite bind_run. cbn [print]. unfold load_figma_data.
  rewrite bind_run, bind_run. cbn [files].
  rewrite (read_file_Some _ fi) by done. rewrite (lift_Ok _ _ _ Hli).
  rewrite bind_run, (lift_Ok _ _ _ Hn1). rewrite bind_run. cbn [print].
  rewrite bind_run. cbn [print]. rewrite bind_run.
  rewrite (read_file_Some _ fs_) by done. rewrite bind_run, (lift_Ok _ _ _ Hls).
  rewrite bind_run, (lift_Ok _ _ _ Hn2). rewrite bind_run. cbn [print].
  rewrite bind_run. cbn [print]. rewrite bind_run, (lift_Ok _ _ _ Hbuild).
  cbn [files stdout]. by eexists.
Qed.

End carry.

Section carry.
Context `{Runtime}.

Lemma carry_corrupt text output :
  json_loads text = Raise JSONDecodeError → carry text output = Ok output.
Proof. intros Hl. unfold carry, carry_body. by rewrite Hl. Qed.

Lemma carry_no_changelog text e output :
  json_loads text = Ok (JDict e) → dict_get "changelog" e = None →
  carry text output = Ok output.
Proof.
  intros Hl Hc. unfold carry, carry_body. rewrite Hl. cbn [mbind result_bind py_in].
  unfold dict_has. by rewrite Hc.
Qed.

Lemma carry_changelog text e cl output :
  json_loads text = Ok (JDict e) → dict_get "changelog" e = Some (JList cl) →
  carry text output = Ok (dict_set "changelog" (JList cl) output).
Proof.
  intros Hl Hc. unfold carry, carry_body. rewrite Hl. cbn [mbind result_bind py_in].
  unfold dict_has. rewrite Hc. cbn [is_Some_dec bool_decide decide_rel]. simpl.
  by rewrite Hc.
Qed.

Lemma carry_not_iterable text v output :
  json_loads text = Ok v → py_in "changelog" v = Raise TypeError →
  carry text output = Raise TypeError.
Proof. intros Hl Hv. unfold carry, carry_body. rewrite Hl. simpl. by rewrite Hv. Qed.

Lemma new_document_changelog t_export collections v :
  dict_set "changelog" v (new_document t_export collections)
  = (new_document t_export collections ++ [("changelog", v)])%list.
Proof. reflexivity. Qed.

Section run.

Variables (argv : list string) (t_export t_stamp t_write : Z) (w : world).

Variables (input_file styles_file output_file : string) (fi fs_ : file).

Variables (figma_data text_styles : json) (n1 n2 : nat) (collections : dict).

Hypothesis Hargv : argv = ["build_tokens.py"; input_file; styles_file; output_file].

Hypothesis Hfi : files w !! path_parts input_file = Some fi.

Hypothesis Hli : json_loads (f_data fi) = Ok figma_data.

Hypothesis Hn1 : py_len figma_data = Ok n1.

Hypothesis Hfs : files w !! path_parts styles_file = Some fs_.

Hypothesis Hls : json_loads (f_data fs_) = Ok text_styles.

Hypothesis Hn2 : py_len text_styles = Ok n2.

Hypothesis Hbuild : build_collections figma_data text_styles = Ok collections.

Lemma main_written :
  let output_path := path_parts output_file in
  let fs := backed_up output_path t_stamp (files w) in
  let written :=
    match files w !! output_path with
    | Some f => carry (f_data f) (new_document t_export collections)
    | None => Ok (new_document t_export collections)
    end in
  ∃ out,
    main argv t_export t_stamp t_write w
    = match written with
      | Ok output =>
          (inl (),
           {| files := <[output_path := {| f_data := json_dumps (JDict output);
                                           f_mtime := t_write |}]> fs;
              stdout := out |})
      | Raise e => (inr (Uncaught e), {| files := fs; stdout := out |})
      end.
Proof.
  intros op fs written.
  destruct (main_loaded argv t_export t_stamp t_write w input_file styles_file
              output_file fi fs_ figma_data text_styles n1 n2 collections)
    as [out0 ->]; try done; [by left|].
  apply (finish_run output_file collections t_export t_stamp t_write
           {| files := files w; stdout := out0 |}).
  by eapply build_collections_shape.
Qed.

(** The tolerated cases: no prior output, a prior output that is not
    JSON, a prior document without [changelog], and one with a [changelog]
    array, which is carried over as it is. *)
Lemma changelog_carried :
  let output_path := path_parts output_file in
  let fs := backed_up output_path t_stamp (files w) in
  let doc := new_document t_export collections in
  ∀ output,
    match files w !! output_path with
    | None => output = doc
    | Some f =>
        (json_loads (f_data f) = Raise JSONDecodeError ∧ output = doc) ∨
        (∃ e, json_loads (f_data f) = Ok (JDict e) ∧
              dict_get "changelog" e = None ∧ output = doc) ∨
        (∃ e cl, json_loads (f_data f) = Ok (JDict e) ∧
              dict_get "changelog" e = Some (JList cl) ∧
              output = (doc ++ [("changelog", JList cl)])%list)
    end →
    ∃ out,
      main argv t_export t_stamp t_write w
      = (inl (),
         {| files := <[output_path := {| f_data := json_dumps (JDict output);
                                         f_mtime := t_write |}]> fs;
            stdout := out |}).
Proof.
  intros op fs doc output Hcase.
  destruct main_written as [out ->]. fold op fs doc. exists out.
  destruct (files w !! op) as [f|]; [|by subst].
  destruct Hcase as [[Hl ->]|[(e & Hl & Hc & ->)|(e & cl & Hl & Hc & ->)]].
  - by rewrite carry_corrupt.
  - by rewrite (carry_no_changelog _ e).
  - rewrite (carry_changelog _ e cl) by done. unfold doc.
    by rewrite new_document_changelog.
Qed.

(** C7 (the code departs from it): a prior output that is JSON but not an
    object, array or string (the text null, a number, true) has no
    changelog field, and the builder does not proceed: the test
    ["changelog" in existing] raises TypeError, which the except clause
    (JSONDecodeError, KeyError) does not catch.  The run ends with that
    exception after the backup, the new document is not written and the
    prior output stays as it was. *)
Theorem prior_output_not_a_container (f : file) (v : json) :
  files w !! path_parts output_file = Some f →
  json_loads (f_data f) = Ok v →
  py_in "changelog" v = Raise TypeError →
  let output_path := path_parts output_file in
  ∃ w',
    main argv t_export t_stamp t_write w = (inr (Uncaught TypeError), w') ∧
    exit_code (main argv t_export t_stamp t_write w).1 = 1%Z ∧
    files w' = backed_up output_path t_stamp (files w) ∧
    files w' !! output_path = Some f.
Proof.
  intros Hf Hl Hv op.
  destruct main_written as [out Hmain]. unfold op in *.
  rewrite Hf, (carry_not_iterable _ v) in Hmain by done.
  eexists. rewrite Hmain. split; [done|]. split; [done|]. split; [done|].
  cbn [files]. by rewrite backed_up_output.
Qed.

End run.

End carry.

End BuildProofs.

(** ** Proofs for the command line *)
Module CliProofs.
Import Py OS DiffSpec DiffProofs BuildSpec BuildProofs CliSpec.

Lemma no_exit_ret {A} (a : A) : no_exit (mret a).
Proof. by intros w c. Qed.

Lemma no_exit_lift {A} (r : result A) : no_exit (lift r).
Proof. intros w c. by destruct r. Qed.

Lemma no_exit_print s : no_exit (print s).
Proof. by intros w c. Qed.

Lemma no_exit_read p : no_exit (read_file p).
Proof. intros w c. unfold read_file. by destruct (files w !! p). Qed.

Lemma no_exit_exists p : no_exit (exists_file p).
Proof. by intros w c. Qed.

Lemma no_exit_write p d t : no_exit (write_file p d t).
Proof. by intros w c. Qed.

Lemma no_exit_bind {A B} (m : prog A) (f : A → prog B) :
  no_exit m → (∀ a, no_exit (f a)) → no_exit (m ≫= f).
Proof.
  intros Hm Hf w c. rewrite bind_run. specialize (Hm w c).
  destruct (m w) as [[a|s] w1]; simpl in *; [apply Hf|].
  intros [= ->]. by destruct Hm.
Qed.

Lemma no_exit_if {A} (b : bool) (m1 m2 : prog A) :
  no_exit m1 → no_exit m2 → no_exit (if b then m1 else m2).
Proof. by destruct b. Qed.

Lemma no_exit_try {A} (m : prog A) h :
  no_exit m → (∀ e h', h e = Some h' → no_exit h') →
  no_exit (BuildTokens.try_except m h).
Proof.
  intros Hm Hh w c. unfold BuildTokens.try_except. specialize (Hm w c).
  destruct (m w) as [[a|[c'|e]] w1]; simpl in *; try done.
  destruct (h e) as [h'|] eqn:He; [|done]. by apply (Hh e h' He).
Qed.

Lemma no_exit_for {A} (body : A → prog unit) xs :
  (∀ x, no_exit (body x)) → no_exit (BuildTokens.for_prog body xs).
Proof.
  intros Hb. induction xs as [|x xs IH]; [by intros w c|].
  cbn [BuildTokens.for_prog]. apply no_exit_bind; [apply Hb|by intros _].
Qed.

Lemma no_exit_copy2 s d : no_exit (BuildTokens.copy2 s d).
Proof. intros w c. unfold BuildTokens.copy2. by destruct (files w !! s). Qed.

Lemma no_exit_unlink p : no_exit (BuildTokens.unlink p).
Proof. by intros w c. Qed.

Lemma no_exit_glob d : no_exit (BuildTokens.glob_backups d).
Proof. by intros w c. Qed.

Ltac no_exit_go :=
  repeat first
    [ apply no_exit_bind; [|intros ?]
    | apply no_exit_if
    | apply no_exit_ret | apply no_exit_lift | apply no_exit_print
    | apply no_exit_read | apply no_exit_exists | apply no_exit_write
    | apply no_exit_copy2 | apply no_exit_unlink | apply no_exit_glob
    | apply no_exit_for; intros ? ].

Section exits.
Context `{Runtime}.

Lemma no_exit_preserve p output : no_exit (BuildTokens.preserve_changelog p output).
Proof.
  unfold BuildTokens.preserve_changelog. apply no_exit_try.
  - no_exit_go.
  - intros e h'. destruct e; try done; intros [= <-]; apply no_exit_ret.
Qed.

Lemma build_main_no_exit argv t_export t_stamp t_write :
  length argv = 4 → no_exit (BuildTokens.main argv t_export t_stamp t_write).
Proof.
  intros Hlen. unfold BuildTokens.main. rewrite Hlen.
  cbv beta zeta iota delta [Nat.eqb negb].
  unfold BuildTokens.load_figma_data, BuildTokens.backup_and_prune.
  repeat first [apply no_exit_preserve | progress no_exit_go].
Qed.

Lemma diff_main_no_exit argv t_now t_write :
  (3 ≤ length argv)%nat → no_exit (DiffTokens.main argv t_now t_write).
Proof.
  intros Hlen. unfold DiffTokens.main. rewrite bool_decide_false by lia.
  cbv beta zeta. no_exit_go.
Qed.

Lemma diff_main_usage argv t_now t_write w :
  length argv < 3 →
  DiffTokens.main argv t_now t_write w
  = (inr (Exited 1),
     {| files := files w; stdout := stdout w ++ [DiffTokens.usage] |}).
Proof. intros Hlen. unfold DiffTokens.main. by rewrite bool_decide_true. Qed.

(** C9, as the code has it: the builder called with other than three
    operands prints its usage text and exits with code 1; called with
    three, it never exits by itself: a run that completes ends with code
    0.  The differ called with fewer than two operands prints its usage
    line and exits with code 1; called with two or more, whatever
    follows them, it never exits by itself: a run that completes ends
    with code 0. *)
Theorem exit_codes :
  (∀ argv t_export t_stamp t_write w,
     length argv ≠ 4 →
     BuildTokens.main argv t_export t_stamp t_write w
     = (inr (Exited 1),
        {| files := files w; stdout := stdout w ++ [BuildTokens.usage_doc] |})) ∧
  (∀ argv t_export t_stamp t_write w,
     length argv = 4 →
     match (BuildTokens.main argv t_export t_stamp t_write w).1 with
     | inl _ => exit_code (BuildTokens.main argv t_export t_stamp t_write w).1 = 0%Z
     | inr (Uncaught _) => True
     | inr (Exited _) => False
     end) ∧
  (∀ argv t_now t_write w,
     length argv < 3 →
     DiffTokens.main argv t_now t_write w
     = (inr (Exited 1),
        {| files := files w; stdout := stdout w ++ [DiffTokens.usage] |})) ∧
  (∀ argv t_now t_write w,
     (3 ≤ length argv)%nat →
     match (DiffTokens.main argv t_now t_write w).1 with
     | inl _ => exit_code (DiffTokens.main argv t_now t_write w).1 = 0%Z
     | inr (Uncaught _) => True
     | inr (Exited _) => False
     end).
Proof.
  split_and!.
  - intros. by apply main_usage.
  - intros argv te ts tw w Hlen.
    pose proof (build_main_no_exit argv te ts tw Hlen w) as Hne.
    destruct (BuildTokens.main argv te ts tw w).1 as [?|[c|e]]; try done.
    by destruct (Hne c).
  - intros. by apply diff_main_usage.
  - intros argv tn tw w Hlen.
    pose proof (diff_main_no_exit argv tn tw Hlen w) as Hne.
    destruct (DiffTokens.main argv tn tw w).1 as [?|[c|e]]; try done.
    by destruct (Hne c).
Qed.

End exits.

End CliProofs.

(* ===================================================================== *)
(** * The samples worked out *)
(* ===================================================================== *)

Module DiffCases.
Import Py OS DiffTokens DiffSpec DiffProofs Examples DiffExamples.
#[local] Existing Instance runtime.

#[local] Existing Instance runtime.

Lemma diff_added_removed_changed_witness :
  distinct_keys old_doc = true ∧ distinct_keys new_doc = true ∧
  flatten_tokens old_doc = Ok old_tokens ∧
  flatten_tokens new_doc = Ok new_tokens ∧
  ∃ ka kr kc added removed changed,
    diff old_doc new_doc = Ok (added ++ removed ++ changed)%list ∧
    keys_sorted ka ∧ keys_sorted kr ∧ keys_sorted kc.
Proof.
  assert (distinct_keys old_doc = true) as Hdo by (vm_compute; reflexivity).
  assert (distinct_keys new_doc = true) as Hdn by (vm_compute; reflexivity).
  assert (flatten_tokens old_doc = Ok old_tokens) as Ho by (vm_compute; reflexivity).
  assert (flatten_tokens new_doc = Ok new_tokens) as Hn by (vm_compute; reflexivity).
  split; [exact Hdo|]. split; [exact Hdn|]. split; [exact Ho|]. split; [exact Hn|].
  destruct (diff_added_removed_changed old_doc new_doc old_tokens new_tokens
              Hdo Hdn Ho Hn)
    as (ka & kr & kc & added & removed & changed & Hd & _ & [Ha _] & [Hr _] & [Hc _] & _).
  exists ka, kr, kc, added, removed, changed. by split_and!.
Defined.

Lemma differ_no_changes_no_write_witness :
  differ_argv !! 1%nat = Some "old.json" ∧
  files (main differ_argv 0 0 same_disk).2 = files same_disk.
Proof.
  split; [reflexivity|].
  refine (proj1 (proj2 (differ_no_changes_no_write differ_argv 0 0 same_disk
            "old.json" "new.json" (file_of "old tokens") (file_of "old tokens")
            old_doc old_doc _ _ _ _ _ _) _ _)); vm_compute; reflexivity.
Defined.

Lemma differ_rewrites_only_changelog_witness :
  json_loads (f_data (file_of "new tokens")) = Ok new_doc ∧
  files (main differ_argv 0 0 differ_disk).2 !! path_parts "old.json"
  = Some (file_of "old tokens").
Proof.
  split; [reflexivity|].
  refine (proj1 (proj2 (differ_rewrites_only_changelog differ_argv 0 0 differ_disk
            "old.json" "new.json" (file_of "old tokens") (file_of "new tokens")
            old_doc new_doc _ _ _ _ _ _)) _); vm_compute; reflexivity.
Defined.

(** The differ takes any number of operands from two on. *)
Lemma differ_accepts_extra_operands :
  exit_code (main ["diff_tokens.py"; "old.json"; "new.json"; "extra"; "operands"]
               0 0 differ_disk).1 = 0%Z ∧
  exit_code (main ["diff_tokens.py"; "old.json"; "new.json"; "--notes"]
               0 0 differ_disk).1 = 0%Z.
Proof. split; vm_compute; reflexivity. Qed.

End DiffCases.

Module BuildCases.
Import Py OS BuildTokens DiffSpec HexSpec BuildSpec HexProofs BuildProofs Examples BuildExamples.
#[local] Existing Instance runtime.

#[local] Existing Instance runtime.

Lemma rgb_to_hex_unit_channels_witness :
  unit_channel (JFloat one) ∧ unit_channel (JFloat half) ∧ unit_channel (JInt 0) ∧
  ∃ nr ng nb,
    channel (JFloat one) = Ok nr ∧ channel (JFloat half) = Ok ng ∧
    channel (JInt 0) = Ok nb ∧
    (0 ≤ nr ≤ 255)%Z ∧ (0 ≤ ng ≤ 255)%Z ∧ (0 ≤ nb ≤ 255)%Z ∧
    rgb_to_hex (JFloat one) (JFloat half) (JInt 0)
    = Ok (two_hex nr ++ two_hex ng ++ two_hex nb)%string.
Proof.
  assert (unit_channel (JFloat one)) as Hr by (repeat split; vm_compute; reflexivity).
  assert (unit_channel (JFloat half)) as Hg by (repeat split; vm_compute; reflexivity).
  assert (unit_channel (JInt 0)) as Hb by (simpl; lia).
  split; [exact Hr|]. split; [exact Hg|]. split; [exact Hb|].
  exact (proj1 (rgb_to_hex_unit_channels (JFloat one) (JFloat half) (JInt 0) Hr Hg Hb)).
Defined.

Lemma fixed_mode_names_witness :
  wf_variable hover = true ∧ typed_variable hover = true ∧
  ∃ token,
    state_step state_groups hover = Ok (append_token "interaction" token state_groups) ∧
    token_of_mode "Mode 1" hover token.
Proof.
  assert (wf_variable hover = true) as Hwf by reflexivity.
  assert (typed_variable hover = true) as Hty by reflexivity.
  split; [exact Hwf|]. split; [exact Hty|].
  exact (proj2 (proj2 (fixed_mode_names state_groups hover Hwf)) Hty).
Defined.

(** A State variable with a value under "Light" only gets no token, and
    one with both modes gets the value it has under "Mode 1". *)
Lemma state_values_not_under_Light :
  dict_get "Light" (values_of pressed) = Some (resolved (JInt 1)) ∧
  build_state_collection (JList [collection "4" "State" [pressed]])
  = Ok (JDict [("name", JStr "State"); ("modes", JList [JStr "default"]);
               ("_meta", JDict [("collectionId", JStr "4"); ("modes", JDict [])]);
               ("groups",
                JDict [("interaction",
                        JDict [("label", JStr "Interaction");
                               ("tokens", JList [])])])]) ∧
  dict_get "Light" (values_of hover) = Some (resolved (JInt 1)) ∧
  build_state_collection (JList [collection "4" "State" [hover]])
  = Ok (JDict [("name", JStr "State"); ("modes", JList [JStr "default"]);
               ("_meta", JDict [("collectionId", JStr "4"); ("modes", JDict [])]);
               ("groups",
                JDict [("interaction",
                        JDict [("label", JStr "Interaction");
                               ("tokens",
                                JList [JDict [("name", JStr "interaction/hover");
                                              ("type", JStr "FLOAT");
                                              ("value", JInt 2);
                                              ("description", JStr "");
                                              ("_figmaId", JStr "4:1")]])])])]).
Proof. split_and!; vm_compute; reflexivity. Qed.

Lemma recipe_of_style_witness :
  binary64_floats figma_data = true ∧ binary64_floats (JDict heading) = true ∧
  build_font_maps figma_data = Ok maps ∧
  weight_lower (field heading "fontStyle") = Ok "semibold"%string ∧
  ∃ vars recipe,
    typography_variables figma_data = Ok vars ∧
    build_recipe maps (JDict heading) = Ok recipe ∧
    reverse_lookup "weight" "STRING" ["family"] vars (JStr "SemiBold")
      (Some (JStr "font/weight/strong")) ∧
    dict_get "fontWeight" recipe = Some (JStr "font/weight/semibold").
Proof.
  assert (binary64_floats figma_data = true) as Hd by (vm_compute; reflexivity).
  assert (binary64_floats (JDict heading) = true) as Hs by (vm_compute; reflexivity).
  assert (build_font_maps figma_data = Ok maps) as Hm by (vm_compute; reflexivity).
  assert (weight_lower (field heading "fontStyle") = Ok "semibold"%string) as Hw
    by (vm_compute; reflexivity).
  assert (field heading "fontStyle" = JStr "SemiBold") as Hfs
    by (vm_compute; reflexivity).
  assert (table_get (JStr "SemiBold") (font_weight_map maps)
          = Some (JStr "font/weight/strong")) as Hget by (vm_compute; reflexivity).
  split; [exact Hd|]. split; [exact Hs|]. split; [exact Hm|]. split; [exact Hw|].
  destruct (recipe_of_style figma_data maps heading "semibold" Hd Hs Hm
              eq_refl eq_refl eq_refl Hw)
    as (vars & recipe & Hv & Hr & _ & _ & _ & _ & Hlw & Hfw & _).
  exists vars, recipe. split; [exact Hv|]. split; [exact Hr|].
  split; [|exact Hfw].
  rewrite Hfs, Hget in Hlw. exact (Hlw eq_refl).
Defined.

(** The style's "SemiBold" is the value of the variable font/weight/strong,
    which a reverse lookup finds; the recipe names font/weight/semibold,
    which no variable has.  The family "Outfit" has no match and is left
    out. *)
Lemma font_weight_is_not_looked_up :
  table_get (JStr "SemiBold") (font_weight_map maps) = Some (JStr "font/weight/strong") ∧
  build_styles_collection figma_data text_styles
  = Ok (JDict
      [("name", JStr "Styles");
       ("groups",
        JDict
          [("heading",
            JDict
              [("label", JStr "Heading");
               ("styles",
                JList
                  [JDict
                     [("name", JStr "text.heading.large");
                      ("specimen", JStr "Fire");
                      ("resolved",
                       JDict [("fontFamily", JStr "Outfit");
                              ("fontStyle", JStr "SemiBold");
                              ("fontSize", JInt 48);
                              ("lineHeight", JInt 60);
                              ("letterSpacing", JInt 0)]);
                      ("recipe",
                       JDict [("fontWeight", JStr "font/weight/semibold");
                              ("fontSize", JStr "font/size/1000");
                              ("letterSpacing", JStr "font/spacing/normal")])]])]);
           ("body", JDict [("label", JStr "Body"); ("styles", JList [])]);
           ("technical", JDict [("label", JStr "Technical"); ("styles", JList [])])])]).
Proof. split; vm_compute; reflexivity. Qed.

Lemma size_merges_color_strokes_witness :
  find_collection figma_data "Size" = Ok (Some (collection "3" "Size" [stroke_thick])) ∧
  ∃ out own merged,
    build_size_collection figma_data = Ok out ∧
    built_tokens "tokens" "stroke" out = (own ++ merged)%list.
Proof.
  split; [reflexivity|].
  destruct (size_merges_color_strokes figma_data
              (collection "3" "Size" [stroke_thick])
              (collection "1" "Color" [stroke_default])
              [stroke_thick] [stroke_default])
    as (out & own & merged & Hout & Htok & _);
    [reflexivity|reflexivity|reflexivity|reflexivity|by repeat constructor
    |reflexivity|by repeat constructor|].
  by exists out, own, merged.
Defined.

(** Without a Size collection the stroke variable of the Color collection
    reaches no group. *)
Lemma no_size_collection_no_merge :
  find_collection color_only "Color"
  = Ok (Some (collection "1" "Color" [stroke_default])) ∧
  is_stroke stroke_default = true ∧
  dict_get "Light" (values_of stroke_default) = Some (resolved (JInt 1)) ∧
  build_size_collection color_only
  = Ok (JDict [("name", JStr "Size"); ("groups", JDict [])]) ∧
  built_tokens "tokens" "stroke"
    (JDict [("name", JStr "Size"); ("groups", JDict [])]) = [].
Proof. split_and!; vm_compute; reflexivity. Qed.

Lemma prior_output_not_a_container_witness :
  json_loads (f_data (file_of "null")) = Ok JNull ∧
  py_in "changelog" JNull = Raise TypeError ∧
  ∃ w',
    main build_argv 5 6 7 null_disk = (inr (Uncaught TypeError), w') ∧
    files w' !! path_parts "tokens.json" = Some (file_of "null").
Proof.
  split; [reflexivity|]. split; [reflexivity|].
  assert (build_collections figma_data text_styles = Ok collections) as Hbuild
    by (vm_compute; reflexivity).
  assert (files null_disk !! path_parts "variables.json" = Some (file_of "variables"))
    as Hfi by (vm_compute; reflexivity).
  assert (files null_disk !! path_parts "styles.json" = Some (file_of "styles"))
    as Hfs by (vm_compute; reflexivity).
  assert (files null_disk !! path_parts "tokens.json" = Some (file_of "null"))
    as Hf by (vm_compute; reflexivity).
  pose proof (prior_output_not_a_container build_argv 5 6 7 null_disk
              "variables.json" "styles.json" "tokens.json"
              (file_of "variables") (file_of "styles") figma_data text_styles 4 1
              collections eq_refl Hfi eq_refl eq_refl Hfs eq_refl eq_refl Hbuild
              (file_of "null") JNull Hf eq_refl eq_refl) as Hthm.
  destruct Hthm as (w' & Hmain & _ & _ & Hf').
  exists w'. split; [exact Hmain|exact Hf'].
Defined.

Lemma backup_rotation_witness :
  run_all (builds (seqZ 1 12)) start_disk = Some (after (builds (seqZ 1 12)) start_disk) ∧
  sorted_backups (backup_dir_of (path_parts "tokens.json")) (files start_disk) = [] ∧
  ∃ gone : list (path * file),
    length (backups_made (path_parts "tokens.json") (builds (seqZ 1 12)) start_disk) = 12 ∧
    length (sorted_backups (backup_dir_of (path_parts "tokens.json"))
              (files (after (builds (seqZ 1 12)) start_disk))) = 10 ∧
    length gone = 2 ∧
    ∀ x, x ∈ gone → files (after (builds (seqZ 1 12)) start_disk) !! x.1 = None.
Proof.
  assert (run_all (builds (seqZ 1 12)) start_disk
          = Some (after (builds (seqZ 1 12)) start_disk)) as Hrun
    by (vm_compute; reflexivity).
  assert (sorted_backups (backup_dir_of (path_parts "tokens.json")) (files start_disk)
          = []) as Hnone by (vm_compute; reflexivity).
  split; [exact Hrun|]. split; [exact Hnone|].
  destruct (proj2 (proj2 backup_rotation) (builds (seqZ 1 12)) start_disk
              (after (builds (seqZ 1 12)) start_disk) "tokens.json")
    as (gone & _ & Hmade & _ & _ & Htwelve & _ & Hgone);
    [done
    |by repeat constructor
    |apply (bool_decide_eq_true_1 _); vm_compute; reflexivity
    |let l := eval vm_compute in (builds (seqZ 1 12)) in
     change (builds (seqZ 1 12)) with l;
     repeat first [apply Forall_nil_2
                  |apply Forall_cons_2; [vm_compute; reflexivity|]]
    |exists (file_of "{...}"); vm_compute; reflexivity
    |exact Hrun
    |].
  destruct (Htwelve eq_refl) as [Hhere Hlen]. rewrite Hnone in Hlen.
  exists gone. split; [exact Hmade|]. split; [exact Hhere|].
  split; [exact Hlen|exact Hgone].
Defined.

(** Twelve runs that start without an output take eleven backups, of
    which one is deleted; twelve runs within one second write one backup
    again and again; twelve runs that find one backup in place delete
    three files. *)
Lemma twelve_runs_fresh_or_within_a_second :
  backup_names (after (builds (seqZ 1 11)) fresh_disk)
  = (λ t, [".backups"; backup_name t]) <$> seqZ 2 10 ∧
  backup_names (after (builds (seqZ 1 12)) fresh_disk)
  = (λ t, [".backups"; backup_name t]) <$> seqZ 3 10 ∧
  is_Some (run_all (builds (replicate 12 1%Z)) start_disk) ∧
  backup_names (after (builds (replicate 12 1%Z)) start_disk)
  = [[".backups"; backup_name 1]] ∧
  backup_names stocked_disk = [[".backups"; backup_name 0]] ∧
  is_Some (run_all (builds (seqZ 1 12)) stocked_disk) ∧
  backup_names (after (builds (seqZ 1 12)) stocked_disk)
  = (λ t, [".backups"; backup_name t]) <$> seqZ 3 10.
Proof.
  split_and!; try (vm_compute; reflexivity); eexists; vm_compute; reflexivity.
Qed.

End BuildCases.

Module CliCases.
Import Py OS DiffSpec BuildSpec CliSpec CliProofs Examples DiffExamples.
#[local] Existing Instance runtime.

#[local] Existing Instance runtime.

Lemma exit_codes_witness :
  (length ["build_tokens.py"; "variables.json"] ≠ 4)%nat ∧
  exit_code (BuildTokens.main ["build_tokens.py"; "variables.json"] 0 0 0
               differ_disk).1 = 1%Z ∧
  exit_code (DiffTokens.main ["diff_tokens.py"; "old.json"] 0 0
               differ_disk).1 = 1%Z.
Proof.
  assert (length ["build_tokens.py"; "variables.json"] ≠ 4)%nat as Hb by (simpl; lia).
  assert (length ["diff_tokens.py"; "old.json"] < 3)%nat as Hd by (simpl; lia).
  split; [exact Hb|]. split.
  - by rewrite (proj1 exit_codes _ 0%Z 0%Z 0%Z differ_disk Hb).
  - by rewrite (proj1 (proj2 (proj2 exit_codes)) _ 0%Z 0%Z differ_disk Hd).
Defined.

End CliCases.
